(** * Scoring and ranking pipeline of the financial product recommender

    A shallow embedding of the product processors
    ([financial_products/*.py]), the category rankers
    ([ranking_algorithms/*.py]), the orchestrating manager
    ([financial_product_manager.py]), the preference extraction and
    answer formatting of the chat helper ([langchain_helper.py]) and the
    record handling of the data loaders ([data_loaders/*.py]), followed
    by the properties of the specification that concern them and by
    further properties of the code.

    Conventions of the embedding.
    - Python [float] values are exact rationals ([Q]); rounding, [inf]
      and [nan] are outside the model.  Scores are compared with [==],
      [<=] and [<] of [Q].  An integer converts to a float exactly: the
      [OverflowError] of Python for an integer beyond the float range is
      outside the model, and a property that depends on such a
      conversion asks for an integer that fits ([float_sized]).
    - Python [str] values are Rocq strings, read as ASCII text:
      [lower], [strip], [split] and the character classes of the regular
      expressions act on ASCII letters, digits and white space.
    - A Python [dict] with string keys is a [gmap string _].
    - Code that can raise returns a [result]; a [try]/[except] is a
      match on it.
    - The manager is embedded over data files whose items are dicts
      ([DataLoader]); [RawRecords] embeds its loop over items of any
      kind and agrees with it on dicts. *)

From Stdlib Require Import QArith Qminmax Qround Qpower Lqa ZArith String Ascii List Lia Bool.
From Stdlib Require Import Sorting.Sorted Sorting.Permutation.
From stdpp Require Import gmap strings.
Import ListNotations.

Set Warnings "-register-all".
Local Open Scope string_scope.
Local Open Scope Q_scope.

(** ** Python values, exceptions and built-ins *)

Inductive PyExn : Type :=
| ValueError | TypeError | AttributeError | KeyError | LoaderError.

Inductive result (A : Type) : Type :=
| Ok (a : A)
| Raise (e : PyExn).
Arguments Ok {A} a.
Arguments Raise {A} e.

#[export] Instance result_ret : MRet result := fun _ a => Ok a.
#[export] Instance result_bind : MBind result := fun _ _ f m =>
  match m with Ok a => f a | Raise e => Raise e end.

(** The values a JSON record or a preference map can hold. *)
Inductive PyVal : Type :=
| PNone
| PBool (b : bool)
| PInt (z : Z)
| PFloat (q : Q)
| PStr (s : string)
| PList (l : list PyVal)
| PDict (d : gmap string PyVal).

Abbreviation PyDict := (gmap string PyVal).

(** [bool(v)]: the truth value Python gives to [v] in [if v:]. *)
Definition truthy (v : PyVal) : bool :=
  match v with
  | PNone => false
  | PBool b => b
  | PInt z => negb (z =? 0)%Z
  | PFloat q => negb (Qeq_bool q 0)
  | PStr s => negb (String.eqb s "")
  | PList l => match l with [] => false | _ => true end
  | PDict d => negb (bool_decide (d = ∅))
  end.

(** [if o:] for an [Optional[float]] attribute. *)
Definition truthy_float (o : option Q) : bool :=
  match o with Some q => negb (Qeq_bool q 0) | None => false end.

Definition truthy_str (o : option string) : bool :=
  match o with Some s => negb (String.eqb s "") | None => false end.

(** [d.get(k)] and [d.get(k, default)]. *)
Definition dict_get (d : PyDict) (k : string) : PyVal :=
  match d !! k with Some v => v | None => PNone end.

Definition dict_get_default (d : PyDict) (k : string) (dflt : PyVal) : PyVal :=
  match d !! k with Some v => v | None => dflt end.

(** *** Strings *)

Definition lower_ascii (c : ascii) : ascii :=
  let n := nat_of_ascii c in
  if (65 <=? n)%nat && (n <=? 90)%nat then ascii_of_nat (n + 32) else c.

(** [s.lower()] *)
Fixpoint lower (s : string) : string :=
  match s with
  | EmptyString => EmptyString
  | String c s' => String (lower_ascii c) (lower s')
  end.

(** [needle in hay] *)
Fixpoint contains (needle hay : string) : bool :=
  if String.prefix needle hay then true
  else match hay with
       | EmptyString => false
       | String _ hay' => contains needle hay'
       end.

(** [sep.join(parts)] *)
Fixpoint join (sep : string) (parts : list string) : string :=
  match parts with
  | [] => ""
  | [p] => p
  | p :: rest => p ++ sep ++ join sep rest
  end.

Fixpoint lstrip (s : string) : string :=
  match s with
  | String c s' => if Ascii.is_space c then lstrip s' else s
  | EmptyString => EmptyString
  end.

Fixpoint rstrip (s : string) : string :=
  match s with
  | EmptyString => EmptyString
  | String c s' =>
      match rstrip s' with
      | EmptyString => if Ascii.is_space c then EmptyString else String c EmptyString
      | t => String c t
      end
  end.

(** [s.strip()] *)
Definition strip (s : string) : string := rstrip (lstrip s).

(** [s.replace(c, '')] for a one-character [c]. *)
Fixpoint remove_char (c : ascii) (s : string) : string :=
  match s with
  | EmptyString => EmptyString
  | String c' s' =>
      if Ascii.eqb c c' then remove_char c s' else String c' (remove_char c s')
  end.

(** [s.split(c)] for a one-character separator: empty pieces are kept. *)
Fixpoint split_on (c : ascii) (s : string) : list string :=
  match s with
  | EmptyString => [""]
  | String c' s' =>
      if Ascii.eqb c c' then "" :: split_on c s'
      else match split_on c s' with
           | w :: ws => String c' w :: ws
           | [] => [String c' ""]
           end
  end.

(** [s.split()]: pieces between runs of white space, none of them empty. *)
Fixpoint split_ws_go (cur : string) (s : string) : list string :=
  match s with
  | EmptyString => match cur with EmptyString => [] | _ => [cur] end
  | String c s' =>
      if Ascii.is_space c
      then match cur with
           | EmptyString => split_ws_go "" s'
           | _ => cur :: split_ws_go "" s'
           end
      else split_ws_go (cur ++ String c "") s'
  end.

Definition split_ws (s : string) : list string := split_ws_go "" s.

(** [s[:n]] for [n >= 0]. *)
Definition str_take (n : nat) (s : string) : string := String.substring 0 n s.

(** [max(l)] on a non-empty list of strings (lexicographic order). *)
Definition str_max (a : string) (rest : list string) : string :=
  fold_left (fun m s => if String.ltb m s then s else m) rest a.

(** [any(p(x) for x in l)] *)
Definition any {A} (p : A -> bool) (l : list A) : bool := existsb p l.

(** [str(n)] for an [int]. *)
Definition digit_char (d : nat) : ascii := ascii_of_nat (48 + d).

Fixpoint pos_digits (fuel : nat) (n : N) (acc : string) : string :=
  match fuel with
  | O => acc
  | S fuel' =>
      let acc' := String (digit_char (N.to_nat (n mod 10))) acc in
      if (n / 10 =? 0)%N then acc' else pos_digits fuel' (n / 10)%N acc'
  end.

Definition str_of_int (z : Z) : string :=
  let n := Z.abs_N z in
  let d := pos_digits (S (N.to_nat (N.log2 n))) n "" in
  if (z <? 0)%Z then String "-" d else d.

(** *** Numbers

    [float(s)] and [int(s)] on strings accept the decimal literals of
    Python: optional surrounding white space, an optional sign, digits
    with an optional fraction and exponent.  Anything else is a
    [ValueError]. *)

Definition digit_of (c : ascii) : option Z :=
  let n := nat_of_ascii c in
  if (48 <=? n)%nat && (n <=? 57)%nat then Some (Z.of_nat (n - 48)) else None.

Definition is_digit (c : ascii) : bool :=
  match digit_of c with Some _ => true | None => false end.

(** The leading digits of [s] and what follows them. *)
Fixpoint take_digits (s : string) : list Z * string :=
  match s with
  | EmptyString => ([], EmptyString)
  | String c s' =>
      match digit_of c with
      | Some d => let '(ds, rest) := take_digits s' in (d :: ds, rest)
      | None => ([], s)
      end
  end.

Definition digits_value (ds : list Z) : Z :=
  fold_left (fun acc d => acc * 10 + d)%Z ds 0%Z.

Definition take_sign (s : string) : bool * string :=
  match s with
  | String "-" s' => (true, s')
  | String "+" s' => (false, s')
  | _ => (false, s)
  end.

Definition parse_exponent (s : string) : option Z :=
  match s with
  | EmptyString => Some 0%Z
  | String c s' =>
      if Ascii.eqb c "e" || Ascii.eqb c "E" then
        let '(neg, s1) := take_sign s' in
        match take_digits s1 with
        | ((_ :: _) as ds, EmptyString) =>
            Some (if neg then - digits_value ds else digits_value ds)%Z
        | _ => None
        end
      else None
  end.

Definition float_of_str (s : string) : result Q :=
  let '(neg, s1) := take_sign (strip s) in
  let '(ip, s2) := take_digits s1 in
  let '(fp, s3) :=
    match s2 with
    | String "." s2' => take_digits s2'
    | _ => ([], s2)
    end in
  match (ip ++ fp)%list, parse_exponent s3 with
  | _ :: _, Some e =>
      let m := inject_Z (digits_value (ip ++ fp)%list) in
      let v := m * Qpower 10 (e - Z.of_nat (length fp)) in
      Ok (if neg then - v else v)
  | _, _ => Raise ValueError
  end.

Definition int_of_str (s : string) : result Z :=
  let '(neg, s1) := take_sign (strip s) in
  match take_digits s1 with
  | ((_ :: _) as ds, EmptyString) =>
      Ok (if neg then - digits_value ds else digits_value ds)%Z
  | _ => Raise ValueError
  end.

(** [float(v)] *)
Definition py_float (v : PyVal) : result Q :=
  match v with
  | PInt z => Ok (inject_Z z)
  | PFloat q => Ok q
  | PBool b => Ok (if b then 1 else 0)
  | PStr s => float_of_str s
  | PNone | PList _ | PDict _ => Raise TypeError
  end.

(** [int(v)]: a float is truncated towards zero. *)
Definition py_int (v : PyVal) : result Z :=
  match v with
  | PInt z => Ok z
  | PFloat q => Ok (if Qle_bool 0 q then Qfloor q else Qceiling q)
  | PBool b => Ok (if b then 1 else 0)%Z
  | PStr s => int_of_str s
  | PNone | PList _ | PDict _ => Raise TypeError
  end.

(** [a < b] on floats. *)
Definition Qlt_bool (a b : Q) : bool := negb (Qle_bool b a).

(** [min(a, b)] and [max(a, b)] on floats. *)
Definition py_min (a b : Q) : Q := Qmin a b.
Definition py_max (a b : Q) : Q := Qmax a b.

(** What the embedding keeps abstract of the Python run time: the
    (per-process) string hash, the formatting of floats, and the order in
    which a set of strings is iterated. *)
Class PyBuiltins : Type := {
  hash_str : string -> string;        (* f"{hash(s)}" *)
  float_str : Q -> string;            (* f"{x}" for a float x *)
  format_1f : Q -> string;            (* f"{x:.1f}" *)
  items_str : PyVal -> string;        (* the text between the brackets of str(v) *)
  set_iter : list string -> list string  (* list(set(l)) *)
}.

(** [str(v)] as used by f-strings. *)
Definition py_str `{PyBuiltins} (v : PyVal) : string :=
  match v with
  | PNone => "None"
  | PBool b => if b then "True" else "False"
  | PInt z => str_of_int z
  | PFloat q => float_str q
  | PStr s => s
  | PList _ => "[" ++ items_str v ++ "]"
  | PDict _ => "{" ++ items_str v ++ "}"
  end.

(** *** Regular expressions

    The fragment of [re] the processors use: literals, [\d], [\s],
    character sets, sequence, greedy [?], [*], [+], and one capturing
    group.  Matching backtracks as [re] does; [k] is the continuation
    that receives the unread text and the text of the group. *)

Inductive regex : Type :=
| RLit (s : string)
| RDigit
| RSpace
| RSet (cs : list ascii) (space : bool)
| RSeq (r1 r2 : regex)
| ROpt (r : regex)
| RStar (r : regex)
| RGroup (r : regex).

Definition RPlus (r : regex) : regex := RSeq r (RStar r).

Fixpoint strip_prefix (p s : string) : option string :=
  match p, s with
  | EmptyString, _ => Some s
  | String a p', String b s' => if Ascii.eqb a b then strip_prefix p' s' else None
  | _, _ => None
  end.

Fixpoint rmatch {X} (r : regex) (s : string) (cap : option string)
    (k : string -> option string -> option X) : option X :=
  match r with
  | RLit p => match strip_prefix p s with Some s' => k s' cap | None => None end
  | RDigit =>
      match s with
      | String c s' => if is_digit c then k s' cap else None
      | EmptyString => None
      end
  | RSpace =>
      match s with
      | String c s' => if Ascii.is_space c then k s' cap else None
      | EmptyString => None
      end
  | RSet cs sp =>
      match s with
      | String c s' =>
          if existsb (Ascii.eqb c) cs || (sp && Ascii.is_space c)
          then k s' cap else None
      | EmptyString => None
      end
  | RSeq r1 r2 => rmatch r1 s cap (fun s1 c1 => rmatch r2 s1 c1 k)
  | ROpt r1 =>
      match rmatch r1 s cap k with
      | Some x => Some x
      | None => k s cap
      end
  | RStar r1 =>
      (fix star (fuel : nat) (s : string) (cap : option string) : option X :=
         match fuel with
         | O => k s cap
         | S fuel' =>
             match rmatch r1 s cap
                     (fun s1 c1 =>
                        if (String.length s1 <? String.length s)%nat
                        then star fuel' s1 c1 else None) with
             | Some x => Some x
             | None => k s cap
             end
         end) (String.length s) s cap
  | RGroup r1 =>
      rmatch r1 s cap
        (fun s1 _ =>
           k s1 (Some (String.substring 0 (String.length s - String.length s1) s)))
  end.

(** A match of [r] at the start of [s]: the unread text and group 1. *)
Definition match_here (r : regex) (s : string) : option (string * string) :=
  rmatch r s None
    (fun rest cap => Some (rest, match cap with Some g => g | None => "" end)).

(** [re.findall(r, s)] for a pattern with one group that cannot match
    the empty string: the group of every match, left to right, with no
    overlap. *)
Fixpoint findall_go (fuel : nat) (r : regex) (s : string) : list string :=
  match fuel with
  | O => []
  | S fuel' =>
      match match_here r s with
      | Some (rest, g) =>
          if (String.length rest <? String.length s)%nat
          then g :: findall_go fuel' r rest
          else match s with
               | String _ s' => findall_go fuel' r s'
               | EmptyString => []
               end
      | None =>
          match s with
          | String _ s' => findall_go fuel' r s'
          | EmptyString => []
          end
      end
  end.

Definition findall (r : regex) (s : string) : list string :=
  findall_go (S (String.length s)) r s.

(** *** Dynamic typing at the boundary

    Raw records and preference maps hold [PyVal]s; the helpers below are
    the operations the code applies to them, with the exception Python
    raises when the value has another type. *)

(** [v.lower()] *)
Definition py_lower (v : PyVal) : result string :=
  match v with PStr s => Ok (lower s) | _ => Raise AttributeError end.

(** [v.strip()] *)
Definition py_strip (v : PyVal) : result string :=
  match v with PStr s => Ok (strip s) | _ => Raise AttributeError end.

Fixpoint chars (s : string) : list string :=
  match s with
  | EmptyString => []
  | String c s' => String c "" :: chars s'
  end.

Fixpoint all_strs (l : list PyVal) : result (list string) :=
  match l with
  | [] => Ok []
  | PStr s :: l' => rest ← all_strs l'; Ok (s :: rest)
  | _ :: _ => Raise TypeError
  end.

(** [for x in v]: the items of an iterable value (a dict yields its
    keys, here in key order). *)
Definition py_iter (v : PyVal) : result (list PyVal) :=
  match v with
  | PList l => Ok l
  | PStr s => Ok (map PStr (chars s))
  | PDict d => Ok (map (fun kv => PStr (fst kv)) (map_to_list d))
  | PNone | PBool _ | PInt _ | PFloat _ => Raise TypeError
  end.

(** The items of [v] in [' '.join(v)]: every item has to be a string.
    A dict yields its keys (here in key order). *)
Definition iter_strs (v : PyVal) : result (list string) :=
  match v with
  | PList l => all_strs l
  | PStr s => Ok (chars s)
  | PDict d => Ok (map fst (map_to_list d))
  | PNone | PBool _ | PInt _ | PFloat _ => Raise TypeError
  end.

(** A raw value stored in a dataclass field annotated [str] (resp.
    [Optional[str]], [List]).  Python stores any value unchecked and
    fails at its first use as a string; the typed product of the
    embedding cannot hold it, and the construction stops with
    [TypeError]. *)
Definition expect_str (v : PyVal) : result string :=
  match v with PStr s => Ok s | _ => Raise TypeError end.

Definition expect_opt_str (v : PyVal) : result (option string) :=
  match v with
  | PNone => Ok None
  | PStr s => Ok (Some s)
  | _ => Raise TypeError
  end.

Definition expect_list (v : PyVal) : result (list PyVal) :=
  match v with PList l => Ok l | _ => Raise TypeError end.

(** [try: return f() except (ValueError, TypeError): return None] *)
Definition or_none {A} (r : result A) : option A :=
  match r with Ok a => Some a | Raise _ => None end.

(** ** Data model ([financial_products/base_product.py]) *)

Inductive ProductCategory : Type :=
| CREDIT_CARDS | FIXED_DEPOSITS | MUTUAL_FUNDS | INSURANCE | LOANS.

#[export] Instance ProductCategory_eq_dec : EqDecision ProductCategory.
Proof. solve_decision. Defined.

(** [category.value] *)
Definition category_value (c : ProductCategory) : string :=
  match c with
  | CREDIT_CARDS => "credit_cards"
  | FIXED_DEPOSITS => "fixed_deposits"
  | MUTUAL_FUNDS => "mutual_funds"
  | INSURANCE => "insurance"
  | LOANS => "loans"
  end.

(** [list(ProductCategory)] *)
Definition all_categories : list ProductCategory :=
  [CREDIT_CARDS; FIXED_DEPOSITS; MUTUAL_FUNDS; INSURANCE; LOANS].

Record ProductInfo : Type := {
  product_id : string;
  name : string;
  description : string;
  category : ProductCategory;
  features : list string
}.

(** [credit_card_processor.CreditCardInfo] *)
Record CreditCardInfo : Type := {
  cc_info : ProductInfo;
  bank : string;
  annual_fee : option Q;
  cashback_rate : option Q;
  reward_rate : option Q;
  welcome_benefit : option string;
  fuel_surcharge_waiver : bool;
  lounge_access : bool
}.

(** [fixed_deposit_processor.FixedDepositInfo] *)
Record FixedDepositInfo : Type := {
  fd_info : ProductInfo;
  bank_name : string;
  interest_rate_min : option Q;
  interest_rate_max : option Q;
  tenure_from_days : option Z;
  tenure_to_days : option Z;
  senior_citizen_rate : option Q
}.

(** [mutual_fund_processor.MutualFundInfo] *)
Record MutualFundInfo : Type := {
  mf_info : ProductInfo;
  amc : string;
  risk_level : string;
  rating : Z;
  returns_1y : option Q;
  returns_3y : option Q;
  returns_5y : option Q;
  nav : option Q;
  aum : option Q;
  expense_ratio : option Q;
  min_investment : option Q;
  fund_manager : option string;
  inception_date : option string;
  holdings : list PyVal;
  sector_allocation : list PyVal
}.

(** A product is an instance of one of the three subclasses. *)
Inductive Product : Type :=
| CreditCard (c : CreditCardInfo)
| FixedDeposit (f : FixedDepositInfo)
| MutualFund (m : MutualFundInfo).

(** The [ProductInfo] attributes of a product. *)
Definition info (p : Product) : ProductInfo :=
  match p with
  | CreditCard c => cc_info c
  | FixedDeposit f => fd_info f
  | MutualFund m => mf_info m
  end.

(** [getattr(product, 'risk_level', '')] *)
Definition getattr_risk_level (p : Product) : string :=
  match p with
  | MutualFund m => risk_level m
  | _ => ""
  end.

Record ScoredProduct : Type := {
  product : Product;
  score : Q;
  reasoning : string
}.

(** [scored.product], under a name that a local variable [product]
    does not hide. *)
Definition product_of (sp : ScoredProduct) : Product := product sp.

(** [user_preferences: Dict[str, Any]] *)
Abbreviation Preferences := (gmap string PyVal).

(** [BaseProductProcessor]: the two abstract methods. *)
Record BaseProductProcessor : Type := {
  process_product : PyDict -> result Product;
  calculate_score : Product -> Preferences -> result Q
}.

(** [r1 r2 ... rn] *)
Fixpoint rseq (rs : list regex) : regex :=
  match rs with
  | [] => RLit ""
  | [r] => r
  | r :: rs' => RSeq r (rseq rs')
  end.

(** [\d+(?:\.\d+)?] *)
Definition number_re : regex :=
  RSeq (RPlus RDigit) (ROpt (RSeq (RLit ".") (RPlus RDigit))).

(** The rupee sign U+20B9, as its three UTF-8 bytes. *)
Definition rupee : string :=
  String (ascii_of_nat 226) (String (ascii_of_nat 130) (String (ascii_of_nat 185) "")).

(** ** Credit cards ([financial_products/credit_card_processor.py]) *)

Module CreditCardProcessor.
Section Processor.
Context `{PyBuiltins}.

Definition self_category : ProductCategory := CREDIT_CARDS.

(** [r'(\d+(?:\.\d+)?)\s*%\s*cashback'] *)
Definition cashback_re : regex :=
  rseq [RGroup number_re; RStar RSpace; RLit "%"; RStar RSpace; RLit "cashback"].

(** [r'earn\s+(\d+(?:\.\d+)?)\s*%'] *)
Definition earn_re : regex :=
  rseq [RLit "earn"; RPlus RSpace; RGroup number_re; RStar RSpace; RLit "%"].

(** [r'(\d+(?:\.\d+)?)\s*percent\s+cashback'] *)
Definition percent_re : regex :=
  rseq [RGroup number_re; RStar RSpace; RLit "percent"; RPlus RSpace; RLit "cashback"].

(** [r'annual fee[:\s]*₹?\s*(\d+)'] *)
Definition annual_fee_re : regex :=
  rseq [RLit "annual fee"; RStar (RSet [":"%char] true); ROpt (RLit rupee);
        RStar RSpace; RGroup (RPlus RDigit)].

(** [r'₹\s*(\d+)\s*annual fee'] *)
Definition rupee_annual_fee_re : regex :=
  rseq [RLit rupee; RStar RSpace; RGroup (RPlus RDigit); RStar RSpace;
        RLit "annual fee"].

(** [r'joining fee[:\s]*₹?\s*(\d+)'] *)
Definition joining_fee_re : regex :=
  rseq [RLit "joining fee"; RStar (RSet [":"%char] true); ROpt (RLit rupee);
        RStar RSpace; RGroup (RPlus RDigit)].

(** The explicit features of the record are kept as they are (the list
    is only extended); the derived ones are strings. *)
Definition _extract_features (raw_data : PyDict) : result (list PyVal) :=
  explicit ← match raw_data !! "features" with
             | Some v => if truthy v then py_iter v else Ok []
             | None => Ok []
             end;
  let description := dict_get_default raw_data "description" (PStr "") in
  derived ←
    (if truthy description then
       d ← py_lower description;
       let cashback_matches := findall cashback_re d in
       Ok (concat
             [ match cashback_matches with
               | [] => []
               | m :: ms => ["Up to " ++ str_max m ms ++ "% cashback"]
               end;
               if contains "fuel surcharge" d then ["Fuel surcharge waiver"] else [];
               if contains "lounge" d then ["Airport lounge access"] else [];
               if contains "welcome" d then ["Welcome benefits"] else [] ])
     else Ok []);
  Ok (firstn 10 (app explicit (map PStr derived))).

(** The loop over [fee_patterns]: the first pattern with a match gives
    the fee ([float] of a run of digits cannot fail). *)
Fixpoint first_fee (patterns : list regex) (d : string) : option Q :=
  match patterns with
  | [] => None
  | p :: rest =>
      match findall p d with
      | m :: _ =>
          match float_of_str m with
          | Ok q => Some q
          | Raise _ => first_fee rest d
          end
      | [] => first_fee rest d
      end
  end.

Definition _extract_annual_fee (raw_data : PyDict) : result (option Q) :=
  match (match raw_data !! "annual_fee" with
         | Some v => or_none (py_float v)
         | None => None
         end) with
  | Some fee => Ok (Some fee)
  | None =>
      let description := dict_get_default raw_data "description" (PStr "") in
      if truthy description then
        d ← py_lower description;
        Ok (first_fee [annual_fee_re; rupee_annual_fee_re; joining_fee_re] d)
      else Ok None
  end.

(** [rates] after the loops over the three cashback patterns. *)
Definition cashback_rates (d : string) : list Q :=
  flat_map (fun p => omap (fun m => or_none (float_of_str m)) (findall p d))
    [cashback_re; earn_re; percent_re].

Definition _extract_cashback_rate (raw_data : PyDict) : result (option Q) :=
  let description := dict_get_default raw_data "description" (PStr "") in
  if truthy description then
    d ← py_lower description;
    Ok (match cashback_rates d with
        | [] => None
        | r :: rs => Some (fold_left py_max rs r)
        end)
  else Ok None.

(** The first line of [lines] that mentions "welcome". *)
Fixpoint first_welcome_line (lines : list string) : option string :=
  match lines with
  | [] => None
  | line :: rest =>
      if contains "welcome" (lower line) then Some (str_take 100 (strip line))
      else first_welcome_line rest
  end.

Definition _extract_welcome_benefit (raw_data : PyDict) : result (option string) :=
  let description := dict_get_default raw_data "description" (PStr "") in
  if truthy description then
    d ← py_lower description;
    if contains "welcome" d then
      match description with
      | PStr s => Ok (first_welcome_line (split_on "010" s))
      | _ => Raise AttributeError
      end
    else Ok None
  else Ok None.

(** [raw_data.get('description', '') + ' ' + ' '.join(raw_data.get('features', []))],
    lowered. *)
Definition searchable_text (raw_data : PyDict) : result string :=
  match dict_get_default raw_data "description" (PStr "") with
  | PStr d =>
      fs ← iter_strs (dict_get_default raw_data "features" (PList []));
      Ok (lower (d ++ " " ++ join " " fs))
  | _ => Raise TypeError
  end.

Definition _has_fuel_surcharge_waiver (raw_data : PyDict) : result bool :=
  text ← searchable_text raw_data;
  Ok (contains "fuel surcharge" text || contains "fuel waiver" text).

Definition _has_lounge_access (raw_data : PyDict) : result bool :=
  text ← searchable_text raw_data;
  Ok (contains "lounge" text || contains "airport access" text).

Definition process_product (raw_data : PyDict) : result CreditCardInfo :=
  name ← py_strip (dict_get_default raw_data "name" (PStr ""));
  let bank :=
    dict_get_default raw_data "bank"
      (dict_get_default raw_data "issuer" (PStr "Unknown Bank")) in
  let description := dict_get_default raw_data "description" (PStr "") in
  features ← _extract_features raw_data;
  annual_fee ← _extract_annual_fee raw_data;
  cashback_rate ← _extract_cashback_rate raw_data;
  welcome_benefit ← _extract_welcome_benefit raw_data;
  fuel ← _has_fuel_surcharge_waiver raw_data;
  lounge ← _has_lounge_access raw_data;
  (* the typed product: [searchable_text] has already raised on a
     description or a feature that is not a string *)
  description ← expect_str description;
  features ← all_strs features;
  bank ← expect_str bank;
  Ok {| cc_info := {| product_id := "cc_" ++ hash_str name;
                      name := name;
                      description := description;
                      category := self_category;
                      features := features |};
        bank := bank;
        annual_fee := annual_fee;
        cashback_rate := cashback_rate;
        reward_rate := None;
        welcome_benefit := welcome_benefit;
        fuel_surcharge_waiver := fuel;
        lounge_access := lounge |}.
End Processor.

Definition reputable_banks : list string :=
  ["sbi"; "hdfc"; "icici"; "axis"; "kotak"].

Definition calculate_score (product : CreditCardInfo)
    (user_preferences : Preferences) : Q :=
  let score := 0 in
  let max_score := 100 in
  (* Cashback rate scoring *)
  let score :=
    match cashback_rate product with
    | Some rate =>
        if negb (Qeq_bool rate 0) then score + py_min (rate * 5) 30 else score
    | None => score
    end in
  (* Annual fee scoring *)
  let score :=
    match annual_fee product with
    | Some fee =>
        if Qeq_bool fee 0 then score + 25
        else if Qle_bool fee 500 then score + 20
        else if Qle_bool fee 2000 then score + 10
        else score + 5
    | None => score + 15
    end in
  (* Benefits scoring *)
  let benefit_score := 0 in
  let benefit_score :=
    if fuel_surcharge_waiver product then benefit_score + 5 else benefit_score in
  let benefit_score :=
    if lounge_access product then benefit_score + 10 else benefit_score in
  let benefit_score :=
    if truthy_str (welcome_benefit product) then benefit_score + 5
    else benefit_score in
  let score := score + py_min benefit_score 20 in
  (* Features scoring *)
  let feature_score :=
    inject_Z (Z.of_nat (length (features (cc_info product)))) * 2 in
  let score := score + py_min feature_score 15 in
  (* Bank reputation scoring *)
  let score :=
    if any (fun b => contains b (lower (bank product))) reputable_banks
    then score + 10 else score + 5 in
  py_min score max_score.

Definition processor `{PyBuiltins} : BaseProductProcessor :=
  Build_BaseProductProcessor
    (fun raw => c ← process_product raw; Ok (CreditCard c))
    (fun p prefs =>
       match p with
       | CreditCard c => Ok (calculate_score c prefs)
       | _ => Raise AttributeError
       end).
End CreditCardProcessor.

(** ** Fixed deposits ([financial_products/fixed_deposit_processor.py]) *)

Module FixedDepositProcessor.
Section Processor.
Context `{PyBuiltins}.

Definition self_category : ProductCategory := FIXED_DEPOSITS.

(** A rate that is empty or does not parse is absent. *)
Definition _parse_rate (rate_str : PyVal) : option Q :=
  if negb (truthy rate_str) then None
  else or_none (float_of_str (strip (remove_char "%" (py_str rate_str)))).

Definition _extract_min_interest_rate (raw_data : PyDict) : option Q :=
  _parse_rate (dict_get raw_data "roi_in_percentage_min_tenure").

Definition _extract_max_interest_rate (raw_data : PyDict) : option Q :=
  _parse_rate (dict_get raw_data "roi_in_percentage_max_tenure").

Definition _extract_senior_citizen_rate (raw_data : PyDict) : option Q :=
  _parse_rate (dict_get raw_data "roi_in_percentage_senior_citizen_max_tenure").

Definition _extract_features (raw_data : PyDict) : result (list string) :=
  let max_rate := _extract_max_interest_rate raw_data in
  let rate_feature :=
    match max_rate with
    | Some r =>
        if truthy_float max_rate
        then ["Interest rate up to " ++ float_str r ++ "%"] else []
    | None => []
    end in
  let senior_rate := _extract_senior_citizen_rate raw_data in
  let senior_feature :=
    match senior_rate, max_rate with
    | Some sr, Some r =>
        if truthy_float senior_rate && truthy_float max_rate && Qlt_bool r sr
        then ["Senior citizen rate: " ++ float_str sr ++ "%"] else []
    | _, _ => []
    end in
  let tenure_from := dict_get raw_data "tenure_from_days" in
  tenure_feature ←
    (if truthy tenure_from then
       days ← py_int tenure_from;
       let years := inject_Z days / 365 in
       if Qle_bool 1 years
       then Ok ["Minimum tenure: " ++ format_1f years ++ " years"]
       else Ok ["Minimum tenure: " ++ str_of_int days ++ " days"]
     else Ok []);
  Ok (concat [rate_feature; senior_feature; tenure_feature]).

(** [int(v) if v else None] *)
Definition int_if_truthy (v : PyVal) : result (option Z) :=
  if truthy v then z ← py_int v; Ok (Some z) else Ok None.

Definition process_product (raw_data : PyDict) : result FixedDepositInfo :=
  let bank_name :=
    dict_get_default raw_data "bank_name"
      (dict_get_default raw_data "bank" (PStr "Unknown Bank")) in
  let name := py_str bank_name ++ " Fixed Deposit" in
  features ← _extract_features raw_data;
  let interest_rate_min := _extract_min_interest_rate raw_data in
  let interest_rate_max := _extract_max_interest_rate raw_data in
  let senior_citizen_rate := _extract_senior_citizen_rate raw_data in
  let tenure_from := dict_get raw_data "tenure_from_days" in
  let tenure_to := dict_get raw_data "tenure_to_days" in
  tenure_from_days ← int_if_truthy tenure_from;
  tenure_to_days ← int_if_truthy tenure_to;
  description ← expect_str (dict_get_default raw_data "about" (PStr ""));
  bank_name ← expect_str bank_name;
  Ok {| fd_info := {| product_id := "fd_" ++ hash_str name;
                      name := name;
                      description := description;
                      category := self_category;
                      features := features |};
        bank_name := bank_name;
        interest_rate_min := interest_rate_min;
        interest_rate_max := interest_rate_max;
        tenure_from_days := tenure_from_days;
        tenure_to_days := tenure_to_days;
        senior_citizen_rate := senior_citizen_rate |}.
End Processor.

Definition reputable_banks : list string :=
  ["sbi"; "hdfc"; "icici"; "axis"; "kotak"; "pnb"].

Definition calculate_score (product : FixedDepositInfo)
    (user_preferences : Preferences) : Q :=
  let score := 0 in
  (* Interest rate scoring *)
  let score :=
    match interest_rate_max product with
    | Some rate =>
        if negb (Qeq_bool rate 0) then score + py_min (rate * 8) 50 else score
    | None => score
    end in
  (* Senior citizen benefits *)
  let score :=
    match senior_citizen_rate product, interest_rate_max product with
    | Some senior, Some rate =>
        if negb (Qeq_bool senior 0) && negb (Qeq_bool rate 0) then
          if Qlt_bool rate senior then score + 20 else score + 10
        else score
    | _, _ => score
    end in
  (* Tenure flexibility *)
  let score :=
    match tenure_from_days product, tenure_to_days product with
    | Some from_days, Some to_days =>
        if negb (from_days =? 0)%Z && negb (to_days =? 0)%Z then
          let tenure_range := (to_days - from_days)%Z in
          if (1000 <? tenure_range)%Z then score + 20
          else if (365 <? tenure_range)%Z then score + 15
          else score + 10
        else score
    | _, _ => score
    end in
  (* Bank credibility *)
  let score :=
    if any (fun b => contains b (lower (bank_name product))) reputable_banks
    then score + 10 else score + 5 in
  py_min score 100.

Definition processor `{PyBuiltins} : BaseProductProcessor :=
  Build_BaseProductProcessor
    (fun raw => f ← process_product raw; Ok (FixedDeposit f))
    (fun p prefs =>
       match p with
       | FixedDeposit f => Ok (calculate_score f prefs)
       | _ => Raise AttributeError
       end).
End FixedDepositProcessor.

(** ** Mutual funds ([financial_products/mutual_fund_processor.py]) *)

Module MutualFundProcessor.
Section Processor.
Context `{PyBuiltins}.

Definition self_category : ProductCategory := MUTUAL_FUNDS.

(** [f"{label}{raw_data[key]}{suffix}"] when [raw_data.get(key)] is
    truthy. *)
Definition feature_of (raw_data : PyDict) (key label suffix : string) : list string :=
  let v := dict_get raw_data key in
  if truthy v then [label ++ py_str v ++ suffix] else [].

Definition _extract_features (raw_data : PyDict) : list string :=
  concat
    [ feature_of raw_data "returns_3y" "3Y Returns: " "";
      feature_of raw_data "returns_5y" "5Y Returns: " "";
      feature_of raw_data "rating" "Rating: " "/5 stars";
      feature_of raw_data "risk_level" "Risk: " "";
      feature_of raw_data "expense_ratio" "Expense Ratio: " "%";
      feature_of raw_data "min_investment" ("Min Investment: " ++ rupee) "";
      feature_of raw_data "fund_manager" "Fund Manager: " "" ].

Definition _extract_return_percentage (return_str : PyVal) : option Q :=
  if negb (truthy return_str) then None
  else or_none (float_of_str (strip (remove_char "%" (py_str return_str)))).

Definition _safe_float_conversion (value : PyVal) : option Q :=
  match value with
  | PNone => None
  | _ => or_none (py_float value)
  end.

Definition _safe_int_conversion (value : PyVal) : Z :=
  match value with
  | PNone => 0%Z
  | _ => match py_int value with Ok z => z | Raise _ => 0%Z end
  end.

(** [raw_data.get(key, []) if raw_data.get(key) else []] *)
Definition list_or_empty (raw_data : PyDict) (key : string) : PyVal :=
  if truthy (dict_get raw_data key)
  then dict_get_default raw_data key (PList []) else PList [].

Definition process_product (raw_data : PyDict) : result MutualFundInfo :=
  name ← py_strip (dict_get_default raw_data "name" (PStr ""));
  let description := dict_get_default raw_data "description" (PStr "") in
  let returns_1y := _extract_return_percentage (dict_get raw_data "returns_1y") in
  let returns_3y := _extract_return_percentage (dict_get raw_data "returns_3y") in
  let returns_5y := _extract_return_percentage (dict_get raw_data "returns_5y") in
  let nav := _safe_float_conversion (dict_get raw_data "nav") in
  let aum := _safe_float_conversion (dict_get raw_data "aum") in
  let expense_ratio := _safe_float_conversion (dict_get raw_data "expense_ratio") in
  let min_investment := _safe_float_conversion (dict_get raw_data "min_investment") in
  let rating := _safe_int_conversion (dict_get_default raw_data "rating" (PInt 0)) in
  holdings ← expect_list (list_or_empty raw_data "holdings");
  sector_allocation ← expect_list (list_or_empty raw_data "sector_allocation");
  description ← expect_str description;
  amc ← expect_str (dict_get_default raw_data "amc" (PStr "Unknown"));
  risk_level ← expect_str (dict_get_default raw_data "risk_level" (PStr "Unknown"));
  fund_manager ← expect_opt_str (dict_get raw_data "fund_manager");
  inception_date ← expect_opt_str (dict_get raw_data "inception_date");
  Ok {| mf_info := {| product_id := "mf_" ++ hash_str name;
                      name := name;
                      description := description;
                      category := self_category;
                      features := _extract_features raw_data |};
        amc := amc;
        risk_level := risk_level;
        rating := rating;
        returns_1y := returns_1y;
        returns_3y := returns_3y;
        returns_5y := returns_5y;
        nav := nav;
        aum := aum;
        expense_ratio := expense_ratio;
        min_investment := min_investment;
        fund_manager := fund_manager;
        inception_date := inception_date;
        holdings := holdings;
        sector_allocation := sector_allocation |}.
End Processor.

Definition _calculate_performance_score (product : MutualFundInfo) : Q :=
  let score := 0 in
  let score :=
    match returns_5y product, returns_3y product, returns_1y product with
    | Some r5, _, _ => score + py_min (r5 * 2) 50
    | None, Some r3, _ => score + py_min (r3 * 1.5) 40
    | None, None, Some r1 => score + py_min r1 30
    | None, None, None => score
    end in
  py_min score 50.

Definition _calculate_rating_score (rating : Z) : Q :=
  if (rating <=? 0)%Z then 0 else (inject_Z rating / 5) * 25.

Definition risk_mapping : gmap string Z :=
  list_to_map
    [ ("low risk", 1%Z);
      ("low to moderate risk", 2%Z);
      ("moderate risk", 3%Z);
      ("moderately high risk", 4%Z);
      ("high risk", 5%Z);
      ("very high risk", 6%Z) ].


Definition _calculate_risk_score (risk_level : string)
    (user_preferences : Preferences) : result Q :=
  let user_risk_tolerance :=
    dict_get_default user_preferences "risk_tolerance" (PStr "moderate risk") in
  let product_risk := default 3%Z (risk_mapping !! lower risk_level) in
  user_text ← py_lower user_risk_tolerance;
  let user_risk := default 3%Z (risk_mapping !! user_text) in
  let risk_diff := Z.abs (product_risk - user_risk) in
  if (risk_diff =? 0)%Z then Ok 20
  else if (risk_diff =? 1)%Z then Ok 15
  else if (risk_diff =? 2)%Z then Ok 10
  else Ok 5.

Definition _calculate_expense_score (expense_ratio : option Q) : Q :=
  match expense_ratio with
  | None => 5
  | Some e =>
      if Qle_bool e 0.5 then 10
      else if Qle_bool e 1.0 then 8
      else if Qle_bool e 1.5 then 6
      else if Qle_bool e 2.0 then 4
      else 2
  end.

Definition _calculate_stability_score (product : MutualFundInfo) : Q :=
  let score := 0 in
  let score :=
    match aum product with
    | Some a =>
        if Qle_bool 10000 a then score + 3
        else if Qle_bool 5000 a then score + 2
        else if Qle_bool 1000 a then score + 1
        else score
    | None => score
    end in
  let score := if truthy_str (fund_manager product) then score + 1 else score in
  let score := if (50 <? length (holdings product))%nat then score + 1 else score in
  score.

Definition calculate_score (product : MutualFundInfo)
    (user_preferences : Preferences) : result Q :=
  let score := 0 in
  let max_score := 100 in
  let performance_score := _calculate_performance_score product in
  let score := score + performance_score * 0.4 in
  let rating_score := _calculate_rating_score (rating product) in
  let score := score + rating_score * 0.25 in
  risk_score ← _calculate_risk_score (risk_level product) user_preferences;
  let score := score + risk_score * 0.2 in
  let expense_score := _calculate_expense_score (expense_ratio product) in
  let score := score + expense_score * 0.1 in
  let stability_score := _calculate_stability_score product in
  let score := score + stability_score * 0.05 in
  Ok (py_min score max_score).

Definition processor `{PyBuiltins} : BaseProductProcessor :=
  Build_BaseProductProcessor
    (fun raw => m ← process_product raw; Ok (MutualFund m))
    (fun p prefs =>
       match p with
       | MutualFund m => calculate_score m prefs
       | _ => Raise AttributeError
       end).
End MutualFundProcessor.

(** ** Rankers ([ranking_algorithms/*.py]) *)

(** [x in l] for a list of strings. *)
Definition elem (x : string) (l : list string) : bool := existsb (String.eqb x) l.

(** [v == s] for a string literal [s]. *)
Definition py_eq_str (v : PyVal) (s : string) : bool :=
  match v with PStr t => String.eqb t s | _ => false end.

(** [d[v] if v in d else None] for a dict with string keys: a list or a
    dict is unhashable. *)
Definition py_lookup {X} (v : PyVal) (d : list (string * X)) : result (option X) :=
  match v with
  | PStr s => Ok (snd <$> find (fun kv => String.eqb (fst kv) s) d)
  | PList _ | PDict _ => Raise TypeError
  | PNone | PBool _ | PInt _ | PFloat _ => Ok None
  end.

(** [v >= n] for a number [n]. *)
Definition py_ge (v : PyVal) (n : Q) : result bool :=
  match v with
  | PInt z => Ok (Qle_bool n (inject_Z z))
  | PFloat q => Ok (Qle_bool n q)
  | PBool b => Ok (Qle_bool n (if b then 1 else 0))
  | PNone | PStr _ | PList _ | PDict _ => Raise TypeError
  end.

(** A [for] loop whose body can raise. *)
Fixpoint for_each {A B} (f : A -> result B) (l : list A) : result (list B) :=
  match l with
  | [] => Ok []
  | x :: l' => y ← f x; ys ← for_each f l'; Ok (y :: ys)
  end.

Fixpoint foldM {A B} (f : B -> A -> result B) (l : list A) (acc : B) : result B :=
  match l with
  | [] => Ok acc
  | x :: l' => acc' ← f acc x; foldM f l' acc'
  end.

(** [sorted(l, key=lambda x: x.score, reverse=True)]: a stable sort,
    highest score first; products of equal score keep their order. *)
Fixpoint insert_by_score (x : ScoredProduct) (l : list ScoredProduct)
    : list ScoredProduct :=
  match l with
  | [] => [x]
  | y :: l' =>
      if Qlt_bool (score x) (score y) then y :: insert_by_score x l'
      else x :: l
  end.

Definition sorted_by_score (l : list ScoredProduct) : list ScoredProduct :=
  fold_right insert_by_score [] l.

(** The three rankers share the body of [rank_products]. *)
Definition rank_with
    (calculate_enhanced_score : ScoredProduct -> string -> Preferences -> result Q)
    (ranking_reasoning : ScoredProduct -> Q -> string)
    (products : list ScoredProduct) (user_query : string)
    (user_preferences : option Preferences) : result (list ScoredProduct) :=
  match products with
  | [] => Ok []
  | _ =>
      let user_preferences := default ∅ user_preferences in
      enhanced_products ←
        for_each
          (fun p =>
             enhanced_score ← calculate_enhanced_score p user_query user_preferences;
             Ok {| product := product p;
                   score := enhanced_score;
                   reasoning := ranking_reasoning p enhanced_score |})
          products;
      Ok (sorted_by_score enhanced_products)
  end.

(** [(product.name + " " + " ".join(product.features)).lower()] *)
Definition product_text_of (p : ProductInfo) : string :=
  lower (name p ++ " " ++ join " " (features p)).

(** [" ".join(product.features).lower()] *)
Definition feature_text_of (p : ProductInfo) : string :=
  lower (join " " (features p)).

Module CreditCardRanker.

Definition query_multiplier : Q := 5.
Definition preference_multiplier : Q := 3.
Definition category_multiplier : Q := 2.

Definition keyword_matches : list (string * list string) :=
  [ ("cashback", ["cashback"; "cash back"; "rewards"]);
    ("travel", ["travel"; "miles"; "airline"; "hotel"]);
    ("fuel", ["fuel"; "petrol"; "gas"]);
    ("dining", ["dining"; "restaurant"; "food"]);
    ("shopping", ["shopping"; "online"; "ecommerce"]);
    ("premium", ["premium"; "luxury"; "exclusive"]);
    ("no annual fee", ["no annual fee"; "free"; "zero fee"]) ].

Definition _calculate_query_relevance (product : ProductInfo) (query : string) : Q :=
  if String.eqb query "" then 0
  else
    let query_lower := lower query in
    let relevance_score := 0 in
    let relevance_score :=
      if any (fun word => contains word (lower (name product))) (split_ws query_lower)
      then relevance_score + 0.3 else relevance_score in
    let feature_text := feature_text_of product in
    let query_words := split_ws query_lower in
    let relevance_score :=
      fold_left
        (fun acc query_word =>
           fold_left
             (fun acc (entry : string * list string) =>
                let (category, keywords) := entry in
                if elem query_word keywords && contains category feature_text
                then acc + 0.1 else acc)
             keyword_matches acc)
        query_words relevance_score in
    py_min relevance_score 1.

Definition _calculate_preference_alignment (product : ProductInfo)
    (preferences : Preferences) : result Q :=
  let alignment_score := 0 in
  let max_annual_fee := dict_get preferences "max_annual_fee" in
  let alignment_score :=
    match max_annual_fee with
    | PNone => alignment_score
    | _ =>
        if contains "no annual fee" (feature_text_of product)
        then alignment_score + 0.4
        else if contains "annual fee" (feature_text_of product)
        then alignment_score + 0.2
        else alignment_score
    end in
  let income_range := dict_get preferences "income_range" in
  let alignment_score :=
    if truthy income_range then
      let product_name_lower := lower (name product) in
      let named words := any (fun word => contains word product_name_lower) words in
      if py_eq_str income_range "premium" && named ["premium"; "privilege"; "signature"]
      then alignment_score + 0.3
      else if py_eq_str income_range "mid" && named ["select"; "classic"]
      then alignment_score + 0.3
      else if py_eq_str income_range "entry" && named ["student"; "basic"; "starter"]
      then alignment_score + 0.3
      else alignment_score
    else alignment_score in
  let preferred_categories :=
    dict_get_default preferences "spending_categories" (PList []) in
  let feature_text := feature_text_of product in
  categories ← py_iter preferred_categories;
  alignment_score ←
    foldM (fun acc category =>
             c ← py_lower category;
             Ok (if contains c feature_text then acc + 0.1 else acc))
      categories alignment_score;
  Ok (py_min alignment_score 1).

Definition high_value_categories : list (string * Q) :=
  [ ("travel", 0.3); ("dining", 0.2); ("fuel", 0.2);
    ("online shopping", 0.25); ("groceries", 0.15) ].

Definition _calculate_category_optimization (product : ProductInfo)
    (preferences : Preferences) : Q :=
  let optimization_score := 0 in
  let feature_text := feature_text_of product in
  let optimization_score :=
    fold_left
      (fun acc (entry : string * Q) =>
         let (category, bonus) := entry in
         if contains category feature_text then acc + bonus else acc)
      high_value_categories optimization_score in
  py_min optimization_score 1.

Definition _calculate_enhanced_score (product : ScoredProduct)
    (user_query : string) (user_preferences : Preferences) : result Q :=
  let base_score := score product in
  let query_boost := _calculate_query_relevance (info (product_of product)) user_query in
  preference_boost ←
    _calculate_preference_alignment (info (product_of product)) user_preferences;
  let category_boost :=
    _calculate_category_optimization (info (product_of product)) user_preferences in
  let enhanced_score :=
    base_score
    + query_boost * query_multiplier
    + preference_boost * preference_multiplier
    + category_boost * category_multiplier in
  Ok (py_min enhanced_score 100).

Definition _generate_ranking_reasoning (product : ScoredProduct)
    (enhanced_score : Q) : string :=
  let base_reasoning := reasoning product in
  let score_improvement := enhanced_score - score product in
  let additional_reasoning :=
    if Qlt_bool 3 score_improvement
    then " Highly relevant to your query and preferences."
    else if Qlt_bool 1 score_improvement
    then " Good match for your requirements."
    else if Qlt_bool 0 score_improvement
    then " Partially matches your preferences."
    else "" in
  base_reasoning ++ additional_reasoning.

Definition rank_products :=
  rank_with _calculate_enhanced_score _generate_ranking_reasoning.

End CreditCardRanker.

Module FixedDepositRanker.

Definition tenure_multiplier : Q := 3.
Definition amount_multiplier : Q := 2.
Definition senior_multiplier : Q := 2.
Definition query_multiplier : Q := 2.
Definition safety_multiplier : Q := 1.

Definition tenure_keywords : list (string * list string) :=
  [ ("short_term", ["7 days"; "15 days"; "30 days"; "1 month"; "3 months"; "6 months"]);
    ("medium_term", ["1 year"; "2 years"; "3 years"; "18 months"]);
    ("long_term", ["4 years"; "5 years"; "7 years"; "10 years"]) ].

Definition _calculate_tenure_alignment (product : ProductInfo)
    (preferences : Preferences) : result Q :=
  let preferred_tenure := dict_get preferences "investment_tenure" in
  if negb (truthy preferred_tenure) then Ok 0
  else
    let alignment_score := 0 in
    let product_text := product_text_of product in
    preferred_keywords ← py_lookup preferred_tenure tenure_keywords;
    let alignment_score :=
      match preferred_keywords with
      | Some keywords =>
          (* the loop adds 0.5 at the first keyword found and breaks *)
          if any (fun keyword => contains keyword product_text) keywords
          then alignment_score + 0.5 else alignment_score
      | None => alignment_score
      end in
    let alignment_score :=
      if any (fun term => contains term product_text)
           ["flexible"; "auto renewal"; "premature withdrawal"]
      then alignment_score + 0.3 else alignment_score in
    Ok (py_min alignment_score 1).

Definition _calculate_amount_alignment (product : ProductInfo)
    (preferences : Preferences) : result Q :=
  let investment_amount := dict_get preferences "investment_amount" in
  if negb (truthy investment_amount) then Ok 0
  else
    let alignment_score := 0 in
    let product_text := feature_text_of product in
    let mentions terms := any (fun term => contains term product_text) terms in
    large ← py_ge investment_amount 100000;
    alignment_score ←
      (if (large : bool) return result Q then
         Ok (if mentions ["high value"; "premium"; "bulk deposit"]
             then alignment_score + 0.5 else alignment_score)
       else
         medium ← py_ge investment_amount 25000;
         if (medium : bool) return result Q then
           Ok (if mentions ["regular"; "standard"]
               then alignment_score + 0.4 else alignment_score)
         else
           Ok (if mentions ["minimum"; "small"; "low amount"]
               then alignment_score + 0.4 else alignment_score));
    Ok (py_min alignment_score 1).

Definition senior_keywords : list string :=
  [ "senior citizen"; "senior"; "additional rate"; "extra interest";
    "higher rate for senior"; "bonus rate" ].

Definition _calculate_senior_citizen_boost (product : ProductInfo)
    (preferences : Preferences) : Q :=
  let is_senior_citizen :=
    dict_get_default preferences "is_senior_citizen" (PBool false) in
  if negb (truthy is_senior_citizen) then 0
  else
    let senior_boost := 0 in
    let product_text := product_text_of product in
    (* the loop adds 0.3 at the first keyword found and breaks *)
    let senior_boost :=
      if any (fun keyword => contains keyword product_text) senior_keywords
      then senior_boost + 0.3 else senior_boost in
    py_min senior_boost 1.

Definition fd_keywords : list (string * list string) :=
  [ ("high interest", ["high"; "best"; "maximum"; "top"]);
    ("short term", ["short"; "quick"; "immediate"]);
    ("long term", ["long"; "extended"; "multi-year"]);
    ("flexible", ["flexible"; "premature"; "withdrawal"]);
    ("safe", ["safe"; "secure"; "guaranteed"]);
    ("senior citizen", ["senior"; "citizen"; "elderly"]) ].

Definition _calculate_query_relevance (product : ProductInfo) (query : string) : Q :=
  if String.eqb query "" then 0
  else
    let query_lower := lower query in
    let relevance_score := 0 in
    let product_text := product_text_of product in
    let relevance_score :=
      fold_left
        (fun acc query_word =>
           (* the inner loop adds 0.2 at the first category that the
              word names and the product text mentions, and breaks *)
           if any (fun entry : string * list string =>
                     let (category, keywords) := entry in
                     elem query_word keywords
                     && contains (remove_char " " category)
                          (remove_char " " product_text))
                fd_keywords
           then acc + 0.2 else acc)
        (split_ws query_lower) relevance_score in
    let relevance_score :=
      if any (fun word => contains word (lower (name product))) (split_ws query_lower)
      then relevance_score + 0.3 else relevance_score in
    py_min relevance_score 1.

Definition safe_institutions : list string :=
  [ "sbi"; "state bank"; "pnb"; "punjab national"; "bank of baroda";
    "canara bank"; "union bank"; "indian bank"; "government" ].

Definition _calculate_safety_boost (product : ProductInfo) : Q :=
  let safety_score := 0 in
  let product_text := product_text_of product in
  (* the loop adds 0.4 at the first institution found and breaks *)
  let safety_score :=
    if any (fun institution => contains institution product_text) safe_institutions
    then safety_score + 0.4 else safety_score in
  let safety_score :=
    if any (fun term => contains term product_text)
         ["dicgc"; "insured"; "deposit insurance"]
    then safety_score + 0.3 else safety_score in
  let safety_score :=
    if any (fun term => contains term product_text) ["aaa"; "aa+"; "stable rating"]
    then safety_score + 0.3 else safety_score in
  py_min safety_score 1.

Definition _calculate_enhanced_score (product : ScoredProduct)
    (user_query : string) (user_preferences : Preferences) : result Q :=
  let base_score := score product in
  tenure_boost ← _calculate_tenure_alignment (info (product_of product)) user_preferences;
  amount_boost ← _calculate_amount_alignment (info (product_of product)) user_preferences;
  let senior_boost :=
    _calculate_senior_citizen_boost (info (product_of product)) user_preferences in
  let query_boost := _calculate_query_relevance (info (product_of product)) user_query in
  let safety_boost := _calculate_safety_boost (info (product_of product)) in
  let enhanced_score :=
    base_score
    + tenure_boost * tenure_multiplier
    + amount_boost * amount_multiplier
    + senior_boost * senior_multiplier
    + query_boost * query_multiplier
    + safety_boost * safety_multiplier in
  Ok (py_min enhanced_score 100).

Definition _generate_ranking_reasoning (product : ScoredProduct)
    (enhanced_score : Q) : string :=
  let base_reasoning := reasoning product in
  let score_improvement := enhanced_score - score product in
  let additional_reasoning :=
    if Qlt_bool 2 score_improvement
    then " Excellent match for your deposit requirements and risk profile."
    else if Qlt_bool 1 score_improvement
    then " Good alignment with your investment preferences."
    else if Qlt_bool 0.5 score_improvement
    then " Suitable option for your deposit needs."
    else "" in
  base_reasoning ++ additional_reasoning.

Definition rank_products :=
  rank_with _calculate_enhanced_score _generate_ranking_reasoning.

End FixedDepositRanker.

Module MutualFundRanker.

Definition goal_multiplier : Q := 4.
Definition horizon_multiplier : Q := 3.
Definition query_multiplier : Q := 2.
Definition sip_multiplier : Q := 1.

(** [getattr(product, 'category', '').lower()]: every product has the
    attribute, and its value is a member of [ProductCategory], a plain
    [Enum] with no method [lower]. *)
Definition category_lower (c : ProductCategory) : result string :=
  Raise AttributeError.

Definition goal_category_mapping : list (string * list string) :=
  [ ("wealth creation", ["equity"; "growth"; "large cap"; "mid cap"; "small cap"]);
    ("retirement", ["equity"; "balanced"; "hybrid"; "retirement"]);
    ("tax saving", ["elss"; "tax"; "saving"]);
    ("regular income", ["debt"; "income"; "dividend"; "monthly income"]);
    ("capital preservation", ["debt"; "liquid"; "ultra short"; "low duration"]);
    ("child education", ["equity"; "children"; "education"]);
    ("emergency fund", ["liquid"; "ultra short"; "overnight"]) ].

Definition _calculate_goal_alignment (product : Product)
    (preferences : Preferences) : result Q :=
  investment_goal ← py_lower (dict_get_default preferences "investment_goal" (PStr ""));
  if String.eqb investment_goal "" then Ok 0
  else
    let alignment_score := 0 in
    let product_name_lower := lower (name (info product)) in
    product_category ← category_lower (category (info product));
    let relevant_categories :=
      default [] (snd <$> find (fun kv => String.eqb (fst kv) investment_goal)
                            goal_category_mapping) in
    (* the loop adds 0.3 at the first category found and breaks *)
    let alignment_score :=
      if any (fun c => contains c product_name_lower
                       || contains c product_category
                       || contains c (feature_text_of (info product)))
           relevant_categories
      then alignment_score + 0.3 else alignment_score in
    Ok (py_min alignment_score 1).

Definition _calculate_horizon_optimization (product : Product)
    (preferences : Preferences) : result Q :=
  investment_horizon ←
    py_lower (dict_get_default preferences "investment_horizon" (PStr ""));
  if String.eqb investment_horizon "" then Ok 0
  else
    let optimization_score := 0 in
    let product_text := product_text_of (info product) in
    let mentions terms := any (fun term => contains term product_text) terms in
    let optimization_score :=
      if elem investment_horizon ["short term"; "1-3 years"] then
        if mentions ["debt"; "liquid"; "short term"; "conservative"]
        then optimization_score + 0.5
        else if mentions ["equity"; "aggressive"]
        then optimization_score - 0.2
        else optimization_score
      else if elem investment_horizon ["medium term"; "3-7 years"] then
        if mentions ["balanced"; "hybrid"; "moderate"]
        then optimization_score + 0.5
        else if mentions ["large cap"; "diversified"]
        then optimization_score + 0.3
        else optimization_score
      else if elem investment_horizon ["long term"; "7+ years"] then
        if mentions ["equity"; "growth"; "small cap"; "mid cap"]
        then optimization_score + 0.5
        else if mentions ["debt"; "liquid"]
        then optimization_score - 0.1
        else optimization_score
      else optimization_score in
    Ok (py_max optimization_score 0).

Definition mf_keywords : list (string * list string) :=
  [ ("sip", ["sip"; "systematic"]);
    ("tax saving", ["elss"; "tax"]);
    ("large cap", ["large cap"; "blue chip"]);
    ("small cap", ["small cap"]);
    ("mid cap", ["mid cap"]);
    ("debt", ["debt"; "bond"; "fixed income"]);
    ("equity", ["equity"; "stock"]);
    ("balanced", ["balanced"; "hybrid"]);
    ("sectoral", ["sectoral"; "thematic"]);
    ("index", ["index"; "passive"]) ].

Definition _calculate_query_relevance (product : Product) (query : string) : Q :=
  if String.eqb query "" then 0
  else
    let query_lower := lower query in
    let relevance_score := 0 in
    let relevance_score :=
      if any (fun word => contains word (lower (name (info product))))
           (split_ws query_lower)
      then relevance_score + 0.3 else relevance_score in
    let product_text := product_text_of (info product) in
    let relevance_score :=
      fold_left
        (fun acc query_word =>
           (* the inner loop adds 0.2 at the first keyword group that
              holds the word and has a member in the text, and breaks *)
           if any (fun entry : string * list string =>
                     let (category, keywords) := entry in
                     elem query_word keywords
                     && any (fun keyword => contains keyword product_text) keywords)
                mf_keywords
           then acc + 0.2 else acc)
        (split_ws query_lower) relevance_score in
    py_min relevance_score 1.

Definition _calculate_sip_suitability (product : Product)
    (preferences : Preferences) : result Q :=
  sip_preference ← py_lower (dict_get_default preferences "investment_type" (PStr ""));
  if negb (contains "sip" sip_preference) then Ok 0
  else
    let sip_score := 0 in
    let product_text := product_text_of (info product) in
    let mentions terms := any (fun term => contains term product_text) terms in
    let sip_score :=
      if mentions ["equity"; "growth"; "diversified"]
      then sip_score + 0.4 else sip_score in
    let sip_score :=
      if mentions ["large cap"; "diversified"; "bluechip"]
      then sip_score + 0.3 else sip_score in
    let risk_level := lower (getattr_risk_level product) in
    let sip_score :=
      if contains "very high" risk_level then sip_score - 0.1 else sip_score in
    Ok (py_max sip_score 0).

Definition _calculate_enhanced_score (product : ScoredProduct)
    (user_query : string) (user_preferences : Preferences) : result Q :=
  let base_score := score product in
  goal_boost ← _calculate_goal_alignment (product_of product) user_preferences;
  horizon_boost ← _calculate_horizon_optimization (product_of product) user_preferences;
  let query_boost := _calculate_query_relevance (product_of product) user_query in
  sip_boost ← _calculate_sip_suitability (product_of product) user_preferences;
  let enhanced_score :=
    base_score
    + goal_boost * goal_multiplier
    + horizon_boost * horizon_multiplier
    + query_boost * query_multiplier
    + sip_boost * sip_multiplier in
  Ok (py_min enhanced_score 100).

Definition _generate_ranking_reasoning (product : ScoredProduct)
    (enhanced_score : Q) : string :=
  let base_reasoning := reasoning product in
  let score_improvement := enhanced_score - score product in
  let additional_reasoning :=
    if Qlt_bool 3 score_improvement
    then " Excellent alignment with your investment goals and risk profile."
    else if Qlt_bool 1.5 score_improvement
    then " Good match for your investment strategy."
    else if Qlt_bool 0.5 score_improvement
    then " Suitable for your investment preferences."
    else "" in
  base_reasoning ++ additional_reasoning.

Definition rank_products :=
  rank_with _calculate_enhanced_score _generate_ranking_reasoning.

End MutualFundRanker.

(** ** The manager ([financial_product_manager.py]) *)

(** [l[:n]] for any integer [n]: a negative [n] counts from the end. *)
Definition py_slice_to {A} (n : Z) (l : list A) : list A :=
  if (0 <=? n)%Z then firstn (Z.to_nat n) l
  else firstn (length l - Z.to_nat (- n)) l.

(** [d[k]] on a dict keyed by category. *)
Definition index_by_category {X} (d : ProductCategory -> option X)
    (k : ProductCategory) : result X :=
  match d k with Some x => Ok x | None => Raise KeyError end.

(** [BaseDataLoader.load_data]: reads the files of one category, or
    fails. *)
Record DataLoader : Type := {
  load_data : PyVal -> result (list PyDict)
}.

Definition Ranker : Type :=
  list ScoredProduct -> string -> option Preferences -> result (list ScoredProduct).

Record ProductRecommendation : Type := {
  products : list ScoredProduct;
  total_found : nat;
  query_processed : string;
  recommendations_reasoning : string
}.

Module FinancialProductManager.
Section Manager.
Context `{PyBuiltins}.
Variables credit_card_loader fixed_deposit_loader mutual_fund_loader : DataLoader.

(** The three dicts built by [__init__]. *)
Definition processors (c : ProductCategory) : option BaseProductProcessor :=
  match c with
  | CREDIT_CARDS => Some CreditCardProcessor.processor
  | FIXED_DEPOSITS => Some FixedDepositProcessor.processor
  | MUTUAL_FUNDS => Some MutualFundProcessor.processor
  | INSURANCE | LOANS => None
  end.

Definition data_loaders (c : ProductCategory) : option DataLoader :=
  match c with
  | CREDIT_CARDS => Some credit_card_loader
  | FIXED_DEPOSITS => Some fixed_deposit_loader
  | MUTUAL_FUNDS => Some mutual_fund_loader
  | INSURANCE | LOANS => None
  end.

Definition rankers (c : ProductCategory) : option Ranker :=
  match c with
  | CREDIT_CARDS => Some CreditCardRanker.rank_products
  | FIXED_DEPOSITS => Some FixedDepositRanker.rank_products
  | MUTUAL_FUNDS => Some MutualFundRanker.rank_products
  | INSURANCE | LOANS => None
  end.

(** The body of the [try] in the loop over [raw_data]. *)
Definition score_one (processor : BaseProductProcessor)
    (user_preferences : Preferences) (raw_product : PyDict) : result ScoredProduct :=
  processed_product ← process_product processor raw_product;
  score ← calculate_score processor processed_product user_preferences;
  Ok {| product := processed_product;
        score := score;
        reasoning := "Base score: " ++ format_1f score |}.

Definition _process_category (category : ProductCategory) (user_query : string)
    (user_preferences : Preferences) : result (list ScoredProduct) :=
  loader ← index_by_category data_loaders category;
  processor ← index_by_category processors category;
  ranker ← index_by_category rankers category;
  let source_filter := dict_get user_preferences (category_value category ++ "_source") in
  raw_data ← load_data loader source_filter;
  (* a record whose processing raises is skipped *)
  let scored_products :=
    flat_map
      (fun raw_product =>
         match score_one processor user_preferences raw_product with
         | Ok scored_product => [scored_product]
         | Raise _ => []
         end)
      raw_data in
  (ranker : Ranker) scored_products user_query (Some user_preferences).

Definition _rank_across_categories (products : list ScoredProduct)
    (user_query : string) (user_preferences : Preferences) : list ScoredProduct :=
  sorted_by_score products.

Definition _generate_recommendation_reasoning (user_query : string)
    (products : list ScoredProduct) (total_found : nat) : string :=
  match products with
  | [] =>
      "No products found matching '" ++ user_query ++ "'. Try different search terms."
  | top :: _ =>
      let top_score := score top in
      let categories :=
        set_iter (map (fun p => category_value (category (info (product p)))) products) in
      "Found " ++ str_of_int (Z.of_nat total_found)
        ++ " products matching '" ++ user_query ++ "'. "
        ++ "Showing top " ++ str_of_int (Z.of_nat (length products))
        ++ " recommendations "
        ++ "from " ++ str_of_int (Z.of_nat (length categories))
        ++ " categories: " ++ join ", " categories ++ ". "
        ++ "Top recommendation score: " ++ format_1f top_score ++ "/100."
  end.

(** The loop over [product_categories]: a category whose processing
    raises is skipped. *)
Definition collect (product_categories : list ProductCategory)
    (user_query : string) (user_preferences : Preferences) : list ScoredProduct :=
  flat_map
    (fun category =>
       match _process_category category user_query user_preferences with
       | Ok category_products => category_products
       | Raise _ => []
       end)
    product_categories.

Definition recommend_products (user_query : string)
    (product_categories : option (list ProductCategory))
    (user_preferences : option Preferences)
    (max_results : Z) : ProductRecommendation :=
  let product_categories := default all_categories product_categories in
  let user_preferences := default ∅ user_preferences in
  let all_products := collect product_categories user_query user_preferences in
  let ranked_products :=
    _rank_across_categories all_products user_query user_preferences in
  let final_products := py_slice_to max_results ranked_products in
  let reasoning :=
    _generate_recommendation_reasoning user_query final_products (length all_products) in
  {| products := final_products;
     total_found := length all_products;
     query_processed := user_query;
     recommendations_reasoning := reasoning |}.
End Manager.
End FinancialProductManager.

(** ** A run time and inputs for the examples *)

(** [x] rounded to one decimal, for the non-negative values with at most
    one decimal that the examples format. *)
Definition one_decimal (x : Q) : string :=
  let tenths := Qfloor (x * 10 + 0.5) in
  str_of_int (tenths / 10)%Z ++ "." ++ str_of_int (tenths mod 10)%Z.

Definition distinct (l : list string) : list string :=
  fold_right (fun s acc => if elem s acc then acc else s :: acc) [] l.

Definition example_builtins : PyBuiltins :=
  {| hash_str := fun s => str_of_int (Z.of_nat (String.length s));
     float_str := one_decimal;
     format_1f := one_decimal;
     items_str := fun _ => "";
     set_iter := distinct |}.

(** A loader whose data file is missing, and one that holds the given
    records whatever the source filter. *)
Definition missing_loader : DataLoader := {| load_data := fun _ => Raise LoaderError |}.

Definition loader_of (records : list PyDict) : DataLoader :=
  {| load_data := fun _ => Ok records |}.

(** The credit-card record of the scenario in the specification. *)
Definition example_card : PyDict :=
  <["name" := PStr "Example Card"]>
    (<["bank" := PStr "HDFC"]>
       (<["annual_fee" := PInt 0]>
          (<["description" :=
               PStr "Earn 5% cashback on fuel, lounge access, welcome bonus"]> ∅))).

(** A fixed-deposit record whose tenure is not a number. *)
Definition bad_tenure_record : PyDict :=
  <["bank_name" := PStr "SBI"]>
    (<["roi_in_percentage_max_tenure" := PStr "7.5"]>
       (<["tenure_from_days" := PStr "abc"]> ∅)).

(** The same record with a rate that is not a number instead. *)
Definition bad_rate_record : PyDict :=
  <["bank_name" := PStr "SBI"]>
    (<["roi_in_percentage_max_tenure" := PStr "abc"]>
       (<["tenure_from_days" := PInt 365]> ∅)).

(** A mutual fund that lost 10% a year over five years. *)
Definition losing_fund_record : PyDict :=
  <["name" := PStr "Sector Fund"]>
    (<["returns_5y" := PStr "-10%"]>
       (<["risk_level" := PStr "Very High Risk"]> ∅)).

Definition losing_fund : MutualFundInfo :=
  {| mf_info := {| product_id := "mf_0";
                   name := "Sector Fund";
                   description := "";
                   category := MUTUAL_FUNDS;
                   features := ["5Y Returns: -10%"; "Risk: Very High Risk"] |};
     amc := "Unknown";
     risk_level := "Very High Risk";
     rating := 0;
     returns_1y := None;
     returns_3y := None;
     returns_5y := Some (-10);
     nav := None;
     aum := None;
     expense_ratio := None;
     min_investment := None;
     fund_manager := None;
     inception_date := None;
     holdings := [];
     sector_allocation := [] |}.

(** A scored mutual fund and the preferences that
    [langchain_helper.extract_user_preferences] builds for a query that
    mentions retirement. *)
Definition scored_fund : ScoredProduct :=
  {| product := MutualFund losing_fund; score := 50; reasoning := "Base score: 50.0" |}.

Definition retirement_preferences : Preferences :=
  <["investment_goal" := PStr "retirement"]> ∅.

(** [replace(product, senior_citizen_rate=s)] *)
Definition with_senior_rate (p : FixedDepositInfo) (s : option Q) : FixedDepositInfo :=
  {| fd_info := fd_info p;
     bank_name := bank_name p;
     interest_rate_min := interest_rate_min p;
     interest_rate_max := interest_rate_max p;
     tenure_from_days := tenure_from_days p;
     tenure_to_days := tenure_to_days p;
     senior_citizen_rate := s |}.

(** A fixed deposit that pays no interest. *)
Definition zero_rate_deposit : FixedDepositInfo :=
  {| fd_info := {| product_id := "fd_0";
                   name := "Co-op Fixed Deposit";
                   description := "";
                   category := FIXED_DEPOSITS;
                   features := [] |};
     bank_name := "Co-op";
     interest_rate_min := None;
     interest_rate_max := Some 0;
     tenure_from_days := None;
     tenure_to_days := None;
     senior_citizen_rate := Some 0 |}.

(** A fixed deposit at 7.5% over one to five years. *)
Definition example_deposit : FixedDepositInfo :=
  {| fd_info := {| product_id := "fd_1";
                   name := "SBI Fixed Deposit";
                   description := "";
                   category := FIXED_DEPOSITS;
                   features := ["Interest rate up to 7.5%"; "Minimum tenure: 1.0 years"] |};
     bank_name := "SBI";
     interest_rate_min := None;
     interest_rate_max := Some 7.5;
     tenure_from_days := Some 365%Z;
     tenure_to_days := Some 1825%Z;
     senior_citizen_rate := None |}.

(** The text of the user's risk tolerance, when the preference is a
    string or is missing. *)
Definition risk_tolerance_text (user_preferences : Preferences) : option string :=
  match dict_get_default user_preferences "risk_tolerance" (PStr "moderate risk") with
  | PStr s => Some s
  | _ => None
  end.

(** Scores from head to tail never go up. *)
Definition non_ascending (l : list ScoredProduct) : Prop :=
  StronglySorted (fun a b => score b <= score a) l.

(** [replace(product, cashback_rate=r)] *)
Definition with_cashback_rate (p : CreditCardInfo) (r : option Q) : CreditCardInfo :=
  {| cc_info := cc_info p;
     bank := bank p;
     annual_fee := annual_fee p;
     cashback_rate := r;
     reward_rate := reward_rate p;
     welcome_benefit := welcome_benefit p;
     fuel_surcharge_waiver := fuel_surcharge_waiver p;
     lounge_access := lounge_access p |}.

(** The example card, as [process_product] builds it. *)
Definition example_card_info : CreditCardInfo :=
  {| cc_info := {| product_id := "cc_12";
                   name := "Example Card";
                   description := "Earn 5% cashback on fuel, lounge access, welcome bonus";
                   category := CREDIT_CARDS;
                   features := ["Up to 5% cashback"; "Airport lounge access";
                                "Welcome benefits"] |};
     bank := "HDFC";
     annual_fee := Some 0;
     cashback_rate := Some 5;
     reward_rate := None;
     welcome_benefit := Some "Earn 5% cashback on fuel, lounge access, welcome bonus";
     fuel_surcharge_waiver := false;
     lounge_access := true |}.

(** A five-star fund with the best value of every attribute. *)
Definition best_fund : MutualFundInfo :=
  {| mf_info := {| product_id := "mf_1";
                   name := "Bluechip Equity Fund";
                   description := "";
                   category := MUTUAL_FUNDS;
                   features := ["5Y Returns: 30%"; "Rating: 5/5 stars"] |};
     amc := "Alpha AMC";
     risk_level := "Moderate Risk";
     rating := 5;
     returns_1y := None;
     returns_3y := None;
     returns_5y := Some 30;
     nav := None;
     aum := Some 20000;
     expense_ratio := Some 0.4;
     min_investment := None;
     fund_manager := Some "A. Manager";
     inception_date := None;
     holdings := repeat PNone 51;
     sector_allocation := [] |}.

(** A fixed-deposit record with rates of every kind. *)
Definition odd_rates_record : PyDict :=
  <["bank_name" := PStr "SBI"]>
    (<["roi_in_percentage_max_tenure" := PList [PInt 7]]>
       (<["roi_in_percentage_min_tenure" := PStr "n/a"]>
          (<["tenure_from_days" := PInt 365]> ∅))).

(** A tenure field that is missing, [null] or an integer. *)
Definition int_or_none (v : PyVal) : Prop :=
  match v with PNone | PInt _ => True | _ => False end.

(** [int(v) if v else None] on such a field. *)
Definition tenure_of (v : PyVal) : option Z :=
  match v with
  | PInt z => if (z =? 0)%Z then None else Some z
  | _ => None
  end.

(** Two loaders for the examples: the example card alone, and a good
    fixed-deposit record between two that cannot be processed. *)
Definition card_loader : DataLoader := loader_of [example_card].

Definition good_deposit_record : PyDict :=
  <["bank_name" := PStr "SBI"]>
    (<["roi_in_percentage_max_tenure" := PStr "7.5"]>
       (<["tenure_from_days" := PInt 365]>
          (<["tenure_to_days" := PInt 1825]> ∅))).

(** ** The chat helper ([langchain_helper.py]) *)

Module LangchainHelper.

Definition financial_keywords : list string :=
  [ "credit card"; "loan"; "mutual fund"; "fixed deposit"; "fd"; "investment";
    "insurance"; "savings"; "bank"; "finance"; "money"; "invest"; "portfolio";
    "cashback"; "reward"; "interest rate"; "returns"; "risk"; "sip";
    "recommend"; "suggest"; "best"; "compare"; "which card"; "which fund" ].

Definition is_financial_query (input_text : string) : bool :=
  let input_lower := lower input_text in
  any (fun keyword => contains keyword input_lower) financial_keywords.

(** [any(word in text for word in words)] *)
Definition mentions (text : string) (words : list string) : bool :=
  any (fun word => contains word text) words.

(** The blocks of [extract_user_preferences], in the order of the
    source; each one sets at most its own key. *)

(* Extract income range *)
Definition extract_income_range (text : string) (preferences : Preferences)
    : Preferences :=
  if mentions text ["high income"; "premium"; "luxury"]
  then <["income_range" := PStr "premium"]> preferences
  else if mentions text ["middle"; "average"; "regular"]
  then <["income_range" := PStr "mid"]> preferences
  else if mentions text ["student"; "low income"; "basic"]
  then <["income_range" := PStr "entry"]> preferences
  else preferences.

(* Extract spending categories *)
Definition spending_categories_of (text : string) : list string :=
  concat
    [ if mentions text ["travel"; "vacation"; "flight"; "hotel"] then ["travel"] else [];
      if mentions text ["food"; "restaurant"; "dining"] then ["dining"] else [];
      if mentions text ["fuel"; "petrol"; "gas"] then ["fuel"] else [];
      if mentions text ["shopping"; "online"; "purchase"] then ["shopping"] else [] ].

Definition extract_spending_categories (text : string) (preferences : Preferences)
    : Preferences :=
  match spending_categories_of text with
  | [] => preferences
  | categories => <["spending_categories" := PList (map PStr categories)]> preferences
  end.

(* Extract investment preferences *)
Definition extract_investment_horizon (text : string) (preferences : Preferences)
    : Preferences :=
  if mentions text ["long term"; "retirement"; "10 year"]
  then <["investment_horizon" := PStr "long term"]> preferences
  else if mentions text ["short term"; "quick"; "1 year"]
  then <["investment_horizon" := PStr "short term"]> preferences
  else if mentions text ["medium term"; "3 year"; "5 year"]
  then <["investment_horizon" := PStr "medium term"]> preferences
  else preferences.

(* Extract risk tolerance *)
Definition extract_risk_tolerance (text : string) (preferences : Preferences)
    : Preferences :=
  if mentions text ["safe"; "low risk"; "conservative"]
  then <["risk_tolerance" := PStr "low risk"]> preferences
  else if mentions text ["aggressive"; "high risk"; "growth"]
  then <["risk_tolerance" := PStr "high risk"]> preferences
  else <["risk_tolerance" := PStr "moderate risk"]> preferences.

(* Extract investment goals *)
Definition extract_investment_goal (text : string) (preferences : Preferences)
    : Preferences :=
  if mentions text ["tax saving"; "elss"; "80c"]
  then <["investment_goal" := PStr "tax saving"]> preferences
  else if mentions text ["retirement"; "pension"]
  then <["investment_goal" := PStr "retirement"]> preferences
  else if mentions text ["wealth"; "growth"; "appreciation"]
  then <["investment_goal" := PStr "wealth creation"]> preferences
  else if mentions text ["income"; "dividend"; "regular"]
  then <["investment_goal" := PStr "regular income"]> preferences
  else preferences.

(* Extract product type preferences *)
Definition extract_investment_type (text : string) (preferences : Preferences)
    : Preferences :=
  if mentions text ["sip"; "systematic"]
  then <["investment_type" := PStr "sip"]> preferences
  else preferences.

Definition extract_user_preferences (input_text conversation_history : string)
    : Preferences :=
  let preferences : Preferences := ∅ in
  let text := lower (input_text ++ " " ++ conversation_history) in
  let preferences := extract_income_range text preferences in
  let preferences := extract_spending_categories text preferences in
  let preferences := extract_investment_horizon text preferences in
  let preferences := extract_risk_tolerance text preferences in
  let preferences := extract_investment_goal text preferences in
  let preferences := extract_investment_type text preferences in
  preferences.

(** The words that make [extract_user_preferences] set an investment
    goal. *)
Definition goal_words : list string :=
  [ "tax saving"; "elss"; "80c"; "retirement"; "pension";
    "wealth"; "growth"; "appreciation"; "income"; "dividend"; "regular" ].

(** The categories [get_financial_recommendations] searches for a
    query. *)
Definition relevant_categories (input_text : string) : list ProductCategory :=
  let input_lower := lower input_text in
  let categories :=
    concat
      [ if mentions input_lower ["credit card"; "card"; "cashback"; "reward"]
        then [CREDIT_CARDS] else [];
        if mentions input_lower ["mutual fund"; "fund"; "sip"; "investment"]
        then [MUTUAL_FUNDS] else [];
        if mentions input_lower ["fixed deposit"; "fd"; "deposit"; "safe investment"]
        then [FIXED_DEPOSITS] else [] ] in
  match categories with
  | [] => all_categories
  | _ => categories
  end.

Definition newline : string := String "010" "".

(** The bullet U+2022, as its three UTF-8 bytes. *)
Definition bullet : string :=
  String (ascii_of_nat 226) (String (ascii_of_nat 128) (String (ascii_of_nat 162) "")).

Definition no_match_message : string :=
  "I couldn't find specific financial products matching your query. Please provide more details about what you're looking for.".

Section Recommendations.
Context `{PyBuiltins}.
Variables credit_card_loader fixed_deposit_loader mutual_fund_loader : DataLoader.

(** The lines written for the [i]-th product of the answer. *)
Definition format_product (i : nat) (scored_product : ScoredProduct) : list string :=
  let product := info (product_of scored_product) in
  concat
    [ [ str_of_int (Z.of_nat i) ++ ". **" ++ name product ++ "**";
        "   Category: " ++ category_value (category product);
        "   Score: " ++ format_1f (score scored_product) ++ "/100" ];
      match features product with
      | [] => []
      | _ =>
          "   Key Features:"
          :: map (fun feature => "   " ++ bullet ++ " " ++ feature)
               (firstn 3 (features product))
      end;
      [ "   Reasoning: " ++ reasoning scored_product; "" ] ].

(** [enumerate(l, start)] mapped through [format_product]. *)
Fixpoint format_products (start : nat) (l : list ScoredProduct) : list string :=
  match l with
  | [] => []
  | p :: l' => app (format_product start p) (format_products (S start) l')
  end.

Definition get_financial_recommendations (input_text : string)
    (user_preferences : option Preferences) : string :=
  let categories := relevant_categories input_text in
  let recommendations :=
    FinancialProductManager.recommend_products
      credit_card_loader fixed_deposit_loader mutual_fund_loader
      input_text (Some categories) (Some (default ∅ user_preferences)) 5 in
  match products recommendations with
  | [] => no_match_message
  | _ =>
      join newline
        (concat
           [ [ "Based on your query '" ++ input_text
               ++ "', here are my top recommendations:"; "" ];
             format_products 1 (firstn 3 (products recommendations));
             [ recommendations_reasoning recommendations ] ])
  end.
End Recommendations.
End LangchainHelper.

(** ** Shapes of regular expressions, for the proofs *)

(** [r] can only match a text that starts with a digit. *)
Fixpoint leads_digit (r : regex) : bool :=
  match r with
  | RDigit => true
  | RSeq r1 _ => leads_digit r1
  | _ => false
  end.

(** Every group of [r] can only capture a text that starts with a
    digit. *)
Fixpoint groups_digit (r : regex) : bool :=
  match r with
  | RLit _ | RDigit | RSpace | RSet _ _ => true
  | RSeq r1 r2 => groups_digit r1 && groups_digit r2
  | ROpt r1 | RStar r1 => groups_digit r1
  | RGroup r1 => leads_digit r1 && groups_digit r1
  end.

Definition starts_with_digit (s : string) : Prop :=
  exists c s', s = String c s' /\ is_digit c = true.

Definition capture_ok (cap : option string) : Prop :=
  match cap with Some g => starts_with_digit g | None => True end.

(** ** Data loaders ([data_loaders/]) *)

(** [k in v] for a string [k]: a key of a dict, an item of a list, a
    part of a string. *)
Definition py_in (k : string) (v : PyVal) : result bool :=
  match v with
  | PDict d => Ok (bool_decide (is_Some (d !! k)))
  | PList l => Ok (existsb (fun x => py_eq_str x k) l)
  | PStr s => Ok (contains k s)
  | PNone | PBool _ | PInt _ | PFloat _ => Raise TypeError
  end.

(** [v[k]] for a string [k]. *)
Definition py_getitem (v : PyVal) (k : string) : result PyVal :=
  match v with
  | PDict d => match d !! k with Some x => Ok x | None => Raise KeyError end
  | _ => Raise TypeError
  end.

(** [v.get(k, default)] *)
Definition py_get (v : PyVal) (k : string) (dflt : PyVal) : result PyVal :=
  match v with
  | PDict d => Ok (dict_get_default d k dflt)
  | _ => Raise AttributeError
  end.

(** [sorted(l)] for a list of strings. *)
Fixpoint insert_str (x : string) (l : list string) : list string :=
  match l with
  | [] => [x]
  | y :: l' => if String.ltb y x then y :: insert_str x l' else x :: l
  end.

Definition sorted_strs (l : list string) : list string :=
  fold_right insert_str [] l.

(** *** Fixed deposits ([data_loaders/fixed_deposit_loader.py]) *)

Module FixedDepositDataLoader.

Definition bank_patterns : list string :=
  ["State Bank of India"; "SBI";
   "HDFC Bank"; "HDFC";
   "ICICI Bank"; "ICICI";
   "Axis Bank"; "Axis";
   "Kotak Mahindra Bank"; "Kotak";
   "Punjab National Bank"; "PNB";
   "Bank of Baroda"; "BOB";
   "Canara Bank";
   "Union Bank";
   "Indian Bank";
   "Central Bank";
   "Yes Bank";
   "IndusInd Bank";
   "Federal Bank";
   "Karnataka Bank";
   "South Indian Bank";
   "City Union Bank"].

(** The loop over [enumerate(words)]: [seen] holds [words[:i]]. *)
Fixpoint company_name_from (seen words : list string) : option string :=
  match words with
  | [] => None
  | word :: rest =>
      if elem (lower word) ["limited"; "ltd"; "corporation"] then
        let company_name := join " " (seen ++ [word])%list in
        if (10 <? String.length company_name)%nat
        then Some (str_take 50 company_name)
        else company_name_from (seen ++ [word])%list rest
      else company_name_from (seen ++ [word])%list rest
  end.

Definition _extract_bank_name (about_text : PyVal) : result (option string) :=
  if negb (truthy about_text) then Ok None
  else
    about_lower ← py_lower about_text;
    match List.find (fun pattern => contains (lower pattern) about_lower)
            bank_patterns with
    | Some pattern => Ok (Some pattern)
    | None =>
        if contains "limited" about_lower || contains "ltd" about_lower then
          match about_text with
          | PStr s => Ok (company_name_from [] (split_ws s))
          | _ => Raise AttributeError
          end
        else Ok None
    end.

Section Loader.
(** What [_load_json_file(self.fd_file)] returns: the items of the file,
    or an exception. *)
Variable fd_file : result (list PyVal).

(** The record of an item: its ['_source'] field when it has one. *)
Definition unwrap_source (fd_item : PyVal) : result PyVal :=
  has_source ← py_in "_source" fd_item;
  if (has_source : bool) then py_getitem fd_item "_source" else Ok fd_item.

(** The loop that filters by [source_lower]. *)
Fixpoint filter_by_source (source_lower : string) (fds : list PyVal)
    : result (list PyVal) :=
  match fds with
  | [] => Ok []
  | fd :: rest =>
      bank_name ← (v ← py_get fd "bank_name" (PStr ""); py_lower v);
      about ← (v ← py_get fd "about" (PStr ""); py_lower v);
      let keep := contains source_lower bank_name || contains source_lower about in
      filtered ← filter_by_source source_lower rest;
      Ok (if keep then fd :: filtered else filtered)
  end.

Definition load_data (source : PyVal) : result (list PyVal) :=
  all_fds ← fd_file;
  processed_fds ← for_each unwrap_source all_fds;
  if truthy source then
    source_lower ← py_lower source;
    filter_by_source source_lower processed_fds
  else Ok processed_fds.

(** The loop over [all_fds] that fills the set [banks]. *)
Fixpoint collect_banks (fds : list PyVal) (banks : gset string)
    : result (gset string) :=
  match fds with
  | [] => Ok banks
  | fd :: rest =>
      about ← py_get fd "about" (PStr "");
      banks ←
        (if truthy about then
           bank_name ← _extract_bank_name about;
           Ok (match bank_name with
               | Some name => if truthy_str bank_name then {[ name ]} ∪ banks else banks
               | None => banks
               end)
         else Ok banks);
      collect_banks rest banks
  end.

(** Any exception gives the empty list. *)
Definition get_available_sources : list string :=
  match (all_fds ← load_data PNone;
         banks ← collect_banks all_fds ∅;
         Ok (sorted_strs (elements banks))) with
  | Ok sources => sources
  | Raise _ => []
  end.
End Loader.
End FixedDepositDataLoader.

(** The items of a fixed-deposit file in which one record names South
    Indian Bank. *)
Definition south_indian_file : result (list PyVal) :=
  Ok [PDict (<["_source" :=
                 PDict (<["bank_name" := PStr "South Indian Bank"]>
                          (<["about" := PStr "South Indian Bank Ltd offers deposits"]> ∅))]> ∅)].

(** ** Fixed deposits: the features for ranking
    ([financial_products/fixed_deposit_processor.py], continued)

    The remaining methods of [FixedDepositProcessor]: [extract_features]
    and the helpers it calls. *)

(** [re.search(r, s)]: group 1 of the leftmost match. *)
Fixpoint search (r : regex) (s : string) : option string :=
  match match_here r s with
  | Some (_, g) => Some g
  | None =>
      match s with
      | String _ s' => search r s'
      | EmptyString => None
      end
  end.

(** [.]: any character but the line feed. *)
Definition RDot : regex :=
  RSet (List.filter (fun c => negb (Ascii.eqb c "010"))
          (map ascii_of_nat (seq 0 256))) false.

(** [v] as an operand of [-] or [/]: a number. *)
Definition py_num (v : PyVal) : result Q :=
  match v with
  | PInt z => Ok (inject_Z z)
  | PFloat q => Ok q
  | PBool b => Ok (if b then 1 else 0)
  | PNone | PStr _ | PList _ | PDict _ => Raise TypeError
  end.

Definition is_upper (c : ascii) : bool :=
  let n := nat_of_ascii c in (65 <=? n)%nat && (n <=? 90)%nat.

Definition is_lower (c : ascii) : bool :=
  let n := nat_of_ascii c in (97 <=? n)%nat && (n <=? 122)%nat.

Definition upper_ascii (c : ascii) : ascii :=
  if is_lower c then ascii_of_nat (nat_of_ascii c - 32) else c.

(** [s.title()]: a letter is upper case after a character that is not a
    letter, and lower case after a letter. *)
Fixpoint title_from (previous_is_cased : bool) (s : string) : string :=
  match s with
  | EmptyString => EmptyString
  | String c s' =>
      if is_lower c || is_upper c then
        String (if previous_is_cased then lower_ascii c else upper_ascii c)
          (title_from true s')
      else String c (title_from false s')
  end.

Definition title (s : string) : string := title_from false s.

Definition py_title (v : PyVal) : result string :=
  match v with PStr s => Ok (title s) | _ => Raise AttributeError end.

Module FixedDepositFeatures.

(** [v and isinstance(v, (int, float)) and v > 0] *)
Definition is_positive_number (v : PyVal) : bool :=
  match v with
  | PInt z => (0 <? z)%Z
  | PFloat q => Qlt_bool 0 q
  | PBool b => b
  | PNone | PStr _ | PList _ | PDict _ => false
  end.

(** The loops [for x in sources: if x and isinstance(...) and x > 0:
    return ...]: the first source that passes. *)
Definition first_positive (sources : list PyVal) : option PyVal :=
  List.find is_positive_number sources.

(** [r'(\d+(?:\.\d+)?)%.*interest'] *)
Definition interest_re : regex :=
  rseq [RGroup number_re; RLit "%"; RStar RDot; RLit "interest"].

Definition _extract_interest_rate (raw_data : PyDict) : result Q :=
  match first_positive [dict_get_default raw_data "roi_in_percentage" (PInt 0);
                        dict_get_default raw_data "interest_rate" (PInt 0);
                        dict_get_default raw_data "rate" (PInt 0)] with
  | Some rate => py_float rate
  | None =>
      (* Try to extract from text *)
      d ← py_lower (dict_get_default raw_data "description" (PStr ""));
      match search interest_re d with
      | Some g => float_of_str g
      | None => Ok 0
      end
  end.

Definition _extract_senior_rate (raw_data : PyDict) : result Q :=
  match first_positive
          [dict_get_default raw_data "roi_senior_citizens_in_percentage" (PInt 0);
           dict_get_default raw_data "senior_citizen_rate" (PInt 0);
           dict_get_default raw_data "senior_rate" (PInt 0)] with
  | Some rate => py_float rate
  | None => _extract_interest_rate raw_data
  end.

Definition _extract_tenure (raw_data : PyDict) (tenure_type : string) : result Z :=
  let sources :=
    if String.eqb tenure_type "min"
    then [dict_get_default raw_data "tenure_from_days" (PInt 0);
          dict_get_default raw_data "min_tenure" (PInt 0)]
    else [dict_get_default raw_data "tenure_to_days" (PInt 0);
          dict_get_default raw_data "max_tenure" (PInt 0)] in
  match first_positive sources with
  | Some tenure => py_int tenure
  | None => Ok (if String.eqb tenure_type "min" then 7 else 3650)%Z
  end.

(** The limit is a float, the default an int. *)
Definition _extract_deposit_limit (raw_data : PyDict) (limit_type : string)
    : result PyVal :=
  let '(sources, default) :=
    if String.eqb limit_type "min"
    then ([dict_get_default raw_data "deposit_min" (PInt 0);
           dict_get_default raw_data "min_deposit" (PInt 0)], 1000%Z)
    else ([dict_get_default raw_data "deposit_max_in_crores" (PInt 0);
           dict_get_default raw_data "max_deposit" (PInt 0)], 100%Z) in
  match first_positive sources with
  | Some limit => q ← py_float limit; Ok (PFloat q)
  | None => Ok (PInt default)
  end.

Definition private_banks : list string :=
  ["axis"; "icici"; "hdfc"; "kotak"; "yes"; "indusind"].

Definition public_banks : list string :=
  ["sbi"; "pnb"; "bob"; "canara"; "union"; "indian"].

Definition _extract_bank_type (raw_data : PyDict) : result string :=
  let bank_type := dict_get_default raw_data "bank_type" (PStr "") in
  if truthy bank_type then py_title bank_type
  else
    (* Infer from bank name *)
    bank_name ← py_lower (dict_get_default raw_data "bank_name" (PStr ""));
    if any (fun private => contains private bank_name) private_banks then Ok "Private"
    else if any (fun public => contains public bank_name) public_banks then Ok "Public"
    else Ok "Other".

Definition _extract_credit_rating (raw_data : PyDict) : result Q :=
  match first_positive
          [dict_get_default raw_data "credit_rating_mapping" (PInt 0);
           dict_get_default raw_data "rating" (PInt 0);
           dict_get_default raw_data "credit_rating" (PInt 0)] with
  | Some rating => py_float rating
  | None =>
      (* Default rating based on bank type *)
      bank_type ← _extract_bank_type raw_data;
      if String.eqb bank_type "Public" then Ok 4
      else if String.eqb bank_type "Private" then Ok 3.5
      else Ok 3
  end.

Definition average_rates : list (string * Q) :=
  [("Public", 6.5); ("Private", 7); ("Other", 6)].

(** [max(0, interest_rate - avg_rate)]: the int [0] unless the
    difference is positive. *)
Definition _calculate_rate_premium (features : PyDict) : result PyVal :=
  let interest_rate := dict_get_default features "interest_rate" (PInt 0) in
  let bank_type := dict_get_default features "bank_type" (PStr "") in
  found ← py_lookup bank_type average_rates;
  let avg_rate := default 6.5 found in
  interest_rate ← py_num interest_rate;
  let premium := interest_rate - avg_rate in
  Ok (if Qlt_bool 0 premium then PFloat premium else PInt 0).

Definition _calculate_flexibility_score (features : PyDict) : result Q :=
  let min_tenure := dict_get_default features "min_tenure_days" (PInt 365) in
  let max_deposit := dict_get_default features "max_deposit_crores" (PInt 1) in
  (* Lower minimum tenure = more flexible *)
  min_tenure ← py_num min_tenure;
  let tenure_score :=
    let t := 5 - min_tenure / 365 in if Qlt_bool 0 t then t else 0 in
  (* Higher deposit limit = more flexible *)
  max_deposit ← py_num max_deposit;
  let deposit_score :=
    let d := max_deposit / 20 in if Qlt_bool d 5 then d else 5 in
  Ok ((tenure_score + deposit_score) / 2).

Definition extract_features (raw_data : PyDict) : result PyDict :=
  let features : PyDict := ∅ in
  (* Interest rates *)
  interest_rate ← _extract_interest_rate raw_data;
  let features := <["interest_rate" := PFloat interest_rate]> features in
  senior_rate ← _extract_senior_rate raw_data;
  let features := <["senior_citizen_rate" := PFloat senior_rate]> features in
  (* Tenure information *)
  min_tenure ← _extract_tenure raw_data "min";
  let features := <["min_tenure_days" := PInt min_tenure]> features in
  max_tenure ← _extract_tenure raw_data "max";
  let features := <["max_tenure_days" := PInt max_tenure]> features in
  (* Deposit limits *)
  min_deposit ← _extract_deposit_limit raw_data "min";
  let features := <["min_deposit" := min_deposit]> features in
  max_deposit ← _extract_deposit_limit raw_data "max";
  let features := <["max_deposit_crores" := max_deposit]> features in
  (* Bank information *)
  bank_type ← _extract_bank_type raw_data;
  let features := <["bank_type" := PStr bank_type]> features in
  credit_rating ← _extract_credit_rating raw_data;
  let features := <["credit_rating" := PFloat credit_rating]> features in
  (* Calculated features *)
  rate_premium ← _calculate_rate_premium features;
  let features := <["rate_premium" := rate_premium]> features in
  flexibility_score ← _calculate_flexibility_score features;
  let features := <["flexibility_score" := PFloat flexibility_score]> features in
  Ok features.

End FixedDepositFeatures.

(** The value of key [k] in [features] is a number that satisfies [P]. *)
Definition number_at (features : PyDict) (k : string) (P : Q -> Prop) : Prop :=
  exists v q, features !! k = Some v /\ py_num v = Ok q /\ P q.

(** A deposit described in words only. *)
Definition described_deposit : PyDict :=
  <["bank_name" := PStr "Axis Bank"]>
    (<["description" := PStr "Earn 7.25% p.a. interest on deposits"]>
       (<["tenure_from_days" := PFloat 0.5]> ∅)).

(** What [extract_features] returns for it. *)
Definition described_deposit_features : PyDict :=
  Eval vm_compute in
    match FixedDepositFeatures.extract_features described_deposit with
    | Ok features => features
    | Raise _ => ∅
    end.

(** ** The texts a regular expression matches, for the proofs *)

Fixpoint lang (r : regex) (w : string) : Prop :=
  match r with
  | RLit p => w = p
  | RDigit => exists c, w = String c "" /\ is_digit c = true
  | RSpace => exists c, w = String c "" /\ Ascii.is_space c = true
  | RSet cs sp =>
      exists c, w = String c ""
                /\ existsb (Ascii.eqb c) cs || (sp && Ascii.is_space c) = true
  | RSeq r1 r2 => exists a b, w = a ++ b /\ lang r1 a /\ lang r2 b
  | ROpt r1 => w = "" \/ lang r1 w
  | RStar r1 => exists ws, w = fold_right String.append "" ws /\ Forall (lang r1) ws
  | RGroup r1 => lang r1 w
  end.

(** Every text a group of [r] can capture satisfies [P]. *)
Fixpoint groups_sat (P : string -> Prop) (r : regex) : Prop :=
  match r with
  | RLit _ | RDigit | RSpace | RSet _ _ => True
  | RSeq r1 r2 => groups_sat P r1 /\ groups_sat P r2
  | ROpt r1 | RStar r1 => groups_sat P r1
  | RGroup r1 => (forall w, lang r1 w -> P w) /\ groups_sat P r1
  end.

(** A match of [r] always goes through a group. *)
Fixpoint sets_group (r : regex) : bool :=
  match r with
  | RGroup _ => true
  | RSeq r1 r2 => sets_group r1 || sets_group r2
  | _ => false
  end.

Definition capture_sat (P : string -> Prop) (cap : option string) : Prop :=
  match cap with Some g => P g | None => True end.

Fixpoint all_digits (s : string) : bool :=
  match s with
  | EmptyString => true
  | String c s' => is_digit c && all_digits s'
  end.

(** A text of the form [\d+] or [\d+\.\d+]. *)
Definition is_number_text (g : string) : Prop :=
  exists a, a <> "" /\ all_digits a = true
            /\ (g = a \/ exists b, b <> "" /\ all_digits b = true /\ g = a ++ "." ++ b).

Fixpoint no_space (s : string) : bool :=
  match s with
  | EmptyString => true
  | String c s' => negb (Ascii.is_space c) && no_space s'
  end.

(** The value of key [k] in a raw record is a string, or [k] is absent. *)
Definition str_or_absent (raw : PyDict) (k : string) : Prop :=
  exists s, dict_get_default raw k (PStr "") = PStr s.

(** A deposit whose description is a number. *)
Definition numbered_deposit : PyDict :=
  <["bank_name" := PStr "SBI"]> (<["description" := PInt 5]> ∅).

(** [replace(product, interest_rate_max=r)] *)
Definition with_max_rate (p : FixedDepositInfo) (r : option Q) : FixedDepositInfo :=
  {| fd_info := fd_info p;
     bank_name := bank_name p;
     interest_rate_min := interest_rate_min p;
     interest_rate_max := r;
     tenure_from_days := tenure_from_days p;
     tenure_to_days := tenure_to_days p;
     senior_citizen_rate := senior_citizen_rate p |}.

(** *** Credit cards ([data_loaders/credit_card_loader.py]) *)

(** [v[k] = x] for a string [k]. *)
Definition py_setitem (v : PyVal) (k : string) (x : PyVal) : result PyVal :=
  match v with
  | PDict d => Ok (PDict (<[k := x]> d))
  | _ => Raise TypeError
  end.

Module CreditCardDataLoader.
Section Loader.
(** The keys of [self.bank_directories], in order, and what
    [_load_json_file] returns for the [cards.json] of each of them. *)
Variable bank_directories : list string.
Variable cards_file : string -> result (list PyVal).

(** The body of the loop of [_load_bank_data]: the card, with the bank
    added if not present. *)
Definition with_bank (bank_name : string) (card : PyVal) : result PyVal :=
  has_bank ← py_in "bank" card;
  missing ←
    (if (has_bank : bool) then bank ← py_getitem card "bank"; Ok (negb (truthy bank))
     else Ok true);
  if (missing : bool) then py_setitem card "bank" (PStr (title bank_name))
  else Ok card.

Definition _load_bank_data (bank_name : string) : result (list PyVal) :=
  if negb (elem bank_name bank_directories) then Raise ValueError
  else
    cards_data ← cards_file bank_name;
    for_each (with_bank bank_name) cards_data.

Definition load_data (source : PyVal) : result (list PyVal) :=
  if truthy source then
    (* Load from specific bank *)
    bank_name ← py_lower source;
    _load_bank_data bank_name
  else
    (* Load from all banks: a bank that fails is skipped *)
    Ok (flat_map
          (fun bank_name =>
             match _load_bank_data bank_name with
             | Ok bank_data => bank_data
             | Raise _ => []
             end)
          bank_directories).

Definition get_available_sources : list string := bank_directories.

(** A bank that fails counts 0. *)
Definition get_bank_card_count : list (string * nat) :=
  map (fun bank_name =>
         (bank_name,
          match _load_bank_data bank_name with
          | Ok bank_data => length bank_data
          | Raise _ => 0%nat
          end))
    bank_directories.
End Loader.
End CreditCardDataLoader.

(** The card is a record with a bank that counts as present. *)
Definition has_bank (card : PyVal) : Prop :=
  exists d bank, card = PDict d /\ d !! "bank" = Some bank /\ truthy bank = true.

(** Two bank directories: one file has a card without bank, the other
    is not a list of records. *)
Definition example_directories : list string := ["hdfc"; "sbi"].

Definition example_cards_file (bank_name : string) : result (list PyVal) :=
  if String.eqb bank_name "hdfc"
  then Ok [PDict (<["name" := PStr "Millennia"]> ∅);
           PDict (<["name" := PStr "Regalia"]> (<["bank" := PStr "HDFC Bank"]> ∅))]
  else Ok [PStr "not a record"].

(** [sorted(l, key=key, reverse=True)]: a stable sort, highest key
    first. *)
Fixpoint insert_desc {A} (key : A -> Q) (x : A) (l : list A) : list A :=
  match l with
  | [] => [x]
  | y :: l' =>
      if Qlt_bool (key x) (key y) then y :: insert_desc key x l'
      else x :: l
  end.

Definition sorted_desc {A} (key : A -> Q) (l : list A) : list A :=
  fold_right (insert_desc key) [] l.

(** *** Fixed deposits by interest rate
    ([data_loaders/fixed_deposit_loader.py], continued) *)

Module FixedDepositRates.
Section Rates.
Context `{PyBuiltins}.
Variable fd_file : result (list PyVal).

Definition rate_fields : list string :=
  ["roi_in_percentage_max_tenure";
   "roi_in_percentage_senior_citizen_max_tenure";
   "roi_in_percentage_min_tenure"].

(** The highest of the rates that parse, if it is positive. *)
Definition _extract_max_interest_rate (fd_data : PyVal) : result (option Q) :=
  let max_rate := 0 in
  max_rate ←
    foldM
      (fun max_rate field =>
         rate_str ← py_get fd_data field PNone;
         if truthy rate_str then
           match float_of_str (strip (remove_char "%" (py_str rate_str))) with
           | Ok rate => Ok (py_max max_rate rate)
           | Raise _ => Ok max_rate
           end
         else Ok max_rate)
      rate_fields max_rate;
  Ok (if Qlt_bool 0 max_rate then Some max_rate else None).

(** The body of the loop of [get_fds_by_interest_rate]: the record with
    its rate, if it is kept. *)
Definition with_extracted_rate (min_rate : Q) (fd : PyVal) : result (option PyVal) :=
  max_rate ← _extract_max_interest_rate fd;
  match max_rate with
  | Some rate =>
      if negb (Qeq_bool rate 0) && Qle_bool min_rate rate then
        fd ← py_setitem fd "extracted_max_rate" (PFloat rate);
        Ok (Some fd)
      else Ok None
  | None => Ok None
  end.

(** [x.get('extracted_max_rate', 0)] for the records of
    [high_rate_fds], which all hold the float stored by the loop. *)
Definition extracted_max_rate (x : PyVal) : Q :=
  match x with
  | PDict d =>
      match py_num (dict_get_default d "extracted_max_rate" (PInt 0)) with
      | Ok rate => rate
      | Raise _ => 0
      end
  | _ => 0
  end.

(** Any exception gives the empty list. *)
Definition get_fds_by_interest_rate (min_rate : Q) : list PyVal :=
  match (all_fds ← FixedDepositDataLoader.load_data fd_file PNone;
         kept ← for_each (with_extracted_rate min_rate) all_fds;
         let high_rate_fds := omap id kept in
         Ok (sorted_desc extracted_max_rate high_rate_fds)) with
  | Ok fds => fds
  | Raise _ => []
  end.
End Rates.
End FixedDepositRates.

(** A file with three deposits; the second has no rate that parses. *)
Definition rates_file : result (list PyVal) :=
  Ok [PDict (<["bank_name" := PStr "A"]>
               (<["roi_in_percentage_max_tenure" := PStr "6.5%"]> ∅));
      PDict (<["bank_name" := PStr "B"]>
               (<["roi_in_percentage_max_tenure" := PStr "n/a"]> ∅));
      PDict (<["bank_name" := PStr "C"]>
               (<["roi_in_percentage_min_tenure" := PStr "5"]>
                  (<["roi_in_percentage_senior_citizen_max_tenure" := PStr "7.25 %"]> ∅)))].

(** The record can be searched by source: it is a dict whose bank name
    and description are strings (or absent). *)
Definition searchable (fd : PyVal) : bool :=
  match fd with
  | PDict d =>
      match dict_get_default d "bank_name" (PStr ""),
            dict_get_default d "about" (PStr "") with
      | PStr _, PStr _ => true
      | _, _ => false
      end
  | _ => false
  end.

(** The bank name or the description of the record contains
    [source_lower], letter case apart. *)
Definition mentions_source (source_lower : string) (fd : PyVal) : bool :=
  match fd with
  | PDict d =>
      match dict_get_default d "bank_name" (PStr ""),
            dict_get_default d "about" (PStr "") with
      | PStr bank_name, PStr about =>
          contains source_lower (lower bank_name) || contains source_lower (lower about)
      | _, _ => false
      end
  | _ => false
  end.

(** A file in which one record has a number for its description. *)
Definition mixed_file : result (list PyVal) :=
  Ok [PDict (<["bank_name" := PStr "Axis Bank"]> ∅);
      PDict (<["bank_name" := PStr "SBI"]> (<["about" := PInt 2024]> ∅))].



Definition no_tolerance_preferences : Preferences :=
  <["risk_tolerance" := PNone]> ∅.

(** An integer that Python converts to a float without overflow (a
    double reaches about 1.8e308). *)
Definition float_sized (z : Z) : Prop := (Z.abs z <= 10 ^ 300)%Z.

(** A tenure field that is missing, [null] or an integer of that
    size. *)
Definition sized_int_or_none (v : PyVal) : Prop :=
  match v with
  | PNone => True
  | PInt z => float_sized z
  | _ => False
  end.

(** ** Records that are not dicts

    [_process_category] over the items of a data file as the loader
    returns them: [base_loader] checks that the file holds a list (or one
    dict), not what the items are.  [FinancialProductManager] above is
    its restriction to files whose items are all dicts. *)


Module RawRecords.
Section Raw.
Context `{PyBuiltins}.

(** The body of the loop over [raw_data], with its [try]: the products
    to append.  A dict that cannot be processed or scored is reported by
    the handler and skipped.  On a value that is not a dict,
    [process_product] raises [AttributeError] at its first
    [raw_data.get], and so does the handler itself at
    [raw_product.get('name', 'Unknown')]: that exception leaves the
    loop. *)
Definition score_record (processor : BaseProductProcessor)
    (user_preferences : Preferences) (raw_product : PyVal)
    : result (list ScoredProduct) :=
  match raw_product with
  | PDict d =>
      match FinancialProductManager.score_one processor user_preferences d with
      | Ok scored_product => Ok [scored_product]
      | Raise _ => Ok []
      end
  | _ => Raise AttributeError
  end.

(** [_process_category] for a category whose loader is [load_data]. *)
Definition _process_category (load_data : PyVal -> result (list PyVal))
    (category : ProductCategory) (user_query : string)
    (user_preferences : Preferences) : result (list ScoredProduct) :=
  processor ← index_by_category FinancialProductManager.processors category;
  ranker ← index_by_category FinancialProductManager.rankers category;
  let source_filter := dict_get user_preferences (category_value category ++ "_source") in
  raw_data ← load_data source_filter;
  scored_products ← for_each (score_record processor user_preferences) raw_data;
  (ranker : Ranker) (concat scored_products) user_query (Some user_preferences).
End Raw.
End RawRecords.

(** The items of a typed loader, as values. *)
Definition raw_load (loader : DataLoader) (source : PyVal) : result (list PyVal) :=
  records ← load_data loader source; Ok (map PDict records).

(** * Properties *)

(** ** Arithmetic on scores *)

Lemma Qlt_bool_iff (a b : Q) : Qlt_bool a b = true <-> a < b.
Proof.
  unfold Qlt_bool. rewrite negb_true_iff.
  destruct (Qle_bool b a) eqn:E.
  - apply Qle_bool_iff in E. split; [discriminate | intros; lra].
  - split; [intros _ | reflexivity].
    destruct (Qlt_le_dec a b) as [|L]; [assumption|].
    apply Qle_bool_iff in L. congruence.
Qed.

Lemma Qlt_bool_false (a b : Q) : Qlt_bool a b = false <-> b <= a.
Proof.
  unfold Qlt_bool. rewrite negb_false_iff. apply Qle_bool_iff.
Qed.

Lemma py_min_le_r (a b : Q) : py_min a b <= b.
Proof. apply Q.le_min_r. Qed.

Lemma py_min_le_l (a b : Q) : py_min a b <= a.
Proof. apply Q.le_min_l. Qed.

Lemma py_min_glb (a b c : Q) : c <= a -> c <= b -> c <= py_min a b.
Proof. apply Q.min_glb. Qed.

Lemma py_max_ge_r (a b : Q) : b <= py_max a b.
Proof. apply Q.le_max_r. Qed.

(** Case analysis on the tests of a score computation. *)
Ltac qcases :=
  repeat match goal with
    | |- context [Qeq_bool ?a ?b] =>
        let E := fresh "E" in
        destruct (Qeq_bool a b) eqn:E;
        [apply Qeq_bool_iff in E | apply Qeq_bool_neq in E]
    | |- context [Qle_bool ?a ?b] =>
        let E := fresh "E" in
        destruct (Qle_bool a b) eqn:E;
        [apply Qle_bool_iff in E
        | assert (b < a) by (apply Qlt_bool_iff; unfold Qlt_bool; rewrite E; reflexivity);
          clear E]
    | |- context [Qlt_bool ?a ?b] =>
        let E := fresh "E" in
        destruct (Qlt_bool a b) eqn:E;
        [apply Qlt_bool_iff in E | apply Qlt_bool_false in E]
    end.

(** ** The processors *)

(** The upper half of the score range holds for the three processors:
    the last step is a [min] with 100. *)
Lemma credit_card_score_le_100 (p : CreditCardInfo) (prefs : Preferences) :
  CreditCardProcessor.calculate_score p prefs <= 100.
Proof. unfold CreditCardProcessor.calculate_score. apply py_min_le_r. Qed.

Lemma fixed_deposit_score_le_100 (p : FixedDepositInfo) (prefs : Preferences) :
  FixedDepositProcessor.calculate_score p prefs <= 100.
Proof. unfold FixedDepositProcessor.calculate_score. apply py_min_le_r. Qed.

Lemma mutual_fund_score_le_100 (p : MutualFundInfo) (prefs : Preferences) (s : Q) :
  MutualFundProcessor.calculate_score p prefs = Ok s -> s <= 100.
Proof.
  unfold MutualFundProcessor.calculate_score.
  destruct (MutualFundProcessor._calculate_risk_score _ _); simpl; [|discriminate].
  intros [= <-]. apply py_min_le_r.
Qed.

(** C1 (the code departs from it). The docstring of [calculate_score]
    promises a score between 0 and 100, but only the upper bound is
    enforced: a fund with a negative five-year return, as read from its
    record by [process_product], gets the score -6.5 under empty
    preferences (performance -20 x 0.4, risk 5 x 0.2, expense 5 x 0.1). *)
Theorem C1_negative_mutual_fund_score `{PyBuiltins} :
  exists m s,
    MutualFundProcessor.process_product losing_fund_record = Ok m
    /\ returns_5y m = Some (-10)
    /\ MutualFundProcessor.calculate_score m ∅ = Ok s
    /\ s == -6.5
    /\ ~ (0 <= s).
Proof.
  eexists. eexists.
  split; [vm_compute; reflexivity|].
  split; [reflexivity|].
  split; [vm_compute; reflexivity|].
  split; [reflexivity|].
  intros L. vm_compute in L. apply L. reflexivity.
Qed.

(** C4 (the code departs from it). A tenure that is not a number makes
    the fixed-deposit [process_product] raise [ValueError]: [int(...)]
    is applied to it outside any [try], whereas the rate fields go
    through [_parse_rate], which turns the same mistake into an absent
    value. *)
Theorem C4_tenure_string_raises `{PyBuiltins} :
  FixedDepositProcessor.process_product bad_tenure_record = Raise ValueError
  /\ FixedDepositProcessor._parse_rate (PStr "abc") = None
  /\ (exists f,
        FixedDepositProcessor.process_product bad_rate_record = Ok f
        /\ interest_rate_max f = None).
Proof.
  split; [vm_compute; reflexivity|].
  split; [vm_compute; reflexivity|].
  eexists. split; [vm_compute; reflexivity|]. reflexivity.
Qed.

(** C5 (as amended). For the example card, [process_product] yields
    [fuel_surcharge_waiver = False] (the description has neither "fuel
    surcharge" nor "fuel waiver") and [lounge_access = True], and the
    score under empty preferences is exactly 81: cashback 25, fee 25,
    benefits 15 (lounge 10, welcome 5), three features 6, bank 10. *)
Theorem C5_example_card_score `{PyBuiltins} :
  exists c,
    CreditCardProcessor.process_product example_card = Ok c
    /\ fuel_surcharge_waiver c = false
    /\ lounge_access c = true
    /\ cashback_rate c = Some 5
    /\ annual_fee c = Some 0
    /\ features (cc_info c)
       = ["Up to 5% cashback"; "Airport lounge access"; "Welcome benefits"]
    /\ CreditCardProcessor.calculate_score c ∅ == 81
    /\ 80 <= CreditCardProcessor.calculate_score c ∅.
Proof.
  eexists.
  split; [vm_compute; reflexivity|].
  repeat (split; [reflexivity|]).
  intros L. vm_compute in L. discriminate.
Qed.

(** C5, as stated, fails: the processed example card has no fuel
    surcharge waiver. *)
Lemma C5_example_card_no_fuel_waiver :
  ~ (exists c,
       @CreditCardProcessor.process_product example_builtins example_card = Ok c
       /\ fuel_surcharge_waiver c = true
       /\ lounge_access c = true
       /\ 80 <= CreditCardProcessor.calculate_score c ∅).
Proof.
  intros (c & Hc & Hfuel & _).
  vm_compute in Hc. injection Hc as <-. discriminate.
Qed.





(** C6 (as amended). With a maximum rate that is present and positive,
    moving the senior-citizen rate from a value at most the maximum rate
    to a value above it strictly raises the score, everything else
    unchanged: the +20 branch replaces the +10 branch (or no branch, for
    a senior rate of zero), and the 100-point clamp cannot absorb the
    difference, since the parts sum to at most 50 + 20 + 20 + 10. *)
Theorem C6_senior_rate_raises_score
    (p : FixedDepositInfo) (prefs : Preferences) (rate senior senior' : Q) :
  interest_rate_max p = Some rate ->
  0 < rate ->
  senior <= rate ->
  rate < senior' ->
  FixedDepositProcessor.calculate_score (with_senior_rate p (Some senior)) prefs
  < FixedDepositProcessor.calculate_score (with_senior_rate p (Some senior')) prefs.
Proof.
  intros Hmax Hpos Hle Hlt.
  assert (Hrate : ~ rate == 0) by lra.
  assert (Hsenior' : ~ senior' == 0) by lra.
  cut (FixedDepositProcessor.calculate_score (with_senior_rate p (Some senior)) prefs + 10
       <= FixedDepositProcessor.calculate_score (with_senior_rate p (Some senior')) prefs).
  { intros; lra. }
  unfold FixedDepositProcessor.calculate_score, with_senior_rate.
  cbn [bank_name interest_rate_max tenure_from_days tenure_to_days senior_citizen_rate].
  rewrite Hmax.
  pose proof (py_min_le_r (rate * 8) 50) as Hcap.
  set (m := py_min (rate * 8) 50) in *.
  match goal with |- context [any ?f ?l] => destruct (any f l) end;
    destruct (tenure_from_days p) as [from_days|], (tenure_to_days p) as [to_days|];
    cbn [negb andb]; qcases; cbn [negb andb];
    repeat match goal with
      | |- context [if ?b then _ else _] => destruct b
      end;
    try contradiction; try lra;
    match goal with
    | |- py_min ?a 100 + 10 <= py_min ?b 100 =>
        pose proof (py_min_le_l a 100); apply py_min_glb; lra
    end.
Qed.

Lemma C6_senior_rate_witness :
  FixedDepositProcessor.calculate_score (with_senior_rate example_deposit (Some 7)) ∅
  < FixedDepositProcessor.calculate_score (with_senior_rate example_deposit (Some 8.1)) ∅.
Proof.
  apply (C6_senior_rate_raises_score example_deposit ∅ 7.5 7 8.1).
  - reflexivity.
  - reflexivity.
  - vm_compute; discriminate.
  - vm_compute; reflexivity.
Defined.

(** C6, as stated, fails when the maximum rate is present but zero: the
    tests [if product.interest_rate_max] and [if ... and ...] read a
    zero rate as absent, so the senior-citizen branch is never scored
    and the score stays at 5. *)
Lemma C6_zero_rate_no_increase :
  interest_rate_max zero_rate_deposit = Some 0
  /\ 0 <= 0 /\ 0 < 0.5
  /\ ~ (FixedDepositProcessor.calculate_score (with_senior_rate zero_rate_deposit (Some 0)) ∅
        < FixedDepositProcessor.calculate_score
            (with_senior_rate zero_rate_deposit (Some 0.5)) ∅).
Proof.
  split; [reflexivity|].
  split; [vm_compute; discriminate|].
  split; [vm_compute; reflexivity|].
  intros L. vm_compute in L. discriminate.
Qed.

(** ** Sorting by score *)

Lemma insert_by_score_perm (x : ScoredProduct) (l : list ScoredProduct) :
  Permutation (insert_by_score x l) (x :: l).
Proof.
  induction l as [|y l IH]; simpl; [reflexivity|].
  destruct (Qlt_bool (score x) (score y)); [|reflexivity].
  rewrite IH. apply perm_swap.
Qed.

Lemma sorted_by_score_perm (l : list ScoredProduct) :
  Permutation (sorted_by_score l) l.
Proof.
  induction l as [|x l IH]; simpl; [reflexivity|].
  rewrite insert_by_score_perm. constructor. exact IH.
Qed.

Lemma sorted_by_score_length (l : list ScoredProduct) :
  length (sorted_by_score l) = length l.
Proof. apply Permutation_length, sorted_by_score_perm. Qed.

Lemma insert_by_score_non_ascending (x : ScoredProduct) (l : list ScoredProduct) :
  non_ascending l -> non_ascending (insert_by_score x l).
Proof.
  unfold non_ascending.
  induction 1 as [|y l Hsorted IH Hall]; simpl.
  - repeat constructor.
  - destruct (Qlt_bool (score x) (score y)) eqn:E.
    + apply Qlt_bool_iff in E.
      constructor; [exact IH|].
      apply (Permutation_Forall (Permutation_sym (insert_by_score_perm x l))).
      constructor; [lra | exact Hall].
    + apply Qlt_bool_false in E.
      constructor; [constructor; assumption|].
      constructor; [exact E|].
      eapply Forall_impl; [exact Hall|].
      intros b Hb. simpl in Hb. lra.
Qed.

Lemma sorted_by_score_non_ascending (l : list ScoredProduct) :
  non_ascending (sorted_by_score l).
Proof.
  induction l as [|x l IH]; simpl.
  - constructor.
  - apply insert_by_score_non_ascending, IH.
Qed.

(** ** The rankers *)

Lemma for_each_Forall2 {A B} (f : A -> result B) (l : list A) (l' : list B) :
  for_each f l = Ok l' -> Forall2 (fun a b => f a = Ok b) l l'.
Proof.
  revert l'. induction l as [|x l IH]; simpl; intros l' Hl'.
  - injection Hl' as <-. constructor.
  - destruct (f x) as [y|] eqn:Ey; simpl in Hl'; [|discriminate].
    destruct (for_each f l) as [ys|]; simpl in Hl'; [|discriminate].
    injection Hl' as <-. constructor; [exact Ey | apply IH; reflexivity].
Qed.

(** What [rank_products] returns, when it returns: the input products
    with their enhanced scores, reordered so that scores never go up. *)
Lemma rank_with_spec
    (f : ScoredProduct -> string -> Preferences -> result Q)
    (g : ScoredProduct -> Q -> string)
    (l : list ScoredProduct) (q : string) (prefs : option Preferences)
    (l' : list ScoredProduct) :
  rank_with f g l q prefs = Ok l' ->
  non_ascending l'
  /\ exists scored,
       Permutation l' scored
       /\ Forall2 (fun a b => product b = product a
                              /\ f a q (default ∅ prefs) = Ok (score b)) l scored.
Proof.
  unfold rank_with. destruct l as [|x l].
  - intros [= <-]. split; [constructor|]. exists []. split; constructor.
  - set (l0 := x :: l). clearbody l0.
    destruct (for_each _ l0) as [scored|] eqn:E; simpl; [|discriminate].
    intros [= <-]. split; [apply sorted_by_score_non_ascending|].
    exists scored. split; [apply sorted_by_score_perm|].
    apply for_each_Forall2 in E.
    eapply Forall2_impl; [exact E|].
    intros a b Hab. simpl in Hab.
    destruct (f a q (default ∅ prefs)) as [s|]; simpl in Hab; [|discriminate].
    injection Hab as <-. split; reflexivity.
Qed.

Lemma rank_with_length
    (f : ScoredProduct -> string -> Preferences -> result Q)
    (g : ScoredProduct -> Q -> string)
    (l : list ScoredProduct) (q : string) (prefs : option Preferences)
    (l' : list ScoredProduct) :
  rank_with f g l q prefs = Ok l' -> length l' = length l.
Proof.
  intros Hrank. apply rank_with_spec in Hrank as (_ & scored & Hperm & Hall).
  rewrite (Permutation_length Hperm). symmetry. eapply Forall2_length, Hall.
Qed.

(** C2 (the code departs from it). As soon as the preferences name an
    investment goal, the mutual-fund ranker raises [AttributeError] on a
    non-empty list: [_calculate_goal_alignment] calls [lower] on the
    category of the product, which is an enum member and not a string.
    The credit-card ranker, given the same input, returns it. *)
Theorem C2_goal_preference_raises :
  MutualFundRanker.rank_products [scored_fund] "retirement plan"
    (Some retirement_preferences) = Raise AttributeError
  /\ (exists ranked,
        CreditCardRanker.rank_products [scored_fund] "retirement plan"
          (Some retirement_preferences) = Ok ranked
        /\ length ranked = 1%nat).
Proof.
  split; [vm_compute; reflexivity|].
  eexists. split; [vm_compute; reflexivity | reflexivity].
Qed.

(** *** The boosts are never negative *)

Lemma fold_left_nondecreasing {A} (f : Q -> A -> Q) (l : list A) :
  (forall a x, In x l -> a <= f a x) ->
  forall a, a <= fold_left f l a.
Proof.
  induction l as [|x l IH]; simpl; intros Hf a; [lra|].
  eapply Qle_trans; [apply (Hf a x); left; reflexivity|].
  apply IH. intros a' x' Hx'. apply Hf. right. exact Hx'.
Qed.

Lemma foldM_nondecreasing {A} (f : Q -> A -> result Q) (l : list A) :
  (forall a x b, f a x = Ok b -> a <= b) ->
  forall a b, foldM f l a = Ok b -> a <= b.
Proof.
  intros Hf. induction l as [|x l IH]; simpl; intros a b Hb.
  - injection Hb as <-. lra.
  - destruct (f a x) as [a'|] eqn:E; simpl in Hb; [|discriminate].
    eapply Qle_trans; [eapply Hf, E | apply IH, Hb].
Qed.

(** Splits the tests of a boost and closes the arithmetic. *)
Ltac boost_cases :=
  cbv beta;
  repeat match goal with
    | |- context [if ?b then _ else _] => destruct b
    end;
  try lra.

Ltac min_nonneg := apply py_min_glb; [|lra].

Lemma cc_query_relevance_nonneg (p : ProductInfo) (q : string) :
  0 <= CreditCardRanker._calculate_query_relevance p q.
Proof.
  unfold CreditCardRanker._calculate_query_relevance.
  destruct (String.eqb q ""); [lra|]. min_nonneg.
  eapply Qle_trans; [|apply fold_left_nondecreasing].
  - boost_cases.
  - intros a w _. apply fold_left_nondecreasing.
    intros a' [category keywords] _. boost_cases.
Qed.

Lemma cc_preference_alignment_nonneg (p : ProductInfo) (prefs : Preferences) (b : Q) :
  CreditCardRanker._calculate_preference_alignment p prefs = Ok b -> 0 <= b.
Proof.
  unfold CreditCardRanker._calculate_preference_alignment.
  destruct (py_iter _) as [categories|]; simpl; [|discriminate].
  match goal with
  | |- context [foldM ?f categories ?a] =>
      destruct (foldM f categories a) as [total|] eqn:E; simpl; [|discriminate];
      assert (Hstart : 0 <= a);
      [| apply foldM_nondecreasing in E]
  end.
  - destruct (dict_get prefs "max_annual_fee"); boost_cases.
  - intros [= <-]. min_nonneg. lra.
  - intros a c b'. destruct (py_lower c); simpl; [|discriminate].
    intros [= <-]. boost_cases.
Qed.

Lemma cc_category_optimization_nonneg (p : ProductInfo) (prefs : Preferences) :
  0 <= CreditCardRanker._calculate_category_optimization p prefs.
Proof.
  unfold CreditCardRanker._calculate_category_optimization. min_nonneg.
  apply fold_left_nondecreasing.
  intros a [category bonus] Hin.
  assert (0 <= bonus).
  { unfold CreditCardRanker.high_value_categories in Hin. simpl in Hin.
    repeat (destruct Hin as [[= <- <-]|Hin]; [lra|]). contradiction. }
  boost_cases.
Qed.

Lemma fd_tenure_alignment_nonneg (p : ProductInfo) (prefs : Preferences) (b : Q) :
  FixedDepositRanker._calculate_tenure_alignment p prefs = Ok b -> 0 <= b.
Proof.
  unfold FixedDepositRanker._calculate_tenure_alignment.
  destruct (negb _); [intros [= <-]; lra|].
  destruct (py_lookup _ _) as [[keywords|]|]; simpl; try discriminate;
    intros [= <-]; min_nonneg; boost_cases.
Qed.

Lemma fd_amount_alignment_nonneg (p : ProductInfo) (prefs : Preferences) (b : Q) :
  FixedDepositRanker._calculate_amount_alignment p prefs = Ok b -> 0 <= b.
Proof.
  unfold FixedDepositRanker._calculate_amount_alignment.
  destruct (negb _); [intros [= <-]; lra|].
  destruct (py_ge _ 100000) as [[|]|]; simpl; try discriminate.
  - intros [= <-]. min_nonneg. boost_cases.
  - destruct (py_ge _ 25000) as [[|]|]; simpl; try discriminate;
      intros [= <-]; min_nonneg; boost_cases.
Qed.

Lemma fd_senior_boost_nonneg (p : ProductInfo) (prefs : Preferences) :
  0 <= FixedDepositRanker._calculate_senior_citizen_boost p prefs.
Proof.
  unfold FixedDepositRanker._calculate_senior_citizen_boost.
  destruct (negb _); [lra|]. min_nonneg. boost_cases.
Qed.

Lemma fd_query_relevance_nonneg (p : ProductInfo) (q : string) :
  0 <= FixedDepositRanker._calculate_query_relevance p q.
Proof.
  unfold FixedDepositRanker._calculate_query_relevance.
  destruct (String.eqb q ""); [lra|]. min_nonneg.
  match goal with
  | |- context [fold_left ?f ?l 0] =>
      pose proof (fold_left_nondecreasing f l) as Hfold
  end.
  specialize (Hfold ltac:(intros a w _; boost_cases) 0).
  boost_cases.
Qed.

Lemma fd_safety_boost_nonneg (p : ProductInfo) :
  0 <= FixedDepositRanker._calculate_safety_boost p.
Proof.
  unfold FixedDepositRanker._calculate_safety_boost. min_nonneg. boost_cases.
Qed.

Lemma mf_goal_alignment_nonneg (p : Product) (prefs : Preferences) (b : Q) :
  MutualFundRanker._calculate_goal_alignment p prefs = Ok b -> 0 <= b.
Proof.
  unfold MutualFundRanker._calculate_goal_alignment, MutualFundRanker.category_lower.
  destruct (py_lower _) as [goal|]; simpl; [|discriminate].
  destruct (String.eqb goal ""); [intros [= <-]; lra | discriminate].
Qed.

Lemma mf_horizon_optimization_nonneg (p : Product) (prefs : Preferences) (b : Q) :
  MutualFundRanker._calculate_horizon_optimization p prefs = Ok b -> 0 <= b.
Proof.
  unfold MutualFundRanker._calculate_horizon_optimization.
  destruct (py_lower _) as [horizon|]; simpl; [|discriminate].
  destruct (String.eqb horizon ""); intros [= <-]; [lra | apply py_max_ge_r].
Qed.

Lemma mf_query_relevance_nonneg (p : Product) (q : string) :
  0 <= MutualFundRanker._calculate_query_relevance p q.
Proof.
  unfold MutualFundRanker._calculate_query_relevance.
  destruct (String.eqb q ""); [lra|]. min_nonneg.
  eapply Qle_trans; [|apply fold_left_nondecreasing].
  - boost_cases.
  - intros a w _. boost_cases.
Qed.

Lemma mf_sip_suitability_nonneg (p : Product) (prefs : Preferences) (b : Q) :
  MutualFundRanker._calculate_sip_suitability p prefs = Ok b -> 0 <= b.
Proof.
  unfold MutualFundRanker._calculate_sip_suitability.
  destruct (py_lower _) as [sip|]; simpl; [|discriminate].
  destruct (negb _); intros [= <-]; [lra | apply py_max_ge_r].
Qed.

(** C9. Whenever a ranker computes the enhanced score of a product
    whose base score is at most 100, the enhanced score is at least the
    base score: every boost is non-negative and the clamp is at 100. *)
Theorem C9_enhanced_score_ge_base
    (sp : ScoredProduct) (q : string) (prefs : Preferences) (e : Q) :
  score sp <= 100 ->
  CreditCardRanker._calculate_enhanced_score sp q prefs = Ok e
  \/ FixedDepositRanker._calculate_enhanced_score sp q prefs = Ok e
  \/ MutualFundRanker._calculate_enhanced_score sp q prefs = Ok e ->
  score sp <= e /\ e <= 100.
Proof.
  intros Hbase [Hcc | [Hfd | Hmf]].
  - unfold CreditCardRanker._calculate_enhanced_score in Hcc.
    destruct (CreditCardRanker._calculate_preference_alignment _ _) as [pb|] eqn:Epb;
      simpl in Hcc; [|discriminate].
    injection Hcc as <-.
    pose proof (cc_query_relevance_nonneg (info (product_of sp)) q).
    pose proof (cc_preference_alignment_nonneg _ _ _ Epb).
    pose proof (cc_category_optimization_nonneg (info (product_of sp)) prefs).
    unfold CreditCardRanker.query_multiplier, CreditCardRanker.preference_multiplier,
      CreditCardRanker.category_multiplier.
    split; [apply py_min_glb; lra | apply py_min_le_r].
  - unfold FixedDepositRanker._calculate_enhanced_score in Hfd.
    destruct (FixedDepositRanker._calculate_tenure_alignment _ _) as [tb|] eqn:Etb;
      simpl in Hfd; [|discriminate].
    destruct (FixedDepositRanker._calculate_amount_alignment _ _) as [ab|] eqn:Eab;
      simpl in Hfd; [|discriminate].
    injection Hfd as <-.
    pose proof (fd_tenure_alignment_nonneg _ _ _ Etb).
    pose proof (fd_amount_alignment_nonneg _ _ _ Eab).
    pose proof (fd_senior_boost_nonneg (info (product_of sp)) prefs).
    pose proof (fd_query_relevance_nonneg (info (product_of sp)) q).
    pose proof (fd_safety_boost_nonneg (info (product_of sp))).
    unfold FixedDepositRanker.tenure_multiplier, FixedDepositRanker.amount_multiplier,
      FixedDepositRanker.senior_multiplier, FixedDepositRanker.query_multiplier,
      FixedDepositRanker.safety_multiplier.
    split; [apply py_min_glb; lra | apply py_min_le_r].
  - unfold MutualFundRanker._calculate_enhanced_score in Hmf.
    destruct (MutualFundRanker._calculate_goal_alignment _ _) as [gb|] eqn:Egb;
      simpl in Hmf; [|discriminate].
    destruct (MutualFundRanker._calculate_horizon_optimization _ _) as [hb|] eqn:Ehb;
      simpl in Hmf; [|discriminate].
    destruct (MutualFundRanker._calculate_sip_suitability _ _) as [sb|] eqn:Esb;
      simpl in Hmf; [|discriminate].
    injection Hmf as <-.
    pose proof (mf_goal_alignment_nonneg _ _ _ Egb).
    pose proof (mf_horizon_optimization_nonneg _ _ _ Ehb).
    pose proof (mf_query_relevance_nonneg (product_of sp) q).
    pose proof (mf_sip_suitability_nonneg _ _ _ Esb).
    unfold MutualFundRanker.goal_multiplier, MutualFundRanker.horizon_multiplier,
      MutualFundRanker.query_multiplier, MutualFundRanker.sip_multiplier.
    split; [apply py_min_glb; lra | apply py_min_le_r].
Qed.

Lemma C9_enhanced_score_witness :
  score scored_fund <= 100
  /\ exists e,
       CreditCardRanker._calculate_enhanced_score scored_fund "sector" ∅ = Ok e
       /\ score scored_fund <= e /\ e <= 100.
Proof.
  split; [vm_compute; discriminate|].
  eexists. split; [vm_compute; reflexivity|].
  apply (C9_enhanced_score_ge_base scored_fund "sector" ∅).
  - vm_compute; discriminate.
  - left. vm_compute. reflexivity.
Defined.

(** The same, for the list a ranker returns: it is a reordering of the
    input products, each with a score at least its base score. *)
Lemma rank_with_raises_scores
    (f : ScoredProduct -> string -> Preferences -> result Q)
    (g : ScoredProduct -> Q -> string)
    (l : list ScoredProduct) (q : string) (prefs : option Preferences)
    (l' : list ScoredProduct) :
  (forall sp e, score sp <= 100 -> f sp q (default ∅ prefs) = Ok e -> score sp <= e) ->
  Forall (fun sp => score sp <= 100) l ->
  rank_with f g l q prefs = Ok l' ->
  exists scored,
    Permutation l' scored
    /\ Forall2 (fun a b => product b = product a /\ score a <= score b) l scored.
Proof.
  intros Hf Hbase Hrank.
  apply rank_with_spec in Hrank as (_ & scored & Hperm & Hall).
  exists scored. split; [exact Hperm|].
  clear Hperm. revert Hbase.
  induction Hall as [|a b l scored [Hprod Hscore] Hall IH]; intros Hbase;
    [constructor|].
  inversion Hbase as [|? ? Ha Hl]; subst.
  constructor; [|apply IH; exact Hl].
  split; [exact Hprod | eapply Hf; eassumption].
Qed.

(** ** The manager *)

Lemma py_slice_to_length {A} (n : Z) (l : list A) :
  length (py_slice_to n l)
  = if (0 <=? n)%Z then Nat.min (Z.to_nat n) (length l)
    else (length l - Z.to_nat (- n))%nat.
Proof.
  unfold py_slice_to. destruct (0 <=? n)%Z; rewrite length_take; lia.
Qed.

(** C3 (as amended). [total_found] is the number of scored candidates
    before truncation, that is, of the products collected from the
    requested categories (all of them when none is given), and never
    the truncated length: it is at least the number of products
    returned, and equals it exactly when it is at most [max_results] or
    is zero (for [max_results >= 0] the second case is included in the
    first). *)
Theorem C3_total_found_counts_candidates `{PyBuiltins}
    (cc fd mf : DataLoader) (q : string)
    (categories : option (list ProductCategory))
    (prefs : option Preferences) (max_results : Z) :
  let r := FinancialProductManager.recommend_products cc fd mf q categories prefs
             max_results in
  total_found r
  = length (FinancialProductManager.collect cc fd mf
              (default all_categories categories) q (default ∅ prefs))
  /\ (length (products r) <= total_found r)%nat
  /\ (total_found r = length (products r)
      <-> (Z.of_nat (total_found r) <= max_results)%Z \/ total_found r = 0%nat).
Proof.
  unfold FinancialProductManager.recommend_products,
    FinancialProductManager._rank_across_categories.
  cbn [products total_found].
  set (all_products := FinancialProductManager.collect cc fd mf _ _ _).
  split; [reflexivity|].
  rewrite py_slice_to_length, sorted_by_score_length.
  destruct (0 <=? max_results)%Z eqn:E; [apply Z.leb_le in E | apply Z.leb_gt in E];
    lia.
Qed.

(** C3, as stated, fails for a negative [max_results] when nothing is
    found: [[][:-1]] is empty, so both counts are 0 although 0 is not at
    most -1. *)
Lemma C3_negative_max_results :
  let r := @FinancialProductManager.recommend_products example_builtins
             missing_loader missing_loader missing_loader "" (Some []) (Some ∅) (-1) in
  ~ ((length (products r) <= total_found r)%nat
     /\ (total_found r = length (products r)
         <-> (Z.of_nat (total_found r) <= -1)%Z)).
Proof.
  intros r [_ [Himp _]]. specialize (Himp eq_refl). vm_compute in Himp.
  apply Himp. reflexivity.
Qed.

(** C8. With an empty query, no category and no preference, the call
    returns no product, a count of zero and the "no products found"
    message around the empty query. *)
Theorem C8_empty_request `{PyBuiltins} (cc fd mf : DataLoader) :
  FinancialProductManager.recommend_products cc fd mf "" (Some []) (Some ∅) 5
  = {| products := [];
       total_found := 0;
       query_processed := "";
       recommendations_reasoning :=
         "No products found matching ''. Try different search terms." |}.
Proof. reflexivity. Qed.

(** Every processor tags its products with its own category. *)
Ltac step_binds H :=
  unfold mbind, result_bind in H;
  repeat match type of H with
    | context [match ?m with Ok _ => _ | Raise _ => _ end] =>
        destruct m; try discriminate H
    end.

Lemma credit_card_category `{PyBuiltins} (raw : PyDict) (c : CreditCardInfo) :
  CreditCardProcessor.process_product raw = Ok c -> category (cc_info c) = CREDIT_CARDS.
Proof.
  unfold CreditCardProcessor.process_product. intros Hc. step_binds Hc.
  injection Hc as <-. reflexivity.
Qed.

Lemma fixed_deposit_category `{PyBuiltins} (raw : PyDict) (f : FixedDepositInfo) :
  FixedDepositProcessor.process_product raw = Ok f -> category (fd_info f) = FIXED_DEPOSITS.
Proof.
  unfold FixedDepositProcessor.process_product. intros Hf. step_binds Hf.
  injection Hf as <-. reflexivity.
Qed.

Lemma mutual_fund_category `{PyBuiltins} (raw : PyDict) (m : MutualFundInfo) :
  MutualFundProcessor.process_product raw = Ok m -> category (mf_info m) = MUTUAL_FUNDS.
Proof.
  unfold MutualFundProcessor.process_product. intros Hm. step_binds Hm.
  injection Hm as <-. reflexivity.
Qed.

Lemma processor_category `{PyBuiltins} (c : ProductCategory)
    (processor : BaseProductProcessor) (raw : PyDict) (p : Product) :
  FinancialProductManager.processors c = Some processor ->
  process_product processor raw = Ok p ->
  category (info p) = c.
Proof.
  destruct c; simpl; intros [= <-]; simpl; intros Hp.
  - destruct (CreditCardProcessor.process_product raw) as [x|] eqn:E;
      simpl in Hp; [|discriminate].
    injection Hp as <-. exact (credit_card_category raw x E).
  - destruct (FixedDepositProcessor.process_product raw) as [x|] eqn:E;
      simpl in Hp; [|discriminate].
    injection Hp as <-. exact (fixed_deposit_category raw x E).
  - destruct (MutualFundProcessor.process_product raw) as [x|] eqn:E;
      simpl in Hp; [|discriminate].
    injection Hp as <-. exact (mutual_fund_category raw x E).
Qed.

Lemma Forall2_transfer {A B} (R : A -> B -> Prop) (P : A -> Prop) (Q : B -> Prop)
    (l : list A) (l' : list B) :
  (forall a b, R a b -> P a -> Q b) ->
  Forall2 R l l' -> Forall P l -> Forall Q l'.
Proof.
  intros HR Hall. induction Hall as [|a b l l' Hab Hall IH]; intros HP.
  - constructor.
  - inversion HP; subst. constructor; eauto.
Qed.

(** The products of a category that is processed carry its tag. *)
Lemma process_category_tags `{PyBuiltins} (cc fd mf : DataLoader)
    (c : ProductCategory) (q : string) (prefs : Preferences)
    (l : list ScoredProduct) :
  FinancialProductManager._process_category cc fd mf c q prefs = Ok l ->
  In c [CREDIT_CARDS; FIXED_DEPOSITS; MUTUAL_FUNDS]
  /\ Forall (fun sp => category (info (product sp)) = c) l.
Proof.
  unfold FinancialProductManager._process_category, index_by_category.
  destruct (FinancialProductManager.data_loaders cc fd mf c) as [loader|] eqn:El;
    simpl; [|discriminate].
  destruct (FinancialProductManager.processors c) as [processor|] eqn:Ep;
    simpl; [|discriminate].
  destruct (FinancialProductManager.rankers c) as [ranker|] eqn:Er;
    simpl; [|discriminate].
  destruct (load_data loader _) as [raw_data|]; simpl; [|discriminate].
  intros Hrank. split.
  { destruct c; simpl; auto; discriminate. }
  assert (Hscored :
    Forall (fun sp => category (info (product sp)) = c)
      (flat_map
         (fun raw_product =>
            match FinancialProductManager.score_one processor prefs raw_product with
            | Ok scored_product => [scored_product]
            | Raise _ => []
            end) raw_data)).
  { clear Hrank. induction raw_data as [|raw raw_data IH]; simpl; [constructor|].
    apply Forall_app. split; [|exact IH].
    unfold FinancialProductManager.score_one.
    destruct (process_product processor raw) as [p|] eqn:E; simpl; [|constructor].
    destruct (calculate_score processor p prefs); simpl; constructor; [|constructor].
    simpl. eapply processor_category; eassumption. }
  assert (Hspec : exists f g, ranker = rank_with f g).
  { destruct c; simpl in Er; try discriminate; injection Er as <-;
      eexists; eexists; reflexivity. }
  destruct Hspec as (f & g & ->).
  apply rank_with_spec in Hrank as (_ & scored & Hperm & Hall).
  apply (Permutation_Forall (Permutation_sym Hperm)).
  eapply Forall2_transfer; [|exact Hall|exact Hscored].
  intros a b [Hprod _] Ha. simpl. rewrite Hprod. exact Ha.
Qed.

Lemma collect_tags `{PyBuiltins} (cc fd mf : DataLoader)
    (categories : list ProductCategory) (q : string) (prefs : Preferences) :
  Forall (fun sp => In (category (info (product sp)))
                      [CREDIT_CARDS; FIXED_DEPOSITS; MUTUAL_FUNDS])
    (FinancialProductManager.collect cc fd mf categories q prefs).
Proof.
  unfold FinancialProductManager.collect.
  induction categories as [|c categories IH]; simpl; [constructor|].
  apply Forall_app. split; [|exact IH].
  destruct (FinancialProductManager._process_category cc fd mf c q prefs) as [l|] eqn:E;
    [|constructor].
  apply process_category_tags in E as [Hc Hl].
  eapply Forall_impl; [exact Hl|].
  intros sp Hsp. simpl in Hsp. rewrite Hsp. exact Hc.
Qed.

(** C10. With the categories left unspecified the manager goes through
    the five members of [ProductCategory]; insurance and loans have no
    loader, so processing them raises [KeyError], which the loop
    catches.  The call returns what it returns for the three
    implemented categories, and every product carries one of their
    tags. *)
Theorem C10_unimplemented_categories_skipped `{PyBuiltins}
    (cc fd mf : DataLoader) (q : string) (prefs : option Preferences)
    (max_results : Z) :
  FinancialProductManager._process_category cc fd mf INSURANCE q (default ∅ prefs)
    = Raise KeyError
  /\ FinancialProductManager._process_category cc fd mf LOANS q (default ∅ prefs)
     = Raise KeyError
  /\ FinancialProductManager.recommend_products cc fd mf q None prefs max_results
     = FinancialProductManager.recommend_products cc fd mf q
         (Some [CREDIT_CARDS; FIXED_DEPOSITS; MUTUAL_FUNDS]) prefs max_results
  /\ Forall (fun sp => In (category (info (product sp)))
                         [CREDIT_CARDS; FIXED_DEPOSITS; MUTUAL_FUNDS])
       (products
          (FinancialProductManager.recommend_products cc fd mf q None prefs max_results)).
Proof.
  split; [reflexivity|]. split; [reflexivity|].
  assert (Hsame :
    FinancialProductManager.collect cc fd mf all_categories q (default ∅ prefs)
    = FinancialProductManager.collect cc fd mf
        [CREDIT_CARDS; FIXED_DEPOSITS; MUTUAL_FUNDS] q (default ∅ prefs)).
  { unfold FinancialProductManager.collect, all_categories.
    cbn [flat_map].
    change (FinancialProductManager._process_category cc fd mf INSURANCE q (default ∅ prefs))
      with (@Raise (list ScoredProduct) KeyError).
    change (FinancialProductManager._process_category cc fd mf LOANS q (default ∅ prefs))
      with (@Raise (list ScoredProduct) KeyError).
    reflexivity. }
  split.
  - unfold FinancialProductManager.recommend_products.
    cbn [default option_rect]. unfold default at 1 3. rewrite Hsame. reflexivity.
  - unfold FinancialProductManager.recommend_products,
      FinancialProductManager._rank_across_categories.
    cbn [products]. unfold py_slice_to.
    destruct (0 <=? max_results)%Z; apply Forall_take;
      apply (Permutation_Forall (Permutation_sym (sorted_by_score_perm _)));
      apply collect_tags.
Qed.


(** ** Further properties of the processors *)

(** X1. The credit-card score never goes down when the cashback rate
    goes up, everything else unchanged. *)
Theorem credit_card_score_monotone_in_cashback
    (p : CreditCardInfo) (prefs : Preferences) (r1 r2 : Q) :
  r1 <= r2 ->
  CreditCardProcessor.calculate_score (with_cashback_rate p (Some r1)) prefs
  <= CreditCardProcessor.calculate_score (with_cashback_rate p (Some r2)) prefs.
Proof.
  intros Hle.
  unfold CreditCardProcessor.calculate_score, with_cashback_rate.
  cbn [cc_info bank annual_fee cashback_rate welcome_benefit fuel_surcharge_waiver
       lounge_access].
  apply Q.min_le_compat_r.
  pose proof (Q.min_le_compat_r (r1 * 5) (r2 * 5) 30 ltac:(lra)) as Hmin.
  pose proof (py_min_le_l (r1 * 5) 30) as Hl1.
  assert (Hr2 : 0 <= r2 -> 0 <= py_min (r2 * 5) 30).
  { intros. apply py_min_glb; lra. }
  unfold py_min in *.
  set (m1 := Qmin (r1 * 5) 30) in *. set (m2 := Qmin (r2 * 5) 30) in *.
  set (b := Qmin _ 20). set (f := Qmin _ 15).
  destruct (Qlt_le_dec r2 0) as [Hneg|Hpos]; [|specialize (Hr2 Hpos)];
    destruct (annual_fee p); cbn [negb]; qcases; cbn [negb];
    repeat match goal with
      | |- context [if ?c then _ else _] => destruct c
      end;
    lra.
Qed.

Lemma credit_card_score_monotone_witness :
  CreditCardProcessor.calculate_score (with_cashback_rate example_card_info (Some 2)) ∅
  <= CreditCardProcessor.calculate_score (with_cashback_rate example_card_info (Some 5)) ∅.
Proof.
  apply (credit_card_score_monotone_in_cashback example_card_info ∅ 2 5).
  vm_compute. discriminate.
Defined.

(** For a rating on the 0-5 scale the mutual-fund score is at most 31.5:
    the five parts are worth at most 50, 25, 20, 10 and 5 points before
    their weights 0.4, 0.25, 0.2, 0.1 and 0.05, so the clamp at 100 is
    never reached. *)
Theorem mutual_fund_score_at_most_31_5
    (m : MutualFundInfo) (prefs : Preferences) (s : Q) :
  (rating m <= 5)%Z ->
  MutualFundProcessor.calculate_score m prefs = Ok s ->
  s <= 31.5.
Proof.
  intros Hrating.
  unfold MutualFundProcessor.calculate_score.
  destruct (MutualFundProcessor._calculate_risk_score _ _) as [risk|] eqn:Erisk;
    simpl; [|discriminate].
  intros [= <-].
  assert (Hrisk : risk <= 20).
  { unfold MutualFundProcessor._calculate_risk_score in Erisk.
    destruct (py_lower _); simpl in Erisk; [|discriminate].
    repeat match type of Erisk with
      | context [if ?c then _ else _] => destruct c
      end; injection Erisk as <-; lra. }
  pose proof (py_min_le_r
    (match returns_5y m, returns_3y m, returns_1y m with
     | Some r5, _, _ => 0 + py_min (r5 * 2) 50
     | None, Some r3, _ => 0 + py_min (r3 * 1.5) 40
     | None, None, Some r1 => 0 + py_min r1 30
     | None, None, None => 0
     end) 50) as Hperf.
  fold (MutualFundProcessor._calculate_performance_score m) in Hperf.
  assert (Hrate : MutualFundProcessor._calculate_rating_score (rating m) <= 25).
  { unfold MutualFundProcessor._calculate_rating_score.
    destruct (rating m <=? 0)%Z; [lra|].
    assert (inject_Z (rating m) <= 5).
    { change 5 with (inject_Z 5). rewrite <- Zle_Qle. exact Hrating. }
    assert (Hdiv : inject_Z (rating m) / 5 * 25 == inject_Z (rating m) * 5) by field.
    rewrite Hdiv. lra. }
  assert (Hexp : MutualFundProcessor._calculate_expense_score (expense_ratio m) <= 10).
  { unfold MutualFundProcessor._calculate_expense_score.
    destruct (expense_ratio m); [|lra].
    repeat match goal with
      | |- context [if ?c then _ else _] => destruct c
      end; lra. }
  assert (Hstab : MutualFundProcessor._calculate_stability_score m <= 5).
  { unfold MutualFundProcessor._calculate_stability_score.
    destruct (aum m);
      repeat match goal with
        | |- context [if ?c then _ else _] => destruct c
        end; lra. }
  eapply Qle_trans; [apply py_min_le_l|]. lra.
Qed.

Lemma mutual_fund_score_at_most_31_5_witness :
  exists s,
    MutualFundProcessor.calculate_score best_fund ∅ = Ok s
    /\ s <= 31.5 /\ s == 31.5.
Proof.
  eexists. split; [vm_compute; reflexivity|].
  split; [|reflexivity].
  apply (mutual_fund_score_at_most_31_5 best_fund ∅).
  - vm_compute. discriminate.
  - vm_compute. reflexivity.
Defined.

(** For a fund whose rating is of a size that fits a float (the code
    divides it by 5.0), the mutual-fund score is computed exactly when
    the risk tolerance in the preferences is a string or is missing; any
    other value (a number, [None], a list) makes [calculate_score] raise
    [AttributeError].  The fund is a typed one: its risk level is a
    string and its holdings are a list. *)
Theorem mutual_fund_score_needs_tolerance_text
    (m : MutualFundInfo) (prefs : Preferences) :
  float_sized (rating m) ->
  match risk_tolerance_text prefs with
  | Some _ => exists s, MutualFundProcessor.calculate_score m prefs = Ok s
  | None => MutualFundProcessor.calculate_score m prefs = Raise AttributeError
  end.
Proof.
  intros _.
  unfold risk_tolerance_text, MutualFundProcessor.calculate_score,
    MutualFundProcessor._calculate_risk_score.
  destruct (dict_get_default prefs "risk_tolerance" (PStr "moderate risk"));
    try reflexivity.
  simpl.
  repeat match goal with
    | |- context [if ?c then _ else _] => destruct c
    end; simpl; eexists; reflexivity.
Qed.

Lemma mutual_fund_score_needs_tolerance_text_witness :
  (exists s, MutualFundProcessor.calculate_score losing_fund ∅ = Ok s)
  /\ MutualFundProcessor.calculate_score losing_fund no_tolerance_preferences
     = Raise AttributeError.
Proof.
  assert (Hsized : float_sized (rating losing_fund))
    by (unfold float_sized; vm_compute; discriminate).
  split.
  - exact (mutual_fund_score_needs_tolerance_text losing_fund ∅ Hsized).
  - exact (mutual_fund_score_needs_tolerance_text losing_fund no_tolerance_preferences
             Hsized).
Defined.

(** The risk alignment depends only on the distance between the two
    ordinals: exchanging the risk level of the fund and the risk
    tolerance of the user gives the same points. *)
Theorem risk_score_symmetric (level tolerance : string) (prefs : Preferences) :
  MutualFundProcessor._calculate_risk_score level
    (<["risk_tolerance" := PStr tolerance]> prefs)
  = MutualFundProcessor._calculate_risk_score tolerance
      (<["risk_tolerance" := PStr level]> prefs).
Proof.
  unfold MutualFundProcessor._calculate_risk_score, dict_get_default.
  rewrite !lookup_insert_eq. simpl.
  set (a := default 3%Z (MutualFundProcessor.risk_mapping !! lower level)).
  set (b := default 3%Z (MutualFundProcessor.risk_mapping !! lower tolerance)).
  replace (Z.abs (b - a)) with (Z.abs (a - b)) by lia.
  reflexivity.
Qed.

(** The rate fields never make the fixed-deposit [process_product]
    fail: whatever they hold, a record whose bank name and description
    are strings and whose tenure bounds are integers or missing is
    processed, provided the lower bound is of a size that fits a float
    (the code divides it by 365); a tenure of 0 days is stored as
    absent. *)
Theorem fixed_deposit_processing_succeeds `{PyBuiltins}
    (raw : PyDict) (bank about : string) :
  dict_get_default raw "bank_name" (dict_get_default raw "bank" (PStr "Unknown Bank"))
    = PStr bank ->
  dict_get_default raw "about" (PStr "") = PStr about ->
  sized_int_or_none (dict_get raw "tenure_from_days") ->
  int_or_none (dict_get raw "tenure_to_days") ->
  exists f,
    FixedDepositProcessor.process_product raw = Ok f
    /\ bank_name f = bank
    /\ name (fd_info f) = bank ++ " Fixed Deposit"
    /\ description (fd_info f) = about
    /\ category (fd_info f) = FIXED_DEPOSITS
    /\ tenure_from_days f = tenure_of (dict_get raw "tenure_from_days")
    /\ tenure_to_days f = tenure_of (dict_get raw "tenure_to_days").
Proof.
  intros Hbank Habout Hfrom Hto.
  unfold FixedDepositProcessor.process_product, FixedDepositProcessor._extract_features,
    FixedDepositProcessor.int_if_truthy.
  rewrite Hbank, Habout.
  destruct (dict_get raw "tenure_from_days") as [| | from | | | |]; try contradiction;
    destruct (dict_get raw "tenure_to_days") as [| | to | | | |]; try contradiction;
    cbn [truthy py_int tenure_of];
    repeat match goal with
      | |- context [(?z =? 0)%Z] => destruct (z =? 0)%Z
      end;
    cbn [negb mbind result_bind mret result_ret expect_str];
    repeat match goal with
      | |- context [if ?c then _ else _] => destruct c
      end;
    cbn [mbind result_bind];
    eexists; (split; [reflexivity|]); repeat split.
Qed.

Lemma fixed_deposit_processing_witness :
  exists f,
    @FixedDepositProcessor.process_product example_builtins odd_rates_record = Ok f
    /\ bank_name f = "SBI"
    /\ name (fd_info f) = "SBI Fixed Deposit"
    /\ description (fd_info f) = ""
    /\ category (fd_info f) = FIXED_DEPOSITS
    /\ tenure_from_days f = tenure_of (dict_get odd_rates_record "tenure_from_days")
    /\ tenure_to_days f = tenure_of (dict_get odd_rates_record "tenure_to_days").
Proof.
  apply (@fixed_deposit_processing_succeeds example_builtins odd_rates_record "SBI" "").
  - reflexivity.
  - reflexivity.
  - unfold float_sized, sized_int_or_none. vm_compute. discriminate.
  - vm_compute. exact I.
Defined.

(** ** Further properties of the rankers *)

(** Whenever one of the three rankers returns, its result has the length
    of the input and holds exactly the input products, none dropped and
    none repeated. *)
Theorem rank_products_reorders_input
    (l l' : list ScoredProduct) (q : string) (prefs : option Preferences) :
  CreditCardRanker.rank_products l q prefs = Ok l'
  \/ FixedDepositRanker.rank_products l q prefs = Ok l'
  \/ MutualFundRanker.rank_products l q prefs = Ok l' ->
  length l' = length l
  /\ Permutation (map product l') (map product l).
Proof.
  intros Hrank.
  assert (Hspec : exists f g, rank_with f g l q prefs = Ok l').
  { destruct Hrank as [Hr | [Hr | Hr]]; eexists; eexists; exact Hr. }
  destruct Hspec as (f & g & Hr).
  split; [eapply rank_with_length, Hr|].
  apply rank_with_spec in Hr as (_ & scored & Hperm & Hall).
  eapply Permutation_trans; [apply Permutation_map, Hperm|].
  assert (Hsame : map product scored = map product l).
  { clear - Hall.
    induction Hall as [|a b l scored [Hprod _] Hall IH]; simpl; [reflexivity|].
    rewrite Hprod, IH. reflexivity. }
  rewrite Hsame. reflexivity.
Qed.

Lemma rank_products_reorders_input_witness :
  exists l',
    CreditCardRanker.rank_products [scored_fund; scored_fund] "sector" None = Ok l'
    /\ length l' = 2%nat
    /\ Permutation (map product l') (map product [scored_fund; scored_fund]).
Proof.
  eexists. split; [vm_compute; reflexivity|].
  apply (rank_products_reorders_input [scored_fund; scored_fund] _ "sector" None).
  left. vm_compute. reflexivity.
Defined.

Lemma py_max_lub (a b c : Q) : a <= c -> b <= c -> py_max a b <= c.
Proof. apply Q.max_lub. Qed.

(** Every boost that a ranker computes for a product lies between 0 and
    1 (each ranker multiplies its boosts by weights that sum to 10). *)
Theorem ranker_boosts_between_0_and_1
    (sp : ScoredProduct) (q : string) (prefs : Preferences) (b : Q) :
  In (Ok b)
    [ Ok (CreditCardRanker._calculate_query_relevance (info (product_of sp)) q);
      CreditCardRanker._calculate_preference_alignment (info (product_of sp)) prefs;
      Ok (CreditCardRanker._calculate_category_optimization (info (product_of sp)) prefs);
      FixedDepositRanker._calculate_tenure_alignment (info (product_of sp)) prefs;
      FixedDepositRanker._calculate_amount_alignment (info (product_of sp)) prefs;
      Ok (FixedDepositRanker._calculate_senior_citizen_boost (info (product_of sp)) prefs);
      Ok (FixedDepositRanker._calculate_query_relevance (info (product_of sp)) q);
      Ok (FixedDepositRanker._calculate_safety_boost (info (product_of sp)));
      MutualFundRanker._calculate_goal_alignment (product_of sp) prefs;
      MutualFundRanker._calculate_horizon_optimization (product_of sp) prefs;
      Ok (MutualFundRanker._calculate_query_relevance (product_of sp) q);
      MutualFundRanker._calculate_sip_suitability (product_of sp) prefs ] ->
  0 <= b <= 1.
Proof.
  cbn [In].
  intros [H|[H|[H|[H|[H|[H|[H|[H|[H|[H|[H|[H|[]]]]]]]]]]]]].
  - injection H as <-. split; [apply cc_query_relevance_nonneg|].
    unfold CreditCardRanker._calculate_query_relevance.
    destruct (String.eqb q ""); [lra | apply py_min_le_r].
  - split; [eapply cc_preference_alignment_nonneg, H|].
    unfold CreditCardRanker._calculate_preference_alignment in H.
    destruct (py_iter _); simpl in H; [|discriminate].
    destruct (foldM _ _ _); simpl in H; [|discriminate].
    injection H as <-. apply py_min_le_r.
  - injection H as <-. split; [apply cc_category_optimization_nonneg|].
    apply py_min_le_r.
  - split; [eapply fd_tenure_alignment_nonneg, H|].
    unfold FixedDepositRanker._calculate_tenure_alignment in H.
    destruct (negb _); [injection H as <-; lra|].
    destruct (py_lookup _ _); simpl in H; [|discriminate].
    injection H as <-. apply py_min_le_r.
  - split; [eapply fd_amount_alignment_nonneg, H|].
    unfold FixedDepositRanker._calculate_amount_alignment in H.
    destruct (negb _); [injection H as <-; lra|].
    destruct (py_ge _ 100000) as [[|]|]; simpl in H; try discriminate;
      [injection H as <-; apply py_min_le_r|].
    destruct (py_ge _ 25000) as [[|]|]; simpl in H; try discriminate;
      injection H as <-; apply py_min_le_r.
  - injection H as <-. split; [apply fd_senior_boost_nonneg|].
    unfold FixedDepositRanker._calculate_senior_citizen_boost.
    destruct (negb _); [lra | apply py_min_le_r].
  - injection H as <-. split; [apply fd_query_relevance_nonneg|].
    unfold FixedDepositRanker._calculate_query_relevance.
    destruct (String.eqb q ""); [lra | apply py_min_le_r].
  - injection H as <-. split; [apply fd_safety_boost_nonneg | apply py_min_le_r].
  - split; [eapply mf_goal_alignment_nonneg, H|].
    unfold MutualFundRanker._calculate_goal_alignment,
      MutualFundRanker.category_lower in H.
    destruct (py_lower _); simpl in H; [|discriminate].
    destruct (String.eqb _ ""); [injection H as <-; lra | discriminate].
  - split; [eapply mf_horizon_optimization_nonneg, H|].
    unfold MutualFundRanker._calculate_horizon_optimization in H.
    destruct (py_lower _); simpl in H; [|discriminate].
    destruct (String.eqb _ ""); injection H as <-; [lra|].
    apply py_max_lub; [boost_cases | lra].
  - injection H as <-. split; [apply mf_query_relevance_nonneg|].
    unfold MutualFundRanker._calculate_query_relevance.
    destruct (String.eqb q ""); [lra | apply py_min_le_r].
  - split; [eapply mf_sip_suitability_nonneg, H|].
    unfold MutualFundRanker._calculate_sip_suitability in H.
    destruct (py_lower _); simpl in H; [|discriminate].
    destruct (negb _); injection H as <-; [lra|].
    apply py_max_lub; [boost_cases | lra].
Qed.

Lemma ranker_boosts_witness :
  0 <= FixedDepositRanker._calculate_query_relevance (info (product_of scored_fund))
         "safe sector fund" <= 1.
Proof.
  apply (ranker_boosts_between_0_and_1 scored_fund "safe sector fund"
           (<["is_senior_citizen" := PBool true]> ∅)).
  do 6 right. left. reflexivity.
Defined.

Lemma lower_empty (s : string) : lower s = "" -> s = "".
Proof. destruct s; [reflexivity | discriminate]. Qed.

Lemma goal_alignment_raises (p : Product) (prefs : Preferences) (goal : string) :
  prefs !! "investment_goal" = Some (PStr goal) ->
  goal <> "" ->
  MutualFundRanker._calculate_goal_alignment p prefs = Raise AttributeError.
Proof.
  intros Hgoal Hne.
  unfold MutualFundRanker._calculate_goal_alignment, dict_get_default.
  rewrite Hgoal. simpl.
  destruct (String.eqb (lower goal) "") eqn:E; [|reflexivity].
  apply String.eqb_eq, lower_empty in E. contradiction.
Qed.

(** With a non-empty investment goal in the preferences, the
    mutual-fund ranker raises [AttributeError] on every non-empty list,
    whatever the products, the query and the other preferences. *)
Theorem mutual_fund_ranker_raises_on_goal
    (x : ScoredProduct) (l : list ScoredProduct) (q : string)
    (prefs : Preferences) (goal : string) :
  prefs !! "investment_goal" = Some (PStr goal) ->
  goal <> "" ->
  MutualFundRanker.rank_products (x :: l) q (Some prefs) = Raise AttributeError.
Proof.
  intros Hgoal Hne.
  unfold MutualFundRanker.rank_products, rank_with.
  change (default ∅ (Some prefs)) with prefs.
  cbn [for_each]. cbv beta.
  unfold MutualFundRanker._calculate_enhanced_score.
  rewrite (goal_alignment_raises (product_of x) prefs goal Hgoal Hne). reflexivity.
Qed.

Lemma mutual_fund_ranker_raises_on_goal_witness :
  MutualFundRanker.rank_products [scored_fund] "" (Some retirement_preferences)
  = Raise AttributeError.
Proof.
  apply (mutual_fund_ranker_raises_on_goal scored_fund [] "" retirement_preferences
           "retirement").
  - reflexivity.
  - discriminate.
Defined.

Lemma for_each_total {A B} (f : A -> result B) (g : A -> B) (l : list A) :
  (forall a, f a = Ok (g a)) -> for_each f l = Ok (map g l).
Proof.
  intros Hf. induction l as [|x l IH]; simpl; [reflexivity|].
  rewrite Hf, IH. reflexivity.
Qed.

Lemma append_empty (s : string) : s ++ "" = s.
Proof.
  induction s as [|c s IH]; [reflexivity|].
  change (String c (s ++ "") = String c s). rewrite IH. reflexivity.
Qed.

(** Without a query and without investment goal, horizon and type, the
    mutual-fund ranker changes nothing but the order: every product
    keeps its score (when at most 100) and its reasoning. *)
Theorem mutual_fund_ranker_neutral
    (l : list ScoredProduct) (prefs : Preferences) :
  prefs !! "investment_goal" = None ->
  prefs !! "investment_horizon" = None ->
  prefs !! "investment_type" = None ->
  Forall (fun sp => score sp <= 100) l ->
  exists l' scored,
    MutualFundRanker.rank_products l "" (Some prefs) = Ok l'
    /\ Permutation l' scored
    /\ Forall2 (fun a b => product b = product a
                           /\ reasoning b = reasoning a
                           /\ score b == score a) l scored.
Proof.
  intros Hgoal Hhorizon Htype Hbase.
  set (g := fun sp : ScoredProduct =>
              py_min (score sp + 0 * MutualFundRanker.goal_multiplier
                      + 0 * MutualFundRanker.horizon_multiplier
                      + 0 * MutualFundRanker.query_multiplier
                      + 0 * MutualFundRanker.sip_multiplier) 100).
  assert (Hscore : forall sp,
             MutualFundRanker._calculate_enhanced_score sp "" prefs = Ok (g sp)).
  { intros sp.
    unfold MutualFundRanker._calculate_enhanced_score,
      MutualFundRanker._calculate_goal_alignment,
      MutualFundRanker._calculate_horizon_optimization,
      MutualFundRanker._calculate_sip_suitability,
      MutualFundRanker._calculate_query_relevance, dict_get_default.
    rewrite Hgoal, Hhorizon, Htype. reflexivity. }
  assert (Hg : forall sp, score sp <= 100 -> g sp == score sp).
  { intros sp Hsp. unfold g, MutualFundRanker.goal_multiplier,
      MutualFundRanker.horizon_multiplier, MutualFundRanker.query_multiplier,
      MutualFundRanker.sip_multiplier, py_min.
    rewrite Q.min_l; lra. }
  set (h := fun sp : ScoredProduct =>
              {| product := product sp;
                 score := g sp;
                 reasoning := MutualFundRanker._generate_ranking_reasoning sp (g sp) |}).
  exists (sorted_by_score (map h l)), (map h l).
  split; [|split].
  - unfold MutualFundRanker.rank_products, rank_with.
    destruct l as [|x l]; [reflexivity|].
    change (default ∅ (Some prefs)) with prefs.
    rewrite (for_each_total _ h); [reflexivity|].
    intros sp. rewrite Hscore. reflexivity.
  - apply sorted_by_score_perm.
  - clear Hscore. induction Hbase as [|sp l Hsp Hbase IH]; simpl; constructor; [|exact IH].
    split; [reflexivity|]. split; [|apply Hg, Hsp].
    simpl. unfold MutualFundRanker._generate_ranking_reasoning.
    specialize (Hg sp Hsp).
    assert (Himp : g sp - score sp == 0) by lra.
    qcases; try lra. apply append_empty.
Qed.

Lemma mutual_fund_ranker_neutral_witness :
  exists l' scored,
    MutualFundRanker.rank_products [scored_fund] "" (Some ∅) = Ok l'
    /\ Permutation l' scored
    /\ Forall2 (fun a b => product b = product a
                           /\ reasoning b = reasoning a
                           /\ score b == score a) [scored_fund] scored.
Proof.
  apply (mutual_fund_ranker_neutral [scored_fund] ∅); try reflexivity.
  constructor; [vm_compute; discriminate | constructor].
Defined.

(** ** Further properties of the manager *)

Lemma sorted_by_score_fixpoint (l : list ScoredProduct) :
  non_ascending l -> sorted_by_score l = l.
Proof.
  unfold non_ascending.
  induction 1 as [|x l Hsorted IH Hall]; simpl; [reflexivity|].
  rewrite IH. destruct l as [|y l]; [reflexivity|].
  simpl. inversion Hall as [|? ? Hy _]; subst.
  apply Qlt_bool_false in Hy. rewrite Hy. reflexivity.
Qed.

Lemma process_category_non_ascending `{PyBuiltins} (cc fd mf : DataLoader)
    (c : ProductCategory) (q : string) (prefs : Preferences)
    (l : list ScoredProduct) :
  FinancialProductManager._process_category cc fd mf c q prefs = Ok l ->
  non_ascending l.
Proof.
  unfold FinancialProductManager._process_category, index_by_category.
  destruct (FinancialProductManager.data_loaders cc fd mf c); simpl; [|discriminate].
  destruct (FinancialProductManager.processors c); simpl; [|discriminate].
  destruct (FinancialProductManager.rankers c) as [ranker|] eqn:Er;
    simpl; [|discriminate].
  destruct (load_data _ _); simpl; [|discriminate].
  assert (Hspec : exists f g, ranker = rank_with f g).
  { destruct c; simpl in Er; try discriminate; injection Er as <-;
      eexists; eexists; reflexivity. }
  destruct Hspec as (f & g & ->).
  intros Hrank. apply rank_with_spec in Hrank as [Hsorted _]. exact Hsorted.
Qed.

(** When a single category is requested, the global sort of the manager
    keeps the order the category ranker produced (products of equal
    score included): the recommendation is the head of that ranking, and
    [total_found] is its length. *)
Theorem single_category_keeps_ranking `{PyBuiltins}
    (cc fd mf : DataLoader) (c : ProductCategory) (q : string)
    (prefs : Preferences) (max_results : Z) (ranked : list ScoredProduct) :
  FinancialProductManager._process_category cc fd mf c q prefs = Ok ranked ->
  let r := FinancialProductManager.recommend_products cc fd mf q (Some [c]) (Some prefs)
             max_results in
  products r = py_slice_to max_results ranked
  /\ total_found r = length ranked.
Proof.
  intros Hranked.
  unfold FinancialProductManager.recommend_products,
    FinancialProductManager._rank_across_categories, FinancialProductManager.collect.
  change (default ∅ (Some prefs)) with prefs.
  change (default all_categories (Some [c])) with [c].
  cbn [flat_map products total_found]. rewrite Hranked, app_nil_r.
  rewrite sorted_by_score_fixpoint
    by (eapply process_category_non_ascending, Hranked).
  split; reflexivity.
Qed.

Lemma single_category_keeps_ranking_witness :
  exists ranked,
    @FinancialProductManager._process_category example_builtins
      card_loader missing_loader missing_loader CREDIT_CARDS "card" ∅ = Ok ranked
    /\ let r := @FinancialProductManager.recommend_products example_builtins
                  card_loader missing_loader missing_loader "card"
                  (Some [CREDIT_CARDS]) (Some ∅) 5 in
       products r = py_slice_to 5 ranked /\ total_found r = length ranked.
Proof.
  eexists. split; [vm_compute; reflexivity|].
  apply (@single_category_keeps_ranking example_builtins
           card_loader missing_loader missing_loader CREDIT_CARDS "card" ∅ 5).
  vm_compute. reflexivity.
Defined.

Lemma non_ascending_firstn (n : nat) (l : list ScoredProduct) :
  non_ascending l -> non_ascending (firstn n l).
Proof.
  unfold non_ascending. intros Hsorted. revert n.
  induction Hsorted as [|x l Hsorted IH Hall]; intros [|n]; simpl;
    try constructor.
  - apply IH.
  - apply Forall_take. exact Hall.
Qed.

Lemma collect_without `{PyBuiltins} (cc fd mf : DataLoader) (c : ProductCategory)
    (e : PyExn) (categories : list ProductCategory) (q : string) (prefs : Preferences) :
  FinancialProductManager._process_category cc fd mf c q prefs = Raise e ->
  FinancialProductManager.collect cc fd mf categories q prefs
  = FinancialProductManager.collect cc fd mf
      (List.filter (fun c' => negb (bool_decide (c' = c))) categories) q prefs.
Proof.
  intros Hraise. unfold FinancialProductManager.collect.
  induction categories as [|c' categories IH]; simpl; [reflexivity|].
  destruct (bool_decide (c' = c)) eqn:E; simpl.
  - apply bool_decide_eq_true in E. subst c'. rewrite Hraise. exact IH.
  - rewrite IH. reflexivity.
Qed.

(** A category whose loader fails (missing or malformed file, unknown
    source) is left out without a trace: the recommendation is the one
    the same request gives with that category removed from the list. *)
Theorem failing_loader_drops_category `{PyBuiltins}
    (cc fd mf : DataLoader) (c : ProductCategory) (loader : DataLoader) (e : PyExn)
    (q : string) (categories : list ProductCategory) (prefs : Preferences)
    (max_results : Z) :
  FinancialProductManager.data_loaders cc fd mf c = Some loader ->
  load_data loader (dict_get prefs (category_value c ++ "_source")) = Raise e ->
  FinancialProductManager.recommend_products cc fd mf q (Some categories) (Some prefs)
    max_results
  = FinancialProductManager.recommend_products cc fd mf q
      (Some (List.filter (fun c' => negb (bool_decide (c' = c))) categories))
      (Some prefs) max_results.
Proof.
  intros Hloader Hload.
  assert (Hraise :
    FinancialProductManager._process_category cc fd mf c q prefs = Raise e).
  { unfold FinancialProductManager._process_category, index_by_category.
    rewrite Hloader.
    destruct c; try discriminate; simpl in Hload |- *; rewrite Hload; reflexivity. }
  unfold FinancialProductManager.recommend_products.
  change (default ∅ (Some prefs)) with prefs.
  change (default all_categories (Some categories)) with categories.
  change (default all_categories
            (Some (List.filter (fun c' => negb (bool_decide (c' = c))) categories)))
    with (List.filter (fun c' => negb (bool_decide (c' = c))) categories).
  rewrite <- (collect_without cc fd mf c e categories q prefs Hraise).
  reflexivity.
Qed.

Lemma failing_loader_drops_category_witness :
  @FinancialProductManager.recommend_products example_builtins
    card_loader missing_loader missing_loader "card"
    (Some [FIXED_DEPOSITS; CREDIT_CARDS]) (Some ∅) 5
  = @FinancialProductManager.recommend_products example_builtins
      card_loader missing_loader missing_loader "card"
      (Some (List.filter (fun c' => negb (bool_decide (c' = FIXED_DEPOSITS)))
               [FIXED_DEPOSITS; CREDIT_CARDS]))
      (Some ∅) 5.
Proof.
  apply (@failing_loader_drops_category example_builtins
           card_loader missing_loader missing_loader FIXED_DEPOSITS missing_loader
           LoaderError).
  - reflexivity.
  - reflexivity.
Defined.

Lemma goal_makes_fund_ranking_raise
    (x : ScoredProduct) (l : list ScoredProduct) (q : string)
    (prefs : Preferences) (goal : string) :
  prefs !! "investment_goal" = Some (PStr goal) ->
  goal <> "" ->
  MutualFundRanker.rank_products (x :: l) q (Some prefs) = Raise AttributeError.
Proof.
  intros Hgoal Hne.
  unfold MutualFundRanker.rank_products, rank_with.
  change (default ∅ (Some prefs)) with prefs.
  cbn [for_each]. cbv beta.
  unfold MutualFundRanker._calculate_enhanced_score.
  rewrite (goal_alignment_raises (product_of x) prefs goal Hgoal Hne). reflexivity.
Qed.

(** With a non-empty investment goal in the preferences no mutual fund
    is ever recommended: ranking the funds raises, and the manager skips
    the whole category. *)
Theorem goal_preference_excludes_mutual_funds `{PyBuiltins}
    (cc fd mf : DataLoader) (q : string)
    (categories : option (list ProductCategory))
    (prefs : Preferences) (goal : string) (max_results : Z) :
  prefs !! "investment_goal" = Some (PStr goal) ->
  goal <> "" ->
  Forall (fun sp => category (info (product sp)) <> MUTUAL_FUNDS)
    (products (FinancialProductManager.recommend_products cc fd mf q categories
                 (Some prefs) max_results)).
Proof.
  intros Hgoal Hne.
  assert (Hcollect : forall cats,
    Forall (fun sp => category (info (product sp)) <> MUTUAL_FUNDS)
      (FinancialProductManager.collect cc fd mf cats q prefs)).
  { unfold FinancialProductManager.collect.
    induction cats as [|c cats IH]; simpl; [constructor|].
    apply Forall_app. split; [|exact IH].
    destruct (FinancialProductManager._process_category cc fd mf c q prefs) as [l|] eqn:E;
      [|constructor].
    destruct (decide (c = MUTUAL_FUNDS)) as [->|Hc].
    - unfold FinancialProductManager._process_category, index_by_category in E.
      simpl in E.
      destruct (load_data mf _); simpl in E; [|discriminate].
      match type of E with
      | MutualFundRanker.rank_products ?scored _ _ = _ => destruct scored as [|x rest]
      end.
      + injection E as <-. constructor.
      + rewrite (goal_makes_fund_ranking_raise x rest q prefs goal Hgoal Hne) in E.
        discriminate.
    - apply process_category_tags in E as [_ Hl].
      eapply Forall_impl; [exact Hl|].
      intros sp Hsp. simpl in Hsp. rewrite Hsp. exact Hc. }
  unfold FinancialProductManager.recommend_products,
    FinancialProductManager._rank_across_categories.
  cbn [products]. change (default ∅ (Some prefs)) with prefs.
  unfold py_slice_to.
  destruct (0 <=? max_results)%Z; apply Forall_take;
    apply (Permutation_Forall (Permutation_sym (sorted_by_score_perm _)));
    apply Hcollect.
Qed.

Lemma goal_preference_excludes_mutual_funds_witness :
  Forall (fun sp => category (info (product sp)) <> MUTUAL_FUNDS)
    (products (@FinancialProductManager.recommend_products example_builtins
                 card_loader missing_loader (loader_of [losing_fund_record])
                 "retirement fund" None (Some retirement_preferences) 5)).
Proof.
  apply (@goal_preference_excludes_mutual_funds example_builtins
           card_loader missing_loader (loader_of [losing_fund_record])
           "retirement fund" None retirement_preferences "retirement" 5).
  - reflexivity.
  - discriminate.
Defined.

(** ** The preferences built by the chat helper *)

Ltac frame_stage :=
  intros;
  repeat match goal with
    | |- context [if ?c then _ else _] => destruct c
    end;
  rewrite ?lookup_insert_ne by congruence; reflexivity.

Lemma income_range_frame (text : string) (m : Preferences) (k : string) :
  k <> "income_range" -> LangchainHelper.extract_income_range text m !! k = m !! k.
Proof. unfold LangchainHelper.extract_income_range. frame_stage. Qed.

Lemma spending_categories_frame (text : string) (m : Preferences) (k : string) :
  k <> "spending_categories" ->
  LangchainHelper.extract_spending_categories text m !! k = m !! k.
Proof.
  unfold LangchainHelper.extract_spending_categories. intros.
  destruct (LangchainHelper.spending_categories_of text); [reflexivity|].
  rewrite lookup_insert_ne by congruence. reflexivity.
Qed.

Lemma investment_horizon_frame (text : string) (m : Preferences) (k : string) :
  k <> "investment_horizon" ->
  LangchainHelper.extract_investment_horizon text m !! k = m !! k.
Proof. unfold LangchainHelper.extract_investment_horizon. frame_stage. Qed.

Lemma risk_tolerance_frame (text : string) (m : Preferences) (k : string) :
  k <> "risk_tolerance" ->
  LangchainHelper.extract_risk_tolerance text m !! k = m !! k.
Proof. unfold LangchainHelper.extract_risk_tolerance. frame_stage. Qed.

Lemma investment_goal_frame (text : string) (m : Preferences) (k : string) :
  k <> "investment_goal" ->
  LangchainHelper.extract_investment_goal text m !! k = m !! k.
Proof. unfold LangchainHelper.extract_investment_goal. frame_stage. Qed.

Lemma investment_type_frame (text : string) (m : Preferences) (k : string) :
  k <> "investment_type" ->
  LangchainHelper.extract_investment_type text m !! k = m !! k.
Proof. unfold LangchainHelper.extract_investment_type. frame_stage. Qed.

(** Brings a lookup in the extracted preferences down to the block that
    sets the key. *)
Ltac through_frames :=
  unfold LangchainHelper.extract_user_preferences; cbv zeta;
  rewrite ?investment_type_frame by discriminate;
  rewrite ?investment_goal_frame by discriminate;
  rewrite ?risk_tolerance_frame by discriminate;
  rewrite ?investment_horizon_frame by discriminate;
  rewrite ?spending_categories_frame by discriminate;
  rewrite ?income_range_frame by discriminate.




Lemma extracted_horizon (input history : string) :
  LangchainHelper.extract_user_preferences input history !! "investment_horizon" = None
  \/ exists h,
       LangchainHelper.extract_user_preferences input history !! "investment_horizon"
       = Some (PStr h).
Proof.
  through_frames. unfold LangchainHelper.extract_investment_horizon.
  repeat match goal with
    | |- context [if ?c then _ else _] => destruct c
    end;
  try (right; eexists; apply lookup_insert_eq).
  left. through_frames. apply lookup_empty.
Qed.

Lemma extracted_type (input history : string) :
  LangchainHelper.extract_user_preferences input history !! "investment_type" = None
  \/ LangchainHelper.extract_user_preferences input history !! "investment_type"
     = Some (PStr "sip").
Proof.
  through_frames. unfold LangchainHelper.extract_investment_type.
  destruct (LangchainHelper.mentions _ _).
  - right. apply lookup_insert_eq.
  - left. through_frames. apply lookup_empty.
Qed.

Lemma mentions_app (text : string) (l1 l2 : list string) :
  LangchainHelper.mentions text (l1 ++ l2)%list
  = LangchainHelper.mentions text l1 || LangchainHelper.mentions text l2.
Proof. unfold LangchainHelper.mentions, any. apply existsb_app. Qed.

Lemma extracted_goal (input history : string) :
  let text := lower (input ++ " " ++ history) in
  if LangchainHelper.mentions text LangchainHelper.goal_words
  then exists g,
         LangchainHelper.extract_user_preferences input history !! "investment_goal"
         = Some (PStr g) /\ g <> ""
  else LangchainHelper.extract_user_preferences input history !! "investment_goal" = None.
Proof.
  intros text. through_frames. fold text.
  unfold LangchainHelper.extract_investment_goal.
  change LangchainHelper.goal_words
    with (["tax saving"; "elss"; "80c"] ++ ["retirement"; "pension"]
          ++ ["wealth"; "growth"; "appreciation"] ++ ["income"; "dividend"; "regular"])%list.
  rewrite !mentions_app.
  destruct (LangchainHelper.mentions text ["tax saving"; "elss"; "80c"]);
    [simpl; eexists; split; [apply lookup_insert_eq | discriminate]|].
  destruct (LangchainHelper.mentions text ["retirement"; "pension"]);
    [simpl; eexists; split; [apply lookup_insert_eq | discriminate]|].
  destruct (LangchainHelper.mentions text ["wealth"; "growth"; "appreciation"]);
    [simpl; eexists; split; [apply lookup_insert_eq | discriminate]|].
  destruct (LangchainHelper.mentions text ["income"; "dividend"; "regular"]);
    [simpl; eexists; split; [apply lookup_insert_eq | discriminate]|].
  simpl. through_frames. apply lookup_empty.
Qed.

Lemma for_each_ok {A B} (f : A -> result B) (l : list A) :
  (forall a, exists b, f a = Ok b) -> exists l', for_each f l = Ok l'.
Proof.
  intros Hf. induction l as [|x l [l' IH]]; simpl; [eexists; reflexivity|].
  destruct (Hf x) as [y ->]. rewrite IH. simpl. eexists; reflexivity.
Qed.

(** A ranker whose enhanced score is always computed returns. *)
Lemma rank_with_ok
    (f : ScoredProduct -> string -> Preferences -> result Q)
    (g : ScoredProduct -> Q -> string)
    (l : list ScoredProduct) (q : string) (prefs : Preferences) :
  (forall sp, exists e, f sp q prefs = Ok e) ->
  exists l', rank_with f g l q (Some prefs) = Ok l'.
Proof.
  intros Hf. unfold rank_with. destruct l as [|x l]; [eexists; reflexivity|].
  change (default ∅ (Some prefs)) with prefs.
  match goal with
  | |- context [for_each ?h ?l0] => destruct (for_each_ok h l0) as [l' ->]
  end.
  - intros sp. destruct (Hf sp) as [e ->]. simpl. eexists; reflexivity.
  - simpl. eexists; reflexivity.
Qed.




Lemma mf_enhanced_score_ok (sp : ScoredProduct) (q : string) (prefs : Preferences) :
  prefs !! "investment_goal" = None ->
  prefs !! "investment_horizon" = None
  \/ (exists h, prefs !! "investment_horizon" = Some (PStr h)) ->
  prefs !! "investment_type" = None
  \/ (exists t, prefs !! "investment_type" = Some (PStr t)) ->
  exists e, MutualFundRanker._calculate_enhanced_score sp q prefs = Ok e.
Proof.
  intros Hgoal Hhorizon Htype.
  unfold MutualFundRanker._calculate_enhanced_score,
    MutualFundRanker._calculate_goal_alignment,
    MutualFundRanker._calculate_horizon_optimization,
    MutualFundRanker._calculate_sip_suitability, dict_get_default.
  rewrite Hgoal.
  destruct Hhorizon as [-> | [h ->]]; destruct Htype as [-> | [t ->]]; simpl;
    repeat match goal with
      | |- context [if ?c then _ else _] => destruct c; simpl
      end;
    eexists; reflexivity.
Qed.



(** On the preferences that [extract_user_preferences] builds, the
    mutual-fund ranker raises [AttributeError] on every non-empty list
    when the text (input and history) has one of the goal words, and
    returns otherwise. *)
Theorem extracted_preferences_fund_ranking
    (input history : string) (x : ScoredProduct) (l : list ScoredProduct)
    (q : string) :
  let prefs := LangchainHelper.extract_user_preferences input history in
  if LangchainHelper.mentions (lower (input ++ " " ++ history)) LangchainHelper.goal_words
  then MutualFundRanker.rank_products (x :: l) q (Some prefs) = Raise AttributeError
  else exists ranked, MutualFundRanker.rank_products (x :: l) q (Some prefs) = Ok ranked.
Proof.
  intros prefs.
  pose proof (extracted_goal input history) as Hgoal. cbv zeta in Hgoal.
  destruct (LangchainHelper.mentions _ LangchainHelper.goal_words).
  - destruct Hgoal as (g & Hg & Hne).
    exact (goal_makes_fund_ranking_raise x l q prefs g Hg Hne).
  - apply rank_with_ok. intros sp. apply mf_enhanced_score_ok.
    + exact Hgoal.
    + apply extracted_horizon.
    + destruct (extracted_type input history) as [Ht|Ht]; [left|right; eexists];
        exact Ht.
Qed.

Lemma fund_category_empty_on_goal `{PyBuiltins} (cc fd mf : DataLoader)
    (q : string) (prefs : Preferences) (goal : string) :
  prefs !! "investment_goal" = Some (PStr goal) ->
  goal <> "" ->
  FinancialProductManager.collect cc fd mf [MUTUAL_FUNDS] q prefs = [].
Proof.
  intros Hgoal Hne.
  unfold FinancialProductManager.collect,
    FinancialProductManager._process_category, index_by_category.
  simpl.
  destruct (load_data mf _); simpl; [|reflexivity].
  match goal with
  | |- context [MutualFundRanker.rank_products ?scored _ _] =>
      destruct scored as [|x rest]
  end.
  - reflexivity.
  - rewrite (goal_makes_fund_ranking_raise x rest q prefs goal Hgoal Hne). reflexivity.
Qed.

(** A question that is only about funds and whose text (or history) has
    one of the goal words, such as "retirement", always gets the "could
    not find" answer, whatever the data files hold: the preferences
    extracted from it carry an investment goal, on which the ranking of
    the funds raises. *)
Theorem fund_query_with_goal_finds_nothing `{PyBuiltins}
    (cc fd mf : DataLoader) (input history : string) :
  LangchainHelper.relevant_categories input = [MUTUAL_FUNDS] ->
  LangchainHelper.mentions (lower (input ++ " " ++ history)) LangchainHelper.goal_words
    = true ->
  LangchainHelper.get_financial_recommendations cc fd mf input
    (Some (LangchainHelper.extract_user_preferences input history))
  = LangchainHelper.no_match_message.
Proof.
  intros Hcats Hwords.
  pose proof (extracted_goal input history) as Hgoal. cbv zeta in Hgoal.
  rewrite Hwords in Hgoal. destruct Hgoal as (g & Hg & Hne).
  unfold LangchainHelper.get_financial_recommendations,
    FinancialProductManager.recommend_products,
    FinancialProductManager._rank_across_categories.
  rewrite Hcats. cbn [products].
  change (default all_categories (Some [MUTUAL_FUNDS])) with [MUTUAL_FUNDS].
  change (default ∅ (Some (default ∅
            (Some (LangchainHelper.extract_user_preferences input history)))))
    with (LangchainHelper.extract_user_preferences input history).
  rewrite (fund_category_empty_on_goal cc fd mf input _ g Hg Hne).
  reflexivity.
Qed.

Lemma fund_query_with_goal_witness :
  @LangchainHelper.get_financial_recommendations example_builtins
    card_loader (loader_of [good_deposit_record]) (loader_of [losing_fund_record])
    "best mutual fund for retirement"
    (Some (LangchainHelper.extract_user_preferences "best mutual fund for retirement" ""))
  = LangchainHelper.no_match_message.
Proof.
  apply (@fund_query_with_goal_finds_nothing example_builtins
           card_loader (loader_of [good_deposit_record]) (loader_of [losing_fund_record])
           "best mutual fund for retirement" "").
  - vm_compute. reflexivity.
  - vm_compute. reflexivity.
Defined.

(** ** What the regular expressions capture *)

Lemma strip_prefix_length (p s s' : string) :
  strip_prefix p s = Some s' -> (String.length s' <= String.length s)%nat.
Proof.
  revert s. induction p as [|a p IH]; intros s; simpl.
  - intros [= <-]. lia.
  - destruct s as [|b s]; [discriminate|].
    destruct (Ascii.eqb a b); [|discriminate].
    intros Hs. apply IH in Hs. simpl. lia.
Qed.

(** A successful match hands the continuation a suffix of the text and
    a capture that starts with a digit. *)
Lemma rmatch_inv {X} (r : regex) :
  groups_digit r = true ->
  forall (s : string) (cap : option string)
         (k : string -> option string -> option X) (x : X),
    capture_ok cap ->
    rmatch r s cap k = Some x ->
    exists s1 c1,
      k s1 c1 = Some x
      /\ (String.length s1 <= String.length s)%nat
      /\ capture_ok c1
      /\ (leads_digit r = true ->
          exists c s', s = String c s' /\ is_digit c = true
                       /\ (String.length s1 <= String.length s')%nat).
Proof.
  induction r as [p| | |cs sp|r1 IH1 r2 IH2|r1 IH1|r1 IH1|r1 IH1];
    intros Hwf s cap k x Hcap Hm; simpl in Hm.
  - destruct (strip_prefix p s) as [s'|] eqn:E; [|discriminate].
    exists s', cap. repeat split; auto.
    all: try discriminate.
    eapply strip_prefix_length, E.
  - destruct s as [|c s']; [discriminate|].
    destruct (is_digit c) eqn:Ec; [|discriminate].
    exists s', cap. repeat split; auto; simpl; try lia.
    intros _. exists c, s'. repeat split; auto.
  - destruct s as [|c s']; [discriminate|].
    destruct (Ascii.is_space c); [|discriminate].
    exists s', cap. repeat split; auto; simpl; try lia; try discriminate.
  - destruct s as [|c s']; [discriminate|].
    destruct (existsb (Ascii.eqb c) cs || (sp && Ascii.is_space c)); [|discriminate].
    exists s', cap. repeat split; auto; simpl; try lia; try discriminate.
  - simpl in Hwf. apply andb_true_iff in Hwf as [Hwf1 Hwf2].
    apply (IH1 Hwf1) in Hm as (s1 & c1 & Hk1 & Hlen1 & Hc1 & Hlead1); [|exact Hcap].
    apply (IH2 Hwf2) in Hk1 as (s2 & c2 & Hk2 & Hlen2 & Hc2 & _); [|exact Hc1].
    exists s2, c2. repeat split; auto; try lia.
    simpl. intros Hlead. destruct (Hlead1 Hlead) as (c & s' & -> & Hd & Hlen).
    exists c, s'. repeat split; auto. lia.
  - simpl in Hwf.
    destruct (rmatch r1 s cap k) as [y|] eqn:E.
    + injection Hm as ->.
      apply (IH1 Hwf) in E as (s1 & c1 & Hk1 & Hlen1 & Hc1 & _); [|exact Hcap].
      exists s1, c1. repeat split; auto; try discriminate.
    + exists s, cap. repeat split; auto; try discriminate.
  - simpl in Hwf.
    cut (exists s1 c1, k s1 c1 = Some x
                       /\ (String.length s1 <= String.length s)%nat /\ capture_ok c1).
    { intros (s1 & c1 & ? & ? & ?). exists s1, c1. repeat split; auto; try discriminate. }
    revert Hm. generalize (String.length s) at 1. intros fuel.
    revert s cap Hcap. induction fuel as [|fuel IHfuel]; intros s cap Hcap Hm.
    + exists s, cap. repeat split; auto.
    + match type of Hm with
      | match ?m with _ => _ end = _ => destruct m as [y|] eqn:E
      end.
      * injection Hm as ->.
        apply (IH1 Hwf) in E as (s1 & c1 & Hk1 & Hlen1 & Hc1 & _); [|exact Hcap].
        destruct (String.length s1 <? String.length s)%nat; [|discriminate].
        apply IHfuel in Hk1 as (s2 & c2 & Hk2 & Hlen2 & Hc2); [|exact Hc1].
        exists s2, c2. repeat split; auto. lia.
      * exists s, cap. repeat split; auto.
  - simpl in Hwf. apply andb_true_iff in Hwf as [Hlead Hwf].
    apply (IH1 Hwf) in Hm as (s1 & c1 & Hk1 & Hlen1 & Hc1 & Hlead1); [|exact Hcap].
    destruct (Hlead1 Hlead) as (c & s' & -> & Hd & Hlen).
    eexists s1, _. split; [exact Hk1|]. repeat split; auto; try discriminate.
    simpl String.length.
    replace (S (String.length s') - String.length s1)%nat
      with (S (String.length s' - String.length s1)) by lia.
    simpl. exists c. eexists. split; [reflexivity | exact Hd].
Qed.

Lemma match_here_capture (r : regex) (s rest g : string) :
  groups_digit r = true ->
  match_here r s = Some (rest, g) ->
  g = "" \/ starts_with_digit g.
Proof.
  intros Hwf Hm. unfold match_here in Hm.
  apply (rmatch_inv r Hwf) in Hm as (s1 & c1 & Hk & _ & Hc1 & _); [|exact I].
  injection Hk as _ <-. destruct c1; [right; exact Hc1 | left; reflexivity].
Qed.

Lemma findall_captures (r : regex) (s : string) :
  groups_digit r = true ->
  Forall (fun g => g = "" \/ starts_with_digit g) (findall r s).
Proof.
  intros Hwf. unfold findall. generalize (S (String.length s)). intros fuel.
  revert s. induction fuel as [|fuel IH]; intros s; simpl; [constructor|].
  destruct (match_here r s) as [[rest g]|] eqn:E.
  - destruct (String.length rest <? String.length s)%nat.
    + constructor; [eapply match_here_capture; eassumption | apply IH].
    + destruct s; [constructor | apply IH].
  - destruct s; [constructor | apply IH].
Qed.

(** ** Numbers read from captured text *)

Lemma digit_not_space (c : ascii) : is_digit c = true -> Ascii.is_space c = false.
Proof.
  destruct c as [[] [] [] [] [] [] [] []]; vm_compute; congruence.
Qed.

Lemma digit_not_sign (c : ascii) (s : string) :
  is_digit c = true -> take_sign (String c s) = (false, String c s).
Proof.
  destruct c as [[] [] [] [] [] [] [] []]; vm_compute; congruence.
Qed.

Lemma rstrip_head (c : ascii) (s : string) :
  Ascii.is_space c = false -> exists t, rstrip (String c s) = String c t.
Proof.
  intros Hc. simpl. rewrite Hc. destruct (rstrip s); eauto.
Qed.

Lemma digit_of_nonneg (c : ascii) (d : Z) : digit_of c = Some d -> (0 <= d)%Z.
Proof.
  unfold digit_of. destruct (_ && _); [|discriminate]. intros [= <-]. lia.
Qed.

Lemma take_digits_nonneg (s : string) :
  Forall (fun d => (0 <= d)%Z) (fst (take_digits s)).
Proof.
  induction s as [|c s IH]; simpl; [constructor|].
  destruct (digit_of c) as [d|] eqn:E; [|constructor].
  destruct (take_digits s) as [ds rest]. simpl in *.
  constructor; [eapply digit_of_nonneg, E | exact IH].
Qed.

Lemma fold_digits_nonneg (ds : list Z) (acc : Z) :
  (0 <= acc)%Z -> Forall (fun d => (0 <= d)%Z) ds ->
  (0 <= fold_left (fun acc d => acc * 10 + d) ds acc)%Z.
Proof.
  revert acc. induction ds as [|d ds IH]; intros acc Hacc Hds; simpl; [exact Hacc|].
  inversion Hds; subst. apply IH; [lia | assumption].
Qed.

Lemma digits_value_nonneg (ds : list Z) :
  Forall (fun d => (0 <= d)%Z) ds -> (0 <= digits_value ds)%Z.
Proof. apply fold_digits_nonneg. lia. Qed.

(** [float] of a text that starts with a digit is not negative. *)
Lemma float_of_digits_nonneg (g : string) (q : Q) :
  starts_with_digit g -> float_of_str g = Ok q -> 0 <= q.
Proof.
  intros (c & s & -> & Hc). unfold float_of_str, strip.
  simpl lstrip. rewrite (digit_not_space c Hc).
  destruct (rstrip_head c s (digit_not_space c Hc)) as [t ->].
  rewrite (digit_not_sign c t Hc).
  pose proof (take_digits_nonneg (String c t)) as Hip.
  destruct (take_digits (String c t)) as [ip s2]. simpl in Hip.
  assert (Hfp : forall fp s3,
             match s2 with
             | String "." s2' => take_digits s2'
             | _ => ([], s2)
             end = (fp, s3) -> Forall (fun d => (0 <= d)%Z) fp).
  { intros fp s3 E.
    assert (Hcases : (fp, s3) = ([], s2) \/ exists s2', (fp, s3) = take_digits s2').
    { rewrite <- E. destruct s2 as [|a s2']; [left; reflexivity|].
      destruct a as [[] [] [] [] [] [] [] []]; eauto. }
    destruct Hcases as [[= -> _]|[s2' E']]; [constructor|].
    pose proof (take_digits_nonneg s2') as Hd. rewrite <- E' in Hd. exact Hd. }
  destruct (match s2 with String "." s2' => take_digits s2' | _ => ([], s2) end)
    as [fp s3] eqn:E.
  specialize (Hfp fp s3 eq_refl).
  destruct (ip ++ fp)%list eqn:Eds; [discriminate|].
  destruct (parse_exponent s3) as [e|]; [|discriminate].
  intros [= <-]. rewrite <- Eds.
  apply Qmult_le_0_compat.
  - change 0 with (inject_Z 0). rewrite <- Zle_Qle.
    apply digits_value_nonneg, Forall_app. split; assumption.
  - apply Qpower_0_le. discriminate.
Qed.

(** ** Credit cards built from raw records *)

Lemma captured_rates_nonneg (p : regex) (d : string) :
  groups_digit p = true ->
  Forall (fun r => 0 <= r)
    (omap (fun m => or_none (float_of_str m)) (findall p d)).
Proof.
  intros Hp. pose proof (findall_captures p d Hp) as Hall.
  induction Hall as [|g gs Hg _ IH]; [constructor|].
  change (omap ?f (g :: gs)) with
    (match f g with Some y => y :: omap f gs | None => omap f gs end).
  cbv beta. destruct (float_of_str g) as [q|e] eqn:E; simpl; [|exact IH].
  constructor; [|exact IH].
  destruct Hg as [->|Hg]; [discriminate E|].
  eapply float_of_digits_nonneg; eassumption.
Qed.

Lemma cashback_rates_nonneg (d : string) :
  Forall (fun r => 0 <= r) (CreditCardProcessor.cashback_rates d).
Proof.
  unfold CreditCardProcessor.cashback_rates. simpl flat_map.
  repeat (apply Forall_app; split); try constructor;
    apply captured_rates_nonneg; reflexivity.
Qed.

Lemma extracted_cashback_nonneg (raw : PyDict) (r : Q) :
  CreditCardProcessor._extract_cashback_rate raw = Ok (Some r) -> 0 <= r.
Proof.
  unfold CreditCardProcessor._extract_cashback_rate.
  destruct (truthy _); [|discriminate].
  destruct (py_lower _) as [d|]; simpl; [|discriminate].
  pose proof (cashback_rates_nonneg d) as Hall.
  destruct (CreditCardProcessor.cashback_rates d) as [|r0 rs]; [discriminate|].
  intros [= <-]. inversion Hall; subst.
  eapply Qle_trans; [eassumption|].
  apply fold_left_nondecreasing. intros a x _. apply Q.le_max_l.
Qed.

Lemma all_strs_length (l : list PyVal) (l' : list string) :
  all_strs l = Ok l' -> length l' = length l.
Proof.
  revert l'. induction l as [|v l IH]; intros l'; simpl.
  - intros [= <-]. reflexivity.
  - destruct v; try discriminate.
    destruct (all_strs l) as [rest|]; simpl; [|discriminate].
    intros [= <-]. simpl. f_equal. apply IH. reflexivity.
Qed.

Lemma extracted_features_length `{PyBuiltins} (raw : PyDict) (fs : list PyVal) :
  CreditCardProcessor._extract_features raw = Ok fs -> (length fs <= 10)%nat.
Proof.
  unfold CreditCardProcessor._extract_features. intros Hfs. step_binds Hfs.
  all: injection Hfs as <-; apply firstn_le_length.
Qed.

Lemma substring_length (n : nat) (s : string) :
  (String.length (String.substring 0 n s) <= n)%nat.
Proof.
  revert s. induction n as [|n IH]; intros [|c s]; simpl; try lia.
  specialize (IH s). lia.
Qed.

Lemma first_welcome_line_length (lines : list string) (w : string) :
  CreditCardProcessor.first_welcome_line lines = Some w ->
  (String.length w <= 100)%nat.
Proof.
  induction lines as [|line rest IH]; simpl; [discriminate|].
  destruct (contains "welcome" (lower line)); [|exact IH].
  intros [= <-]. apply substring_length.
Qed.

Lemma extracted_welcome_length (raw : PyDict) (w : string) :
  CreditCardProcessor._extract_welcome_benefit raw = Ok (Some w) ->
  (String.length w <= 100)%nat.
Proof.
  unfold CreditCardProcessor._extract_welcome_benefit.
  destruct (truthy _); [|discriminate].
  destruct (py_lower _) as [d|]; simpl; [|discriminate].
  destruct (contains "welcome" d); [|discriminate].
  destruct (dict_get_default raw "description" (PStr "")); try discriminate.
  intros [= E]. eapply first_welcome_line_length, E.
Qed.

(** The fields of a processed card, in terms of the extractors. *)
Lemma process_product_fields `{PyBuiltins} (raw : PyDict) (c : CreditCardInfo) :
  CreditCardProcessor.process_product raw = Ok c ->
  CreditCardProcessor._extract_cashback_rate raw = Ok (cashback_rate c)
  /\ CreditCardProcessor._extract_welcome_benefit raw = Ok (welcome_benefit c)
  /\ (exists fs, CreditCardProcessor._extract_features raw = Ok fs
                 /\ all_strs fs = Ok (features (cc_info c)))
  /\ reward_rate c = None.
Proof.
  unfold CreditCardProcessor.process_product. intros Hc.
  unfold mbind, result_bind in Hc.
  destruct (py_strip _) as [name|]; [|discriminate].
  destruct (CreditCardProcessor._extract_features raw) as [fs|]; [|discriminate].
  destruct (CreditCardProcessor._extract_annual_fee raw) as [fee|]; [|discriminate].
  destruct (CreditCardProcessor._extract_cashback_rate raw) as [rate|]; [|discriminate].
  destruct (CreditCardProcessor._extract_welcome_benefit raw) as [wb|]; [|discriminate].
  destruct (CreditCardProcessor._has_fuel_surcharge_waiver raw); [|discriminate].
  destruct (CreditCardProcessor._has_lounge_access raw); [|discriminate].
  destruct (expect_str _); [|discriminate].
  destruct (all_strs fs) as [fs'|] eqn:Efs; [|discriminate].
  destruct (expect_str _); [|discriminate].
  injection Hc as <-. simpl. repeat split; eauto.
Qed.

Lemma card_score_ge_10 (c : CreditCardInfo) (prefs : Preferences) :
  (forall r, cashback_rate c = Some r -> 0 <= r) ->
  10 <= CreditCardProcessor.calculate_score c prefs.
Proof.
  intros Hrate. unfold CreditCardProcessor.calculate_score.
  assert (Hf : 0 <= inject_Z (Z.of_nat (length (features (cc_info c)))) * 2).
  { apply Qmult_le_0_compat; [|lra].
    change 0 with (inject_Z 0). rewrite <- Zle_Qle. lia. }
  pose proof (py_min_glb _ 15 0 Hf ltac:(lra)) as Hfeat.
  destruct (cashback_rate c) as [r|].
  - specialize (Hrate r eq_refl).
    assert (Hr : 0 <= py_min (r * 5) 30) by (apply py_min_glb; lra).
    apply py_min_glb; [|lra].
    destruct (negb (Qeq_bool r 0));
      destruct (annual_fee c) as [fee|];
      repeat match goal with
        | |- context [if ?b then _ else _] => destruct b
        end;
      repeat match goal with
        | |- context [py_min ?a 20] =>
            let Hb := fresh "Hb" in
            assert (Hb : 0 <= py_min a 20) by (apply py_min_glb; lra);
            revert Hb; generalize (py_min a 20); intros ? ?
        end;
      revert Hr Hfeat;
      generalize (py_min (r * 5) 30);
      generalize (py_min (inject_Z (Z.of_nat (length (features (cc_info c)))) * 2) 15);
      intros; lra.
  - apply py_min_glb; [|lra].
    destruct (annual_fee c) as [fee|];
      repeat match goal with
        | |- context [if ?b then _ else _] => destruct b
        end;
      repeat match goal with
        | |- context [py_min ?a 20] =>
            let Hb := fresh "Hb" in
            assert (Hb : 0 <= py_min a 20) by (apply py_min_glb; lra);
            revert Hb; generalize (py_min a 20); intros ? ?
        end;
      revert Hfeat;
      generalize (py_min (inject_Z (Z.of_nat (length (features (cc_info c)))) * 2) 15);
      intros; lra.
Qed.

Lemma cc_enhanced_bounds (sp : ScoredProduct) (q : string) (prefs : Preferences) (e : Q) :
  score sp <= 100 ->
  CreditCardRanker._calculate_enhanced_score sp q prefs = Ok e ->
  score sp <= e /\ e <= 100.
Proof.
  intros Hbase Hcc.
  unfold CreditCardRanker._calculate_enhanced_score in Hcc.
  destruct (CreditCardRanker._calculate_preference_alignment _ _) as [pb|] eqn:Epb;
    simpl in Hcc; [|discriminate].
  injection Hcc as <-.
  pose proof (cc_query_relevance_nonneg (info (product_of sp)) q).
  pose proof (cc_preference_alignment_nonneg _ _ _ Epb).
  pose proof (cc_category_optimization_nonneg (info (product_of sp)) prefs).
  unfold CreditCardRanker.query_multiplier, CreditCardRanker.preference_multiplier,
    CreditCardRanker.category_multiplier.
  split; [apply py_min_glb; lra | apply py_min_le_r].
Qed.

Lemma processed_card_score_range `{PyBuiltins} (raw : PyDict) (c : CreditCardInfo)
    (prefs : Preferences) :
  CreditCardProcessor.process_product raw = Ok c ->
  10 <= CreditCardProcessor.calculate_score c prefs <= 100.
Proof.
  intros Hc. apply process_product_fields in Hc as (Hrate & _).
  split; [|apply credit_card_score_le_100].
  apply card_score_ge_10. intros r Hr. rewrite Hr in Hrate.
  eapply extracted_cashback_nonneg, Hrate.
Qed.

Lemma scored_card_range `{PyBuiltins} (prefs : Preferences) (raw : PyDict)
    (sp : ScoredProduct) :
  FinancialProductManager.score_one CreditCardProcessor.processor prefs raw = Ok sp ->
  10 <= score sp <= 100.
Proof.
  unfold FinancialProductManager.score_one. simpl.
  destruct (CreditCardProcessor.process_product raw) as [c|] eqn:Ec; simpl; [|discriminate].
  intros [= <-]. simpl. eapply processed_card_score_range, Ec.
Qed.

Lemma process_category_cards_range `{PyBuiltins} (cc fd mf : DataLoader)
    (q : string) (prefs : Preferences) (l : list ScoredProduct) :
  FinancialProductManager._process_category cc fd mf CREDIT_CARDS q prefs = Ok l ->
  Forall (fun sp => 10 <= score sp <= 100) l.
Proof.
  unfold FinancialProductManager._process_category, index_by_category. simpl.
  destruct (load_data cc _) as [raw_data|]; simpl; [|discriminate].
  intros Hrank. unfold CreditCardRanker.rank_products in Hrank.
  apply rank_with_spec in Hrank as (_ & scored & Hperm & Hall).
  eapply Permutation_Forall; [symmetry; exact Hperm|].
  eapply (Forall2_transfer _ (fun sp => 10 <= score sp <= 100)
            (fun sp => 10 <= score sp <= 100)); [| exact Hall |].
  - intros a b [_ Hb] Ha.
    change (default ∅ (Some prefs)) with prefs in Hb.
    apply cc_enhanced_bounds in Hb; [|apply Ha]. split; [|apply Hb].
    eapply Qle_trans; [apply Ha | apply Hb].
  - clear. induction raw_data as [|raw raw_data IH]; simpl; [constructor|].
    apply Forall_app. split; [|exact IH].
    destruct (FinancialProductManager.score_one _ _ raw) as [sp|] eqn:E;
      constructor; [|constructor].
    eapply scored_card_range, E.
Qed.

(** A credit card built by [process_product] has a cashback rate that is
    absent or not negative (the patterns capture unsigned numbers only),
    at most 10 features, a welcome benefit of at most 100 characters, and
    no reward rate. *)
Theorem processed_card_invariants `{PyBuiltins} (raw : PyDict) (c : CreditCardInfo) :
  CreditCardProcessor.process_product raw = Ok c ->
  (forall r, cashback_rate c = Some r -> 0 <= r)
  /\ (length (features (cc_info c)) <= 10)%nat
  /\ (forall w, welcome_benefit c = Some w -> (String.length w <= 100)%nat)
  /\ reward_rate c = None.
Proof.
  intros Hc.
  apply process_product_fields in Hc as (Hrate & Hwb & (fs & Hfs & Hstrs) & Hrr).
  repeat split.
  - intros r Hr. rewrite Hr in Hrate. eapply extracted_cashback_nonneg, Hrate.
  - rewrite (all_strs_length _ _ Hstrs). eapply extracted_features_length, Hfs.
  - intros w Hw. rewrite Hw in Hwb. eapply extracted_welcome_length, Hwb.
  - exact Hrr.
Qed.

Lemma processed_card_invariants_witness :
  (forall r, cashback_rate example_card_info = Some r -> 0 <= r)
  /\ (length (features (cc_info example_card_info)) <= 10)%nat
  /\ (forall w, welcome_benefit example_card_info = Some w -> (String.length w <= 100)%nat)
  /\ reward_rate example_card_info = None.
Proof.
  apply (@processed_card_invariants example_builtins example_card example_card_info).
  vm_compute. reflexivity.
Defined.

(** The base score of a credit card built by [process_product] lies
    between 10 and 100, whatever the record and the preferences. *)
Theorem processed_card_score_between_10_and_100 `{PyBuiltins}
    (raw : PyDict) (c : CreditCardInfo) (prefs : Preferences) :
  CreditCardProcessor.process_product raw = Ok c ->
  10 <= CreditCardProcessor.calculate_score c prefs <= 100.
Proof. apply processed_card_score_range. Qed.

Lemma processed_card_score_witness :
  10 <= CreditCardProcessor.calculate_score example_card_info ∅ <= 100.
Proof.
  apply (@processed_card_score_between_10_and_100 example_builtins example_card
           example_card_info ∅).
  vm_compute. reflexivity.
Defined.

(** Every credit card of a recommendation has a score between 10 and
    100, whatever the loaders return, the query, the categories, the
    preferences and [max_results]. *)
Theorem recommended_cards_score_between_10_and_100 `{PyBuiltins}
    (cc fd mf : DataLoader) (q : string) (categories : option (list ProductCategory))
    (prefs : option Preferences) (max_results : Z) :
  Forall (fun sp => category (info (product sp)) = CREDIT_CARDS ->
                    10 <= score sp <= 100)
    (products (FinancialProductManager.recommend_products cc fd mf q categories prefs
                 max_results)).
Proof.
  unfold FinancialProductManager.recommend_products. cbn [products].
  unfold FinancialProductManager._rank_across_categories.
  assert (Hall : forall cats p,
             Forall (fun sp => category (info (product sp)) = CREDIT_CARDS ->
                               10 <= score sp <= 100)
               (FinancialProductManager.collect cc fd mf cats q p)).
  { intros cats p. unfold FinancialProductManager.collect.
    induction cats as [|c cats IH]; simpl; [constructor|].
    apply Forall_app. split; [|exact IH].
    destruct (FinancialProductManager._process_category cc fd mf c q p) as [l|] eqn:E;
      [|constructor].
    destruct (decide (c = CREDIT_CARDS)) as [->|Hne].
    - apply process_category_cards_range in E.
      eapply Forall_impl; [exact E|]. intros sp Hsp _. exact Hsp.
    - apply process_category_tags in E as [_ Htag].
      eapply Forall_impl; [exact Htag|]. intros sp Hsp Hcc. simpl in Hsp. congruence. }
  assert (Hsorted : forall l,
             Forall (fun sp => category (info (product sp)) = CREDIT_CARDS ->
                               10 <= score sp <= 100) l ->
             Forall (fun sp => category (info (product sp)) = CREDIT_CARDS ->
                               10 <= score sp <= 100) (sorted_by_score l)).
  { intros l Hl.
    apply (Permutation_Forall (Permutation_sym (sorted_by_score_perm l))). exact Hl. }
  unfold py_slice_to. destruct (0 <=? max_results)%Z; apply Forall_take, Hsorted, Hall.
Qed.

Lemma collect_cards_range `{PyBuiltins} (cc fd mf : DataLoader)
    (cats : list ProductCategory) (q : string) (prefs : Preferences) :
  Forall (fun c => c = CREDIT_CARDS) cats ->
  Forall (fun sp => 10 <= score sp <= 100)
    (FinancialProductManager.collect cc fd mf cats q prefs).
Proof.
  intros Hcats. unfold FinancialProductManager.collect.
  induction Hcats as [|c cats -> _ IH]; simpl; [constructor|].
  apply Forall_app. split; [|exact IH].
  destruct (FinancialProductManager._process_category cc fd mf CREDIT_CARDS q prefs)
    as [l|] eqn:E; [|constructor].
  eapply process_category_cards_range, E.
Qed.

(** A recommendation for credit cards only: every score is a number
    between 10 and 100, and the products are in non-ascending order of
    score.  Their number is [min(max_results, total_found)] for a
    non-negative [max_results]; a negative [max_results] drops that many
    products from the end instead.  The query is returned as given. *)
Theorem card_recommendation_sorted_and_sized `{PyBuiltins}
    (cc fd mf : DataLoader) (q : string) (cats : list ProductCategory)
    (prefs : option Preferences) (max_results : Z) :
  Forall (fun c => c = CREDIT_CARDS) cats ->
  let r := FinancialProductManager.recommend_products cc fd mf q (Some cats) prefs
             max_results in
  Forall (fun sp => 10 <= score sp <= 100) (products r)
  /\ non_ascending (products r)
  /\ length (products r)
     = (if (0 <=? max_results)%Z
        then Nat.min (Z.to_nat max_results) (total_found r)
        else (total_found r - Z.to_nat (- max_results))%nat)
  /\ query_processed r = q.
Proof.
  intros Hcats.
  unfold FinancialProductManager.recommend_products,
    FinancialProductManager._rank_across_categories.
  cbn [products total_found query_processed].
  split; [|split; [|split; [|reflexivity]]].
  - unfold py_slice_to.
    destruct (0 <=? max_results)%Z; apply Forall_take;
      apply (Permutation_Forall (Permutation_sym (sorted_by_score_perm _)));
      apply collect_cards_range; exact Hcats.
  - unfold py_slice_to.
    destruct (0 <=? max_results)%Z; apply non_ascending_firstn,
      sorted_by_score_non_ascending.
  - rewrite py_slice_to_length, sorted_by_score_length. reflexivity.
Qed.

Lemma card_recommendation_witness :
  let r := @FinancialProductManager.recommend_products example_builtins
             card_loader missing_loader missing_loader "cashback" (Some [CREDIT_CARDS])
             None 5 in
  Forall (fun sp => 10 <= score sp <= 100) (products r)
  /\ non_ascending (products r)
  /\ length (products r)
     = (if (0 <=? 5)%Z
        then Nat.min (Z.to_nat 5) (total_found r)
        else (total_found r - Z.to_nat (- 5))%nat)
  /\ query_processed r = "cashback".
Proof.
  apply (@card_recommendation_sorted_and_sized example_builtins
           card_loader missing_loader missing_loader "cashback" [CREDIT_CARDS] None 5).
  repeat constructor.
Defined.

(** The recommendation of the example holds the one card of the
    loader. *)
Example card_recommendation_size :
  length (products
            (@FinancialProductManager.recommend_products example_builtins
               card_loader missing_loader missing_loader "cashback"
               (Some [CREDIT_CARDS]) None 5)) = 1%nat.
Proof. vm_compute. reflexivity. Qed.

(** ** The fixed-deposit loader *)

Lemma contains_unfold (needle hay : string) :
  contains needle hay
  = if String.prefix needle hay then true
    else match hay with
         | EmptyString => false
         | String _ hay' => contains needle hay'
         end.
Proof. destruct hay; reflexivity. Qed.

Lemma contains_tail (needle : string) (c : ascii) (hay : string) :
  contains needle hay = true -> contains needle (String c hay) = true.
Proof.
  intros Hc. rewrite contains_unfold. destruct (String.prefix _ _); [reflexivity | exact Hc].
Qed.

Lemma prefix_app_contains (a b s : string) :
  String.prefix (a ++ b) s = true -> contains b s = true.
Proof.
  revert s. induction a as [|c a IH]; intros s Hp.
  - change ("" ++ b) with b in Hp. rewrite contains_unfold, Hp. reflexivity.
  - change (String c a ++ b) with (String c (a ++ b)) in Hp.
    destruct s as [|c' s]; simpl in Hp; [discriminate|].
    destruct (ascii_dec c c'); [|discriminate].
    apply contains_tail, IH, Hp.
Qed.

(** A text that contains [a ++ b] contains [b]. *)
Lemma contains_app_r (a b s : string) :
  contains (a ++ b) s = true -> contains b s = true.
Proof.
  induction s as [|c s IH]; rewrite contains_unfold.
  - destruct (String.prefix (a ++ b) "") eqn:Hp; [|discriminate].
    intros _. eapply prefix_app_contains, Hp.
  - destruct (String.prefix (a ++ b) (String c s)) eqn:Hp.
    + intros _. eapply prefix_app_contains, Hp.
    + intros Hc. apply contains_tail, IH, Hc.
Qed.

Lemma length_append (a b : string) :
  String.length (a ++ b) = (String.length a + String.length b)%nat.
Proof.
  induction a as [|c a IH]; [reflexivity|].
  change (String c a ++ b) with (String c (a ++ b)). simpl. rewrite IH. reflexivity.
Qed.

Lemma substring_all (n : nat) (s : string) :
  (String.length s <= n)%nat -> String.substring 0 n s = s.
Proof.
  revert n. induction s as [|c s IH]; intros [|n] Hn; simpl in *; try reflexivity; try lia.
  rewrite IH by lia. reflexivity.
Qed.

Lemma substring_length_exact (n : nat) (s : string) :
  String.length (String.substring 0 n s) = Nat.min n (String.length s).
Proof.
  revert s. induction n as [|n IH]; intros [|c s]; simpl; try reflexivity.
  rewrite IH. reflexivity.
Qed.

(** The end of a text, given its length. *)
Lemma app_suffix (p w x : string) :
  p ++ w = x ->
  w = String.substring (String.length x - String.length w) (String.length w) x.
Proof.
  revert x. induction p as [|c p IH]; intros x Hx.
  - change ("" ++ w) with w in Hx. subst x.
    rewrite Nat.sub_diag. symmetry. apply substring_all. lia.
  - change (String c p ++ w) with (String c (p ++ w)) in Hx. subst x.
    simpl String.length. rewrite length_append.
    replace (S (String.length p + String.length w) - String.length w)%nat
      with (S (String.length p)) by lia.
    simpl. rewrite (IH (p ++ w) eq_refl) at 1. rewrite length_append.
    replace (String.length p + String.length w - String.length w)%nat
      with (String.length p) by lia.
    reflexivity.
Qed.

Lemma append_cons (x : ascii) (a b : string) : String x a ++ b = String x (a ++ b).
Proof. reflexivity. Qed.

Lemma str_append_assoc (a b c : string) : a ++ (b ++ c) = (a ++ b) ++ c.
Proof.
  induction a as [|x a IH]; [reflexivity|].
  rewrite !append_cons, IH. reflexivity.
Qed.

Lemma join_snoc (sep : string) (seen : list string) (w : string) :
  exists p, join sep (seen ++ [w])%list = p ++ w.
Proof.
  induction seen as [|a seen [p IH]].
  - exists "". reflexivity.
  - change ((a :: seen) ++ [w])%list with (a :: (seen ++ [w]))%list.
    destruct (seen ++ [w])%list as [|b l] eqn:E.
    + destruct seen; discriminate.
    + change (join sep (a :: b :: l)) with (a ++ sep ++ join sep (b :: l)).
      rewrite IH. exists (a ++ sep ++ p).
      rewrite <- !str_append_assoc. reflexivity.
Qed.

Lemma lower_length (s : string) : String.length (lower s) = String.length s.
Proof. induction s as [|c s IH]; simpl; congruence. Qed.

(** A company name taken from the words of a text ends with "limited",
    "ltd" or "corporation" (in any case) unless it was cut at 50
    characters. *)
Lemma company_name_from_inv (seen words : list string) (name : string) :
  FixedDepositDataLoader.company_name_from seen words = Some name ->
  String.length name = 50%nat
  \/ exists p w, name = p ++ w
                 /\ In (lower w) ["limited"; "ltd"; "corporation"].
Proof.
  revert seen. induction words as [|word rest IH]; intros seen;
    cbn [FixedDepositDataLoader.company_name_from]; [discriminate|].
  destruct (elem (lower word) ["limited"; "ltd"; "corporation"]) eqn:Ew; [|apply IH].
  destruct (10 <? String.length (join " " (seen ++ [word])%list))%nat; [|apply IH].
  intros [= <-]. unfold str_take.
  destruct (le_lt_dec (String.length (join " " (seen ++ [word])%list)) 50) as [Hle|Hgt].
  - right. rewrite (substring_all _ _ Hle).
    destruct (join_snoc " " seen word) as [p Hp]. exists p, word. split; [exact Hp|].
    unfold elem in Ew. apply existsb_exists in Ew as (x & Hx & Heq).
    apply String.eqb_eq in Heq. subst x. exact Hx.
  - left. rewrite substring_length_exact. lia.
Qed.

Ltac suffix_clash w Hname Hw :=
  apply app_suffix in Hname; rewrite <- (lower_length w), Hw in Hname;
  rewrite Hname in Hw; vm_compute in Hw; discriminate Hw.

Lemma company_name_not_shadowed (seen words : list string) (name : string) :
  FixedDepositDataLoader.company_name_from seen words = Some name ->
  name <> "South Indian Bank" /\ name <> "City Union Bank".
Proof.
  intros Hname. apply company_name_from_inv in Hname as [Hlen | (p & w & Hname & Hw)].
  - split; intros ->; discriminate Hlen.
  - split; intros ->; symmetry in Hname;
      destruct Hw as [Hw|[Hw|[Hw|[]]]]; symmetry in Hw; suffix_clash w Hname Hw.
Qed.

Ltac lower_patterns :=
  repeat match goal with
    | |- context [lower (String ?c ?s)] =>
        let v := eval vm_compute in (lower (String c s)) in
        change (lower (String c s)) with v
    end.

(** The first pattern found in a text, when the text names one of the
    two banks whose pattern comes after a shorter one it contains. *)
Lemma find_pattern_shadowed (t : string) :
  match List.find (fun pattern => contains (lower pattern) t)
          FixedDepositDataLoader.bank_patterns with
  | Some p => p <> "South Indian Bank" /\ p <> "City Union Bank"
  | None => True
  end.
Proof.
  unfold FixedDepositDataLoader.bank_patterns. cbn [List.find]. lower_patterns.
  repeat match goal with
    | |- context [if contains ?p t then _ else _] =>
        lazymatch p with
        | "south indian bank" => fail
        | "city union bank" => fail
        | _ => let E := fresh "E" in
               destruct (contains p t) eqn:E; [split; discriminate|]
        end
    end.
  destruct (contains "south indian bank" t) eqn:Es.
  { apply (contains_app_r "south " "indian bank") in Es. congruence. }
  destruct (contains "city union bank" t) eqn:Ec.
  { apply (contains_app_r "city " "union bank") in Ec. congruence. }
  exact I.
Qed.

Lemma extract_bank_name_not_shadowed (about : PyVal) (name : string) :
  FixedDepositDataLoader._extract_bank_name about = Ok (Some name) ->
  name <> "South Indian Bank" /\ name <> "City Union Bank".
Proof.
  unfold FixedDepositDataLoader._extract_bank_name.
  destruct (negb (truthy about)); [discriminate|].
  unfold mbind, result_bind.
  destruct (py_lower about) as [t|]; [|discriminate].
  pose proof (find_pattern_shadowed t) as Hfind.
  destruct (List.find _ _) as [p|].
  - intros Heq. injection Heq as <-. exact Hfind.
  - destruct (_ || _); [|discriminate].
    destruct about; try discriminate.
    intros Heq. injection Heq as Hname. eapply company_name_not_shadowed, Hname.
Qed.

Lemma contains_nonempty (needle : string) (c : ascii) (rest : string) (hay : string) :
  needle = String c rest -> contains needle hay = true -> hay <> "".
Proof. intros -> Hc ->. discriminate Hc. Qed.

(** A text that names South Indian Bank or City Union Bank is attributed
    to another bank: the pattern of [_extract_bank_name] that is found
    first is a shorter one ("Indian Bank", "Union Bank") or an earlier
    one. *)
Theorem named_bank_is_shadowed (text : string) :
  contains "south indian bank" (lower text) = true
  \/ contains "city union bank" (lower text) = true ->
  exists p,
    FixedDepositDataLoader._extract_bank_name (PStr text) = Ok (Some p)
    /\ In p FixedDepositDataLoader.bank_patterns
    /\ p <> "South Indian Bank" /\ p <> "City Union Bank".
Proof.
  intros Hnamed.
  assert (Htext : String.eqb text "" = false).
  { apply String.eqb_neq. intros ->. destruct Hnamed as [H|H]; discriminate H. }
  unfold FixedDepositDataLoader._extract_bank_name.
  cbn [truthy py_lower]. rewrite Htext. cbn [negb]. unfold mbind, result_bind.
  pose proof (find_pattern_shadowed (lower text)) as Hfind.
  destruct (List.find _ _) as [p|] eqn:Ef.
  - exists p. split; [reflexivity|]. split; [|exact Hfind].
    apply find_some in Ef as [Hin _]. exact Hin.
  - exfalso. destruct Hnamed as [Hs|Hc].
    + apply (contains_app_r "south " "indian bank") in Hs.
      pose proof (find_none _ _ Ef "Indian Bank") as Hnone.
      cbv beta in Hnone.
      change (lower "Indian Bank") with "indian bank" in Hnone.
      rewrite Hs in Hnone. discriminate Hnone.
      unfold FixedDepositDataLoader.bank_patterns. simpl. tauto.
    + apply (contains_app_r "city " "union bank") in Hc.
      pose proof (find_none _ _ Ef "Union Bank") as Hnone.
      cbv beta in Hnone.
      change (lower "Union Bank") with "union bank" in Hnone.
      rewrite Hc in Hnone. discriminate Hnone.
      unfold FixedDepositDataLoader.bank_patterns. simpl. tauto.
Qed.

Lemma named_bank_is_shadowed_witness :
  exists p,
    FixedDepositDataLoader._extract_bank_name
      (PStr "South Indian Bank Ltd offers deposits") = Ok (Some p)
    /\ In p FixedDepositDataLoader.bank_patterns
    /\ p <> "South Indian Bank" /\ p <> "City Union Bank".
Proof.
  apply (named_bank_is_shadowed "South Indian Bank Ltd offers deposits").
  left. vm_compute. reflexivity.
Defined.

Lemma insert_str_In (x y : string) (l : list string) :
  In x (insert_str y l) -> x = y \/ In x l.
Proof.
  induction l as [|z l IH]; simpl.
  - intros [<-|[]]. left; reflexivity.
  - destruct (String.ltb z y); simpl.
    + intros [<-|Hin]; [right; left; reflexivity|].
      destruct (IH Hin); [left | right; right]; assumption.
    + intros [<-|Hin]; [left; reflexivity | right; exact Hin].
Qed.

Lemma sorted_strs_In (x : string) (l : list string) :
  In x (sorted_strs l) -> In x l.
Proof.
  induction l as [|y l IH]; simpl; [tauto|].
  intros Hin. apply insert_str_In in Hin as [->|Hin]; [left; reflexivity|].
  right. apply IH, Hin.
Qed.

Lemma collect_banks_inv (P : string -> Prop) (fds : list PyVal) (banks banks' : gset string) :
  (forall about name,
      FixedDepositDataLoader._extract_bank_name about = Ok (Some name) -> P name) ->
  FixedDepositDataLoader.collect_banks fds banks = Ok banks' ->
  (forall x, x ∈ banks -> P x) ->
  forall x, x ∈ banks' -> P x.
Proof.
  intros HP. revert banks. induction fds as [|fd rest IH]; intros banks; simpl.
  - intros [= <-]. auto.
  - destruct (py_get fd "about" (PStr "")) as [about|]; simpl; [|discriminate].
    destruct (truthy about).
    + destruct (FixedDepositDataLoader._extract_bank_name about) as [[name|]|] eqn:E;
        simpl; try discriminate.
      * intros Hrest Hbanks. eapply IH; [exact Hrest|].
        destruct (negb (String.eqb name "")); [|exact Hbanks].
        intros x Hx. apply elem_of_union in Hx as [Hx|Hx]; [|auto].
        apply elem_of_singleton in Hx. subst x. eapply HP, E.
      * intros Hrest Hbanks. eapply IH; eassumption.
    + simpl. intros Hrest Hbanks. eapply IH; eassumption.
Qed.

(** [get_available_sources] never lists South Indian Bank nor City Union
    Bank, whatever the file holds. *)
Theorem shadowed_banks_never_listed (fd_file : result (list PyVal)) :
  ~ In "South Indian Bank" (FixedDepositDataLoader.get_available_sources fd_file)
  /\ ~ In "City Union Bank" (FixedDepositDataLoader.get_available_sources fd_file).
Proof.
  unfold FixedDepositDataLoader.get_available_sources.
  destruct (FixedDepositDataLoader.load_data fd_file PNone) as [all_fds|]; simpl;
    [|tauto].
  destruct (FixedDepositDataLoader.collect_banks all_fds ∅) as [banks|] eqn:E; simpl;
    [|tauto].
  pose proof (collect_banks_inv
                (fun name => name <> "South Indian Bank" /\ name <> "City Union Bank")
                all_fds ∅ banks extract_bank_name_not_shadowed E) as Hinv.
  assert (Hall : forall x, x ∈ banks ->
                           x <> "South Indian Bank" /\ x <> "City Union Bank").
  { apply Hinv. intros x Hx. apply elem_of_empty in Hx. destruct Hx. }
  split; intros Hin; apply sorted_strs_In in Hin;
    apply list_elem_of_In, elem_of_elements, Hall in Hin; tauto.
Qed.

(** The record of [south_indian_file] is listed under "Indian Bank". *)
Example south_indian_file_sources :
  FixedDepositDataLoader.get_available_sources south_indian_file = ["Indian Bank"].
Proof. vm_compute. reflexivity. Qed.

(** ** The features of a fixed deposit *)

Lemma search_capture (r : regex) (s g : string) :
  groups_digit r = true -> search r s = Some g -> g = "" \/ starts_with_digit g.
Proof.
  intros Hwf. induction s as [|c s IH]; simpl.
  - destruct (match_here r "") as [[rest g']|] eqn:E; [|discriminate].
    intros [= <-]. eapply match_here_capture; eassumption.
  - destruct (match_here r (String c s)) as [[rest g']|] eqn:E; [|exact IH].
    intros [= <-]. eapply match_here_capture; eassumption.
Qed.

Lemma first_positive_spec (sources : list PyVal) (v : PyVal) :
  FixedDepositFeatures.first_positive sources = Some v ->
  FixedDepositFeatures.is_positive_number v = true.
Proof. intros Hf. apply find_some in Hf as [_ Hv]. exact Hv. Qed.

Lemma positive_number_float (v : PyVal) (q : Q) :
  FixedDepositFeatures.is_positive_number v = true -> py_float v = Ok q -> 0 < q.
Proof.
  destruct v as [|[]|z|x| | |]; simpl; try discriminate.
  - intros _ [= <-]. reflexivity.
  - intros Hz [= <-]. apply Z.ltb_lt in Hz.
    change 0 with (inject_Z 0). rewrite <- Zlt_Qlt. exact Hz.
  - intros Hx [= <-]. apply Qlt_bool_iff, Hx.
Qed.

Lemma positive_number_int (v : PyVal) (z : Z) :
  FixedDepositFeatures.is_positive_number v = true -> py_int v = Ok z -> (0 <= z)%Z.
Proof.
  destruct v as [|[]|n|x| | |]; simpl; try discriminate.
  - intros _ [= <-]. lia.
  - intros Hn [= <-]. apply Z.ltb_lt in Hn. lia.
  - intros Hx [= <-]. apply Qlt_bool_iff in Hx.
    destruct (Qle_bool 0 x) eqn:E.
    + change 0%Z with (Qfloor 0). apply Qfloor_resp_le. apply Qlt_le_weak, Hx.
    + apply Qlt_le_weak, Qle_bool_iff in Hx. congruence.
Qed.

Lemma interest_rate_nonneg (raw : PyDict) (q : Q) :
  FixedDepositFeatures._extract_interest_rate raw = Ok q -> 0 <= q.
Proof.
  unfold FixedDepositFeatures._extract_interest_rate.
  destruct (FixedDepositFeatures.first_positive _) as [rate|] eqn:Ef.
  - intros Hq. apply Qlt_le_weak.
    eapply positive_number_float; [eapply first_positive_spec, Ef | exact Hq].
  - unfold mbind, result_bind. destruct (py_lower _) as [d|]; [|discriminate].
    destruct (search _ d) as [g|] eqn:Es.
    + intros Hq. apply search_capture in Es as [->|Hg]; [discriminate Hq | | reflexivity].
      eapply float_of_digits_nonneg; eassumption.
    + intros [= <-]. apply Qle_refl.
Qed.

Lemma senior_rate_nonneg (raw : PyDict) (q : Q) :
  FixedDepositFeatures._extract_senior_rate raw = Ok q -> 0 <= q.
Proof.
  unfold FixedDepositFeatures._extract_senior_rate.
  destruct (FixedDepositFeatures.first_positive _) as [rate|] eqn:Ef.
  - intros Hq. apply Qlt_le_weak.
    eapply positive_number_float; [eapply first_positive_spec, Ef | exact Hq].
  - apply interest_rate_nonneg.
Qed.

Lemma tenure_nonneg (raw : PyDict) (tenure_type : string) (z : Z) :
  FixedDepositFeatures._extract_tenure raw tenure_type = Ok z -> (0 <= z)%Z.
Proof.
  unfold FixedDepositFeatures._extract_tenure.
  destruct (FixedDepositFeatures.first_positive _) as [tenure|] eqn:Ef.
  - intros Hz. eapply positive_number_int; [eapply first_positive_spec, Ef | exact Hz].
  - destruct (String.eqb tenure_type "min"); intros [= <-]; lia.
Qed.

Lemma deposit_limit_positive (raw : PyDict) (limit_type : string) (v : PyVal) :
  FixedDepositFeatures._extract_deposit_limit raw limit_type = Ok v ->
  exists q, py_num v = Ok q /\ 0 < q.
Proof.
  unfold FixedDepositFeatures._extract_deposit_limit.
  destruct (String.eqb limit_type "min");
    (destruct (FixedDepositFeatures.first_positive _) as [limit|] eqn:Ef;
     [ unfold mbind, result_bind;
       destruct (py_float limit) as [q|] eqn:Eq; [|discriminate];
       intros [= <-]; exists q; split; [reflexivity|];
       eapply positive_number_float; [eapply first_positive_spec, Ef | exact Eq]
     | intros [= <-]; eexists; split; reflexivity ]).
Qed.

Lemma credit_rating_positive (raw : PyDict) (q : Q) :
  FixedDepositFeatures._extract_credit_rating raw = Ok q -> 0 < q.
Proof.
  unfold FixedDepositFeatures._extract_credit_rating.
  destruct (FixedDepositFeatures.first_positive _) as [rating|] eqn:Ef.
  - intros Hq. eapply positive_number_float; [eapply first_positive_spec, Ef | exact Hq].
  - unfold mbind, result_bind.
    destruct (FixedDepositFeatures._extract_bank_type raw) as [bt|]; [|discriminate].
    destruct (String.eqb bt "Public"); [intros [= <-]; reflexivity|].
    destruct (String.eqb bt "Private"); intros [= <-]; reflexivity.
Qed.

Lemma rate_premium_nonneg (features : PyDict) (v : PyVal) :
  FixedDepositFeatures._calculate_rate_premium features = Ok v ->
  exists q, py_num v = Ok q /\ 0 <= q.
Proof.
  unfold FixedDepositFeatures._calculate_rate_premium, mbind, result_bind.
  destruct (py_lookup _ _) as [found|]; [|discriminate].
  destruct (py_num _) as [ir|]; [|discriminate].
  destruct (Qlt_bool 0 _) eqn:E; intros [= <-]; eexists; (split; [reflexivity|]).
  - apply Qlt_le_weak, Qlt_bool_iff, E.
  - apply Qle_refl.
Qed.

Lemma flexibility_score_range (features : PyDict) (min_tenure max_deposit q : Q) :
  py_num (dict_get_default features "min_tenure_days" (PInt 365)) = Ok min_tenure ->
  py_num (dict_get_default features "max_deposit_crores" (PInt 1)) = Ok max_deposit ->
  0 < max_deposit ->
  FixedDepositFeatures._calculate_flexibility_score features = Ok q ->
  0 < q /\ (0 <= min_tenure -> q <= 5).
Proof.
  intros Ht Hd Hpos. unfold FixedDepositFeatures._calculate_flexibility_score.
  rewrite Ht, Hd. unfold mbind, result_bind. intros [= <-].
  assert (Ht365 : min_tenure / 365 == min_tenure * (1 # 365)) by (field; discriminate).
  assert (Hd20 : max_deposit / 20 == max_deposit * (1 # 20)) by (field; discriminate).
  assert (Hhalf : forall x, x / 2 == x * (1 # 2)) by (intros; field; discriminate).
  rewrite Hhalf.
  destruct (Qlt_bool 0 (5 - min_tenure / 365)) eqn:E1;
    destruct (Qlt_bool (max_deposit / 20) 5) eqn:E2;
    try (apply Qlt_bool_iff in E1); try (apply Qlt_bool_false in E1);
    try (apply Qlt_bool_iff in E2); try (apply Qlt_bool_false in E2);
    rewrite ?Ht365, ?Hd20 in *; split; try intros Hmin; lra.
Qed.

Ltac lookup_key :=
  repeat (rewrite lookup_insert_ne by discriminate); rewrite lookup_insert_eq.

(** Every numeric feature that [extract_features] returns is in range,
    whatever the raw record holds: rates, tenures and the rate premium
    are not negative, deposit limits and the credit rating are
    positive, and the flexibility score is between 0 and 5. *)
Theorem extracted_features_in_range (raw : PyDict) (features : PyDict) :
  FixedDepositFeatures.extract_features raw = Ok features ->
  number_at features "interest_rate" (fun q => 0 <= q)
  /\ number_at features "senior_citizen_rate" (fun q => 0 <= q)
  /\ number_at features "min_tenure_days" (fun q => 0 <= q)
  /\ number_at features "max_tenure_days" (fun q => 0 <= q)
  /\ number_at features "min_deposit" (fun q => 0 < q)
  /\ number_at features "max_deposit_crores" (fun q => 0 < q)
  /\ number_at features "credit_rating" (fun q => 0 < q)
  /\ number_at features "rate_premium" (fun q => 0 <= q)
  /\ number_at features "flexibility_score" (fun q => 0 <= q <= 5).
Proof.
  unfold FixedDepositFeatures.extract_features, mbind, result_bind. cbv zeta.
  destruct (FixedDepositFeatures._extract_interest_rate raw) as [ir|] eqn:Eir;
    [|discriminate].
  destruct (FixedDepositFeatures._extract_senior_rate raw) as [sr|] eqn:Esr;
    [|discriminate].
  destruct (FixedDepositFeatures._extract_tenure raw "min") as [tmin|] eqn:Etmin;
    [|discriminate].
  destruct (FixedDepositFeatures._extract_tenure raw "max") as [tmax|] eqn:Etmax;
    [|discriminate].
  destruct (FixedDepositFeatures._extract_deposit_limit raw "min") as [dmin|] eqn:Edmin;
    [|discriminate].
  destruct (FixedDepositFeatures._extract_deposit_limit raw "max") as [dmax|] eqn:Edmax;
    [|discriminate].
  destruct (FixedDepositFeatures._extract_bank_type raw) as [bt|] eqn:Ebt;
    [|discriminate].
  destruct (FixedDepositFeatures._extract_credit_rating raw) as [cr|] eqn:Ecr;
    [|discriminate].
  destruct (FixedDepositFeatures._calculate_rate_premium _) as [rp|] eqn:Erp;
    [|discriminate].
  destruct (FixedDepositFeatures._calculate_flexibility_score _) as [fl|] eqn:Efl;
    [|discriminate].
  intros [= <-].
  apply interest_rate_nonneg in Eir. apply senior_rate_nonneg in Esr.
  apply tenure_nonneg in Etmin. apply tenure_nonneg in Etmax.
  apply deposit_limit_positive in Edmin as (qmin & Hqmin & Hmin).
  apply deposit_limit_positive in Edmax as (qmax & Hqmax & Hmax).
  apply credit_rating_positive in Ecr.
  apply rate_premium_nonneg in Erp as (qrp & Hqrp & Hrp).
  apply (flexibility_score_range _ (inject_Z tmin) qmax) in Efl;
    [ | unfold dict_get_default; lookup_key; reflexivity
      | unfold dict_get_default; lookup_key; exact Hqmax
      | exact Hmax ].
  destruct Efl as [Hfl0 Hfl5].
  assert (Htmin : 0 <= inject_Z tmin).
  { change 0 with (inject_Z 0). rewrite <- Zle_Qle. exact Etmin. }
  assert (Htmax : 0 <= inject_Z tmax).
  { change 0 with (inject_Z 0). rewrite <- Zle_Qle. exact Etmax. }
  unfold number_at.
  repeat split.
  - exists (PFloat ir), ir. lookup_key. auto.
  - exists (PFloat sr), sr. lookup_key. auto.
  - exists (PInt tmin), (inject_Z tmin). lookup_key. auto.
  - exists (PInt tmax), (inject_Z tmax). lookup_key. auto.
  - exists dmin, qmin. lookup_key. auto.
  - exists dmax, qmax. lookup_key. auto.
  - exists (PFloat cr), cr. lookup_key. auto.
  - exists rp, qrp. lookup_key. auto.
  - exists (PFloat fl), fl. lookup_key.
    repeat split; [apply Qlt_le_weak, Hfl0 | apply Hfl5, Htmin].
Qed.

Lemma extracted_features_witness :
  number_at described_deposit_features "interest_rate" (fun q => 0 <= q)
  /\ number_at described_deposit_features "senior_citizen_rate" (fun q => 0 <= q)
  /\ number_at described_deposit_features "min_tenure_days" (fun q => 0 <= q)
  /\ number_at described_deposit_features "max_tenure_days" (fun q => 0 <= q)
  /\ number_at described_deposit_features "min_deposit" (fun q => 0 < q)
  /\ number_at described_deposit_features "max_deposit_crores" (fun q => 0 < q)
  /\ number_at described_deposit_features "credit_rating" (fun q => 0 < q)
  /\ number_at described_deposit_features "rate_premium" (fun q => 0 <= q)
  /\ number_at described_deposit_features "flexibility_score" (fun q => 0 <= q <= 5).
Proof.
  apply (extracted_features_in_range described_deposit described_deposit_features).
  vm_compute. reflexivity.
Defined.

(** The deposit of the example: the rate is read from the description,
    and a tenure of half a day becomes 0 days. *)
Example described_deposit_values :
  described_deposit_features !! "interest_rate" = Some (PFloat (725 # 100))
  /\ described_deposit_features !! "min_tenure_days" = Some (PInt 0)
  /\ described_deposit_features !! "bank_type" = Some (PStr "Private").
Proof. vm_compute. repeat split; reflexivity. Qed.

(** ** Soundness of the matcher *)

Lemma strip_prefix_app (p s s' : string) : strip_prefix p s = Some s' -> s = p ++ s'.
Proof.
  revert s. induction p as [|a p IH]; intros s; simpl.
  - intros [= <-]. reflexivity.
  - destruct s as [|b s]; [discriminate|].
    destruct (Ascii.eqb a b) eqn:E; [|discriminate].
    apply Ascii.eqb_eq in E. subst b. intros Hs. rewrite append_cons. f_equal. apply IH, Hs.
Qed.

Lemma substring_prefix_app (a b : string) :
  String.substring 0 (String.length (a ++ b) - String.length b) (a ++ b) = a.
Proof.
  rewrite length_append.
  replace (String.length a + String.length b - String.length b)%nat
    with (String.length a) by lia.
  induction a as [|c a IH].
  - destruct b; reflexivity.
  - rewrite append_cons. simpl. rewrite IH. reflexivity.
Qed.

(** A successful match consumes a text of the language of [r]; the
    capture it hands on satisfies [P], and is set once a group has been
    passed. *)
Lemma rmatch_sound {X} (P : string -> Prop) (r : regex) :
  groups_sat P r ->
  forall (s : string) (cap : option string)
         (k : string -> option string -> option X) (x : X),
    capture_sat P cap ->
    rmatch r s cap k = Some x ->
    exists pre s1 c1,
      k s1 c1 = Some x
      /\ s = pre ++ s1
      /\ lang r pre
      /\ capture_sat P c1
      /\ (is_Some cap \/ sets_group r = true -> is_Some c1).
Proof.
  induction r as [p| | |cs sp|r1 IH1 r2 IH2|r1 IH1|r1 IH1|r1 IH1];
    intros Hwf s cap k x Hcap Hm; simpl in Hm.
  - destruct (strip_prefix p s) as [s'|] eqn:E; [|discriminate].
    exists p, s', cap. repeat split; auto.
    + apply strip_prefix_app, E.
    + intros [Hc|Hc]; [exact Hc | discriminate Hc].
  - destruct s as [|c s']; [discriminate|].
    destruct (is_digit c) eqn:Ec; [|discriminate].
    exists (String c ""), s', cap. repeat split; auto.
    + exists c. split; [reflexivity | exact Ec].
    + intros [Hc|Hc]; [exact Hc | discriminate Hc].
  - destruct s as [|c s']; [discriminate|].
    destruct (Ascii.is_space c) eqn:Ec; [|discriminate].
    exists (String c ""), s', cap. repeat split; auto.
    + exists c. split; [reflexivity | exact Ec].
    + intros [Hc|Hc]; [exact Hc | discriminate Hc].
  - destruct s as [|c s']; [discriminate|].
    destruct (existsb (Ascii.eqb c) cs || (sp && Ascii.is_space c)) eqn:Ec;
      [|discriminate].
    exists (String c ""), s', cap. repeat split; auto.
    + exists c. split; [reflexivity | exact Ec].
    + intros [Hc|Hc]; [exact Hc | discriminate Hc].
  - destruct Hwf as [Hwf1 Hwf2].
    apply (IH1 Hwf1) in Hm as (pre1 & s1 & c1 & Hk1 & Hs1 & Hl1 & Hc1 & Hset1);
      [|exact Hcap].
    apply (IH2 Hwf2) in Hk1 as (pre2 & s2 & c2 & Hk2 & Hs2 & Hl2 & Hc2 & Hset2);
      [|exact Hc1].
    exists (pre1 ++ pre2), s2, c2. repeat split; auto.
    + rewrite Hs1, Hs2. apply str_append_assoc.
    + exists pre1, pre2. auto.
    + simpl. intros [Hc|Hc].
      * apply Hset2. left. apply Hset1. left. exact Hc.
      * apply orb_true_iff in Hc as [Hc|Hc].
        -- apply Hset2. left. apply Hset1. right. exact Hc.
        -- apply Hset2. right. exact Hc.
  - simpl in Hwf.
    destruct (rmatch r1 s cap k) as [y|] eqn:E.
    + injection Hm as ->.
      apply (IH1 Hwf) in E as (pre & s1 & c1 & Hk1 & Hs1 & Hl1 & Hc1 & Hset1);
        [|exact Hcap].
      exists pre, s1, c1. repeat split; auto.
      * right. exact Hl1.
      * intros [Hc|Hc]; [apply Hset1; left; exact Hc | discriminate Hc].
    + exists "", s, cap. repeat split; auto.
      * left. reflexivity.
      * intros [Hc|Hc]; [exact Hc | discriminate Hc].
  - simpl in Hwf.
    cut (exists pre s1 c1,
            k s1 c1 = Some x /\ s = pre ++ s1 /\ lang (RStar r1) pre
            /\ capture_sat P c1 /\ (is_Some cap -> is_Some c1)).
    { intros (pre & s1 & c1 & ? & ? & ? & ? & Hset). exists pre, s1, c1.
      repeat split; auto. intros [Hc|Hc]; [auto | discriminate Hc]. }
    revert Hm. generalize (String.length s) at 1. intros fuel.
    revert s cap Hcap. induction fuel as [|fuel IHfuel]; intros s cap Hcap Hm.
    + exists "", s, cap. repeat split; auto. exists []. split; [reflexivity | constructor].
    + match type of Hm with
      | match ?m with _ => _ end = _ => destruct m as [y|] eqn:E
      end.
      * injection Hm as ->.
        apply (IH1 Hwf) in E as (pre1 & s1 & c1 & Hk1 & Hs1 & Hl1 & Hc1 & Hset1);
          [|exact Hcap].
        destruct (String.length s1 <? String.length s)%nat; [|discriminate].
        apply IHfuel in Hk1 as (pre2 & s2 & c2 & Hk2 & Hs2 & (ws & Hws & Hall) & Hc2 & Hset2);
          [|exact Hc1].
        exists (pre1 ++ pre2), s2, c2. repeat split; auto.
        -- rewrite Hs1, Hs2. apply str_append_assoc.
        -- exists (pre1 :: ws). split; [simpl; rewrite Hws; reflexivity|].
           constructor; assumption.
      * exists "", s, cap. repeat split; auto.
        exists []. split; [reflexivity | constructor].
  - destruct Hwf as [HP Hwf].
    apply (IH1 Hwf) in Hm as (pre & s1 & c1 & Hk1 & Hs1 & Hl1 & Hc1 & Hset1);
      [|exact Hcap].
    rewrite Hs1, substring_prefix_app in Hk1.
    exists pre, s1, (Some pre).
    repeat split; auto; try (apply HP, Hl1); try (intros _; eexists; reflexivity).
Qed.

Lemma match_here_sound (P : string -> Prop) (r : regex) (s rest g : string) :
  groups_sat P r -> sets_group r = true ->
  match_here r s = Some (rest, g) -> P g.
Proof.
  intros Hwf Hset Hm. unfold match_here in Hm.
  apply (rmatch_sound P r Hwf) in Hm as (pre & s1 & c1 & Hk & _ & _ & Hc1 & Hsome);
    [|exact I].
  destruct (Hsome (or_intror Hset)) as [g0 ->].
  injection Hk as _ <-. exact Hc1.
Qed.

Lemma search_sound (P : string -> Prop) (r : regex) (s g : string) :
  groups_sat P r -> sets_group r = true -> search r s = Some g -> P g.
Proof.
  intros Hwf Hset. induction s as [|c s IH]; simpl.
  - destruct (match_here r "") as [[rest g']|] eqn:E; [|discriminate].
    intros [= <-]. eapply match_here_sound; eassumption.
  - destruct (match_here r (String c s)) as [[rest g']|] eqn:E; [|exact IH].
    intros [= <-]. eapply match_here_sound; eassumption.
Qed.

(** ** Numbers in captured text *)

Lemma all_digits_app (a b : string) :
  all_digits (a ++ b) = all_digits a && all_digits b.
Proof.
  induction a as [|c a IH]; [reflexivity|].
  rewrite append_cons. simpl. rewrite IH, andb_assoc. reflexivity.
Qed.

Lemma lang_star_digits (w : string) : lang (RStar RDigit) w -> all_digits w = true.
Proof.
  intros (ws & -> & Hall). induction Hall as [|d ws (c & -> & Hc) _ IH]; [reflexivity|].
  simpl fold_right. rewrite append_cons. simpl. rewrite Hc. exact IH.
Qed.

Lemma lang_plus_digits (w : string) :
  lang (RPlus RDigit) w -> w <> "" /\ all_digits w = true.
Proof.
  intros (a & b & -> & (c & -> & Hc) & Hb). apply lang_star_digits in Hb.
  rewrite append_cons. split; [discriminate|]. simpl. rewrite Hc. exact Hb.
Qed.

Lemma lang_number (w : string) : lang number_re w -> is_number_text w.
Proof.
  intros (a & b & -> & Ha & Hb). apply lang_plus_digits in Ha as [Hne Hda].
  exists a. split; [exact Hne|]. split; [exact Hda|].
  destruct Hb as [->|(dot & b' & -> & Hdot & Hb')].
  - left. apply append_empty.
  - simpl in Hdot. subst dot. apply lang_plus_digits in Hb' as [Hne' Hdb].
    right. exists b'. auto.
Qed.

Lemma all_digits_no_space (s : string) : all_digits s = true -> no_space s = true.
Proof.
  induction s as [|c s IH]; simpl; [reflexivity|].
  intros Hd. apply andb_true_iff in Hd as [Hc Hs].
  rewrite (digit_not_space c Hc). simpl. apply IH, Hs.
Qed.

Lemma no_space_app (a b : string) : no_space (a ++ b) = no_space a && no_space b.
Proof.
  induction a as [|c a IH]; [reflexivity|].
  rewrite append_cons. simpl. rewrite IH, andb_assoc. reflexivity.
Qed.

Lemma rstrip_no_space (s : string) : no_space s = true -> rstrip s = s.
Proof.
  induction s as [|c s IH]; simpl; [reflexivity|].
  intros Hs. apply andb_true_iff in Hs as [Hc Hs]. rewrite (IH Hs).
  apply negb_true_iff in Hc. rewrite Hc. destruct s; reflexivity.
Qed.

Lemma strip_no_space (s : string) : no_space s = true -> strip s = s.
Proof.
  intros Hs. unfold strip.
  assert (Hl : lstrip s = s).
  { destruct s as [|c s]; [reflexivity|]. simpl in *.
    apply andb_true_iff in Hs as [Hc _]. apply negb_true_iff in Hc.
    rewrite Hc. reflexivity. }
  rewrite Hl. apply rstrip_no_space, Hs.
Qed.

(** The leading digits of a run of digits followed by [rest]. *)
Lemma take_digits_app (a rest : string) :
  all_digits a = true ->
  exists ds, length ds = String.length a
             /\ take_digits (a ++ rest)
                = ((ds ++ fst (take_digits rest))%list, snd (take_digits rest)).
Proof.
  induction a as [|c a IH]; intros Ha.
  - exists []. split; [reflexivity|]. change ("" ++ rest) with rest.
    destruct (take_digits rest); reflexivity.
  - simpl in Ha. apply andb_true_iff in Ha as [Hc Ha].
    destruct (IH Ha) as (ds & Hlen & Htake).
    unfold is_digit in Hc. destruct (digit_of c) as [d|] eqn:Ed; [|discriminate].
    exists (d :: ds). split; [simpl; congruence|].
    rewrite append_cons. simpl. rewrite Ed, Htake. reflexivity.
Qed.

(** [float] of a number text does not fail. *)
Lemma float_of_number_text (g : string) :
  is_number_text g -> exists q, float_of_str g = Ok q.
Proof.
  intros (a & Hne & Hda & Hg).
  assert (Hhead : exists c a', a = String c a' /\ is_digit c = true).
  { destruct a as [|c a']; [congruence|]. simpl in Hda.
    apply andb_true_iff in Hda as [Hc _]. eauto. }
  destruct Hhead as (c & a' & Ea & Hc). subst a.
  unfold float_of_str.
  destruct Hg as [->|(b & Hbne & Hdb & ->)].
  - rewrite (strip_no_space _ (all_digits_no_space _ Hda)).
    rewrite (digit_not_sign c a' Hc).
    destruct (take_digits_app (String c a') "" Hda) as (ds & Hlen & Htake).
    rewrite append_empty in Htake. rewrite Htake. simpl.
    rewrite app_nil_r.
    destruct ds as [|d ds]; [discriminate Hlen|].
    simpl. eexists; reflexivity.
  - rewrite strip_no_space.
    2:{ rewrite !no_space_app, (all_digits_no_space _ Hda), (all_digits_no_space b Hdb).
        reflexivity. }
    rewrite append_cons, (digit_not_sign c _ Hc), <- append_cons.
    destruct (take_digits_app (String c a') ("." ++ b) Hda) as (ds & Hlen & Htake).
    rewrite Htake. change (take_digits ("." ++ b)) with ([] : list Z, "." ++ b).
    cbn [fst snd]. rewrite app_nil_r.
    change ("." ++ b) with (String "." b).
    destruct (take_digits_app b "" Hdb) as (ds' & Hlen' & Htake').
    rewrite append_empty in Htake'. rewrite Htake'. simpl.
    rewrite app_nil_r.
    destruct ds as [|d ds]; [discriminate Hlen|].
    simpl. eexists; reflexivity.
Qed.

(** ** When [extract_features] fails *)

Lemma interest_re_groups : groups_sat is_number_text FixedDepositFeatures.interest_re.
Proof.
  unfold FixedDepositFeatures.interest_re. cbn [rseq groups_sat].
  repeat split; try exact I. apply lang_number.
Qed.

Lemma py_lower_failure (v : PyVal) (e : PyExn) :
  py_lower v = Raise e -> e = AttributeError /\ ~ exists s, v = PStr s.
Proof.
  destruct v; simpl; try discriminate;
    intros [= <-]; (split; [reflexivity | intros [s Hs]; discriminate Hs]).
Qed.

Lemma py_title_failure (v : PyVal) (e : PyExn) :
  py_title v = Raise e -> e = AttributeError /\ ~ exists s, v = PStr s.
Proof.
  destruct v; simpl; try discriminate;
    intros [= <-]; (split; [reflexivity | intros [s Hs]; discriminate Hs]).
Qed.

Lemma positive_number_float_ok (v : PyVal) :
  FixedDepositFeatures.is_positive_number v = true -> exists q, py_float v = Ok q.
Proof. destruct v; simpl; try discriminate; eauto. Qed.

Lemma positive_number_int_ok (v : PyVal) :
  FixedDepositFeatures.is_positive_number v = true -> exists z, py_int v = Ok z.
Proof. destruct v; simpl; try discriminate; eauto. Qed.

Lemma interest_rate_failure (raw : PyDict) (e : PyExn) :
  FixedDepositFeatures._extract_interest_rate raw = Raise e ->
  e = AttributeError /\ ~ str_or_absent raw "description".
Proof.
  unfold FixedDepositFeatures._extract_interest_rate.
  destruct (FixedDepositFeatures.first_positive _) as [rate|] eqn:Ef.
  - apply first_positive_spec, positive_number_float_ok in Ef as [q ->]. discriminate.
  - unfold mbind, result_bind.
    destruct (py_lower _) as [d|e'] eqn:El.
    + destruct (search _ d) as [g|] eqn:Es; [|discriminate].
      apply (search_sound is_number_text) in Es;
        [| apply interest_re_groups | reflexivity].
      apply float_of_number_text in Es as [q ->]. discriminate.
    + intros [= <-]. apply py_lower_failure in El. exact El.
Qed.

Lemma senior_rate_failure (raw : PyDict) (e : PyExn) :
  FixedDepositFeatures._extract_senior_rate raw = Raise e ->
  e = AttributeError /\ ~ str_or_absent raw "description".
Proof.
  unfold FixedDepositFeatures._extract_senior_rate.
  destruct (FixedDepositFeatures.first_positive _) as [rate|] eqn:Ef.
  - apply first_positive_spec, positive_number_float_ok in Ef as [q ->]. discriminate.
  - apply interest_rate_failure.
Qed.

Lemma tenure_ok (raw : PyDict) (tenure_type : string) :
  exists z, FixedDepositFeatures._extract_tenure raw tenure_type = Ok z.
Proof.
  unfold FixedDepositFeatures._extract_tenure.
  destruct (FixedDepositFeatures.first_positive _) as [tenure|] eqn:Ef.
  - apply first_positive_spec, positive_number_int_ok in Ef. exact Ef.
  - eexists; reflexivity.
Qed.

Lemma deposit_limit_ok (raw : PyDict) (limit_type : string) :
  exists v, FixedDepositFeatures._extract_deposit_limit raw limit_type = Ok v.
Proof.
  unfold FixedDepositFeatures._extract_deposit_limit.
  destruct (String.eqb limit_type "min");
    (destruct (FixedDepositFeatures.first_positive _) as [limit|] eqn:Ef;
     [ apply first_positive_spec, positive_number_float_ok in Ef as [q ->];
       eexists; reflexivity
     | eexists; reflexivity ]).
Qed.

Lemma bank_type_failure (raw : PyDict) (e : PyExn) :
  FixedDepositFeatures._extract_bank_type raw = Raise e ->
  e = AttributeError
  /\ (~ str_or_absent raw "bank_type" \/ ~ str_or_absent raw "bank_name").
Proof.
  unfold FixedDepositFeatures._extract_bank_type.
  destruct (truthy _).
  - intros Ht. apply py_title_failure in Ht as [-> Hn]. split; [reflexivity|].
    left. exact Hn.
  - unfold mbind, result_bind. destruct (py_lower _) as [b|e'] eqn:El.
    + destruct (any _ FixedDepositFeatures.private_banks); [discriminate|].
      destruct (any _ FixedDepositFeatures.public_banks); discriminate.
    + intros [= <-]. apply py_lower_failure in El as [-> Hn]. split; [reflexivity|].
      right. exact Hn.
Qed.

Lemma credit_rating_failure (raw : PyDict) (e : PyExn) :
  FixedDepositFeatures._extract_credit_rating raw = Raise e ->
  e = AttributeError
  /\ (~ str_or_absent raw "bank_type" \/ ~ str_or_absent raw "bank_name").
Proof.
  unfold FixedDepositFeatures._extract_credit_rating.
  destruct (FixedDepositFeatures.first_positive _) as [rating|] eqn:Ef.
  - apply first_positive_spec, positive_number_float_ok in Ef as [q ->]. discriminate.
  - unfold mbind, result_bind.
    destruct (FixedDepositFeatures._extract_bank_type raw) as [bt|e'] eqn:Eb.
    + destruct (String.eqb bt "Public"); [discriminate|].
      destruct (String.eqb bt "Private"); discriminate.
    + intros [= <-]. apply bank_type_failure, Eb.
Qed.

(** [extract_features] can only raise [AttributeError], and only for a
    record whose description, bank type or bank name is present and not
    a string: no number it reads or captures makes it fail. *)
Theorem extract_features_fails_only_on_non_strings (raw : PyDict) (e : PyExn) :
  FixedDepositFeatures.extract_features raw = Raise e ->
  e = AttributeError
  /\ ~ (str_or_absent raw "description" /\ str_or_absent raw "bank_type"
        /\ str_or_absent raw "bank_name").
Proof.
  unfold FixedDepositFeatures.extract_features, mbind, result_bind. cbv zeta.
  destruct (FixedDepositFeatures._extract_interest_rate raw) as [ir|] eqn:Eir.
  2:{ intros [= <-]. apply interest_rate_failure in Eir. tauto. }
  destruct (FixedDepositFeatures._extract_senior_rate raw) as [sr|] eqn:Esr.
  2:{ intros [= <-]. apply senior_rate_failure in Esr. tauto. }
  destruct (tenure_ok raw "min") as [tmin ->].
  destruct (tenure_ok raw "max") as [tmax ->].
  destruct (FixedDepositFeatures._extract_deposit_limit raw "min") as [dmin|] eqn:Edmin.
  2:{ destruct (deposit_limit_ok raw "min") as [v Hv]. congruence. }
  destruct (FixedDepositFeatures._extract_deposit_limit raw "max") as [dmax|] eqn:Edmax.
  2:{ destruct (deposit_limit_ok raw "max") as [v Hv]. congruence. }
  destruct (FixedDepositFeatures._extract_bank_type raw) as [bt|] eqn:Ebt.
  2:{ intros [= <-]. apply bank_type_failure in Ebt. tauto. }
  destruct (FixedDepositFeatures._extract_credit_rating raw) as [cr|] eqn:Ecr.
  2:{ intros [= <-]. apply credit_rating_failure in Ecr. tauto. }
  apply deposit_limit_positive in Edmax as (qmax & Hqmax & _).
  unfold FixedDepositFeatures._calculate_rate_premium,
    FixedDepositFeatures._calculate_flexibility_score, dict_get_default,
    mbind, result_bind.
  lookup_key. lookup_key. cbn [py_lookup py_num].
  lookup_key. lookup_key. cbn [py_num]. rewrite Hqmax. discriminate.
Qed.

Lemma extract_features_failure_witness :
  AttributeError = AttributeError
  /\ ~ (str_or_absent numbered_deposit "description"
        /\ str_or_absent numbered_deposit "bank_type"
        /\ str_or_absent numbered_deposit "bank_name").
Proof.
  apply (extract_features_fails_only_on_non_strings numbered_deposit AttributeError).
  vm_compute. reflexivity.
Defined.

(** ** The fixed-deposit score and the interest rate *)

(** A higher interest rate can lower the score.  From 6.25 % on, the
    rate is worth its full 50 points; a deposit whose senior-citizen
    rate is above its maximum rate gets 20 points for it, and only 10
    once the maximum rate has caught up.  So raising the maximum rate
    from below the senior rate to the senior rate or above costs exactly
    10 points, everything else unchanged. *)
Theorem fixed_deposit_score_drops_with_rate
    (p : FixedDepositInfo) (prefs : Preferences) (senior rate rate' : Q) :
  senior_citizen_rate p = Some senior ->
  6.25 <= rate ->
  rate < senior ->
  senior <= rate' ->
  FixedDepositProcessor.calculate_score (with_max_rate p (Some rate')) prefs + 10
  == FixedDepositProcessor.calculate_score (with_max_rate p (Some rate)) prefs.
Proof.
  intros Hsenior Hfull Hlt Hle.
  unfold FixedDepositProcessor.calculate_score, with_max_rate.
  cbn [bank_name interest_rate_max tenure_from_days tenure_to_days senior_citizen_rate].
  rewrite Hsenior.
  assert (Hr : py_min (rate * 8) 50 == 50) by (apply Q.min_r; lra).
  assert (Hr' : py_min (rate' * 8) 50 == 50) by (apply Q.min_r; lra).
  assert (Hclamp : forall s, s <= 100 -> py_min s 100 == s) by (intros; apply Q.min_l; assumption).
  match goal with |- context [any ?f ?l] => destruct (any f l) end;
    destruct (tenure_from_days p) as [from_days|], (tenure_to_days p) as [to_days|];
    cbn [negb andb]; qcases; cbn [negb andb]; try lra;
    repeat match goal with
      | |- context [if ?b then _ else _] => destruct b
      end;
    rewrite !Hclamp by (rewrite ?Hr, ?Hr'; lra);
    rewrite Hr, Hr'; lra.
Qed.

Lemma fixed_deposit_score_drops_witness :
  FixedDepositProcessor.calculate_score
    (with_max_rate (with_senior_rate example_deposit (Some 7.6)) (Some 8)) ∅ + 10
  == FixedDepositProcessor.calculate_score
       (with_max_rate (with_senior_rate example_deposit (Some 7.6)) (Some 7)) ∅.
Proof.
  apply (fixed_deposit_score_drops_with_rate
           (with_senior_rate example_deposit (Some 7.6)) ∅ 7.6 7 8).
  - reflexivity.
  - vm_compute. discriminate.
  - reflexivity.
  - vm_compute. discriminate.
Defined.

(** ** The credit-card loader *)

Lemma title_from_length (b : bool) (s : string) :
  String.length (title_from b s) = String.length s.
Proof.
  revert b. induction s as [|c s IH]; intros b; simpl; [reflexivity|].
  destruct (is_lower c || is_upper c); simpl; rewrite IH; reflexivity.
Qed.

Lemma title_nonempty (s : string) : s <> "" -> String.eqb (title s) "" = false.
Proof.
  intros Hs. apply String.eqb_neq. intros Ht.
  pose proof (title_from_length false s) as Hlen. fold (title s) in Hlen.
  rewrite Ht in Hlen. destruct s; [congruence | discriminate Hlen].
Qed.

Lemma lower_nonempty (s : string) : s <> "" -> lower s <> "".
Proof. destruct s; [congruence | discriminate]. Qed.

Lemma with_bank_has_bank (bank_name : string) (card card' : PyVal) :
  bank_name <> "" ->
  CreditCardDataLoader.with_bank bank_name card = Ok card' -> has_bank card'.
Proof.
  intros Hne. unfold CreditCardDataLoader.with_bank, mbind, result_bind.
  destruct card as [| | | |s|l|d]; simpl; try discriminate.
  - destruct (contains "bank" s); simpl; discriminate.
  - destruct (existsb _ l); simpl; discriminate.
  - destruct (d !! "bank") as [bank|] eqn:Eb.
    + rewrite bool_decide_eq_true_2 by eauto. destruct (truthy bank) eqn:Et; simpl.
      * intros [= <-]. exists d, bank. auto.
      * intros [= <-]. eexists _, _. split; [reflexivity|].
        rewrite lookup_insert_eq. split; [reflexivity|].
        simpl. rewrite title_nonempty by exact Hne. reflexivity.
    + rewrite bool_decide_eq_false_2 by (intros [x Hx]; discriminate Hx). simpl.
      intros [= <-]. eexists _, _. split; [reflexivity|].
      rewrite lookup_insert_eq. split; [reflexivity|].
      simpl. rewrite title_nonempty by exact Hne. reflexivity.
Qed.

Lemma load_bank_data_has_bank (dirs : list string)
    (files : string -> result (list PyVal)) (bank_name : string) (cards : list PyVal) :
  bank_name <> "" ->
  CreditCardDataLoader._load_bank_data dirs files bank_name = Ok cards ->
  Forall has_bank cards.
Proof.
  intros Hne. unfold CreditCardDataLoader._load_bank_data, mbind, result_bind.
  destruct (negb _); [discriminate|].
  destruct (files bank_name) as [cards_data|]; [|discriminate].
  intros Hcards. apply for_each_Forall2 in Hcards.
  induction Hcards as [|card card' l l' Hcard _ IH]; constructor; [|exact IH].
  eapply with_bank_has_bank; eassumption.
Qed.

(** Every card that [load_data] returns is a record with a bank that
    counts as present (its own, or the title-cased name of its
    directory), whatever the files hold: the processor never falls back
    on the issuer or on "Unknown Bank" for a loaded card. *)
Theorem loaded_cards_have_a_bank (dirs : list string)
    (files : string -> result (list PyVal)) (source : PyVal) (cards : list PyVal) :
  Forall (fun bank_name => bank_name <> "") dirs ->
  CreditCardDataLoader.load_data dirs files source = Ok cards ->
  Forall (fun card =>
            exists d bank,
              card = PDict d /\ truthy bank = true
              /\ dict_get_default d "bank"
                   (dict_get_default d "issuer" (PStr "Unknown Bank")) = bank)
    cards.
Proof.
  intros Hdirs Hload.
  cut (Forall has_bank cards).
  { intros Hall. eapply Forall_impl; [exact Hall|].
    intros card (d & bank & -> & Hb & Ht). exists d, bank.
    unfold dict_get_default. rewrite Hb. auto. }
  unfold CreditCardDataLoader.load_data in Hload.
  destruct (truthy source) eqn:Et.
  - unfold mbind, result_bind in Hload.
    destruct source; simpl in Hload; try discriminate.
    eapply load_bank_data_has_bank; [|exact Hload].
    apply lower_nonempty. intros ->. discriminate Et.
  - injection Hload as <-. clear Et.
    generalize dirs at 1. intros all_dirs.
    induction Hdirs as [|bank_name dirs Hne _ IH]; simpl; [constructor|].
    apply Forall_app. split; [|exact IH].
    destruct (CreditCardDataLoader._load_bank_data all_dirs files bank_name) as [l|] eqn:E;
      [|constructor].
    eapply load_bank_data_has_bank; eassumption.
Qed.

Lemma loaded_cards_witness :
  Forall (fun card =>
            exists d bank,
              card = PDict d /\ truthy bank = true
              /\ dict_get_default d "bank"
                   (dict_get_default d "issuer" (PStr "Unknown Bank")) = bank)
    [PDict (<["bank" := PStr "Hdfc"]> (<["name" := PStr "Millennia"]> ∅));
     PDict (<["name" := PStr "Regalia"]> (<["bank" := PStr "HDFC Bank"]> ∅))].
Proof.
  apply (loaded_cards_have_a_bank example_directories example_cards_file PNone).
  - repeat constructor; discriminate.
  - vm_compute. reflexivity.
Defined.

(** ** Fixed deposits by interest rate *)

Lemma insert_desc_perm {A} (key : A -> Q) (x : A) (l : list A) :
  Permutation (insert_desc key x l) (x :: l).
Proof.
  induction l as [|y l IH]; simpl; [reflexivity|].
  destruct (Qlt_bool (key x) (key y)); [|reflexivity].
  rewrite IH. apply perm_swap.
Qed.

Lemma sorted_desc_perm {A} (key : A -> Q) (l : list A) :
  Permutation (sorted_desc key l) l.
Proof.
  induction l as [|x l IH]; simpl; [reflexivity|].
  rewrite insert_desc_perm. constructor. exact IH.
Qed.

Lemma insert_desc_sorted {A} (key : A -> Q) (x : A) (l : list A) :
  StronglySorted (fun a b => key b <= key a) l ->
  StronglySorted (fun a b => key b <= key a) (insert_desc key x l).
Proof.
  induction 1 as [|y l Hsorted IH Hall]; simpl.
  - repeat constructor.
  - destruct (Qlt_bool (key x) (key y)) eqn:E.
    + apply Qlt_bool_iff in E.
      constructor; [exact IH|].
      apply (Permutation_Forall (Permutation_sym (insert_desc_perm key x l))).
      constructor; [lra | exact Hall].
    + apply Qlt_bool_false in E.
      constructor; [constructor; assumption|].
      constructor; [exact E|].
      eapply Forall_impl; [exact Hall|].
      intros b Hb. simpl in Hb. lra.
Qed.

Lemma sorted_desc_sorted {A} (key : A -> Q) (l : list A) :
  StronglySorted (fun a b => key b <= key a) (sorted_desc key l).
Proof.
  induction l as [|x l IH]; simpl; [constructor | apply insert_desc_sorted, IH].
Qed.

Lemma with_extracted_rate_spec `{PyBuiltins} (min_rate : Q) (fd fd' : PyVal) :
  FixedDepositRates.with_extracted_rate min_rate fd = Ok (Some fd') ->
  exists d rate,
    fd = PDict d
    /\ fd' = PDict (<["extracted_max_rate" := PFloat rate]> d)
    /\ 0 < rate /\ min_rate <= rate.
Proof.
  unfold FixedDepositRates.with_extracted_rate, mbind, result_bind.
  destruct (FixedDepositRates._extract_max_interest_rate fd) as [[rate|]|] eqn:Er;
    try discriminate.
  destruct (negb (Qeq_bool rate 0) && Qle_bool min_rate rate) eqn:Ek; [|discriminate].
  apply andb_true_iff in Ek as [_ Hmin]. apply Qle_bool_iff in Hmin.
  destruct fd as [| | | | | |d]; simpl; try discriminate.
  intros [= <-]. exists d, rate. repeat split; auto.
  unfold FixedDepositRates._extract_max_interest_rate, mbind, result_bind in Er.
  destruct (foldM _ _ _) as [m|]; [|discriminate].
  destruct (Qlt_bool 0 m) eqn:Em; [|discriminate].
  injection Er as <-. apply Qlt_bool_iff, Em.
Qed.

(** The deposits that [get_fds_by_interest_rate] returns are records
    with their rate stored under ['extracted_max_rate']; the rate is
    positive and at least [min_rate], and rates never go up along the
    list.  This holds whatever the file holds. *)
Theorem fds_by_interest_rate_sorted_above_min `{PyBuiltins}
    (fd_file : result (list PyVal)) (min_rate : Q) :
  StronglySorted
    (fun a b => FixedDepositRates.extracted_max_rate b
                <= FixedDepositRates.extracted_max_rate a)
    (FixedDepositRates.get_fds_by_interest_rate fd_file min_rate)
  /\ Forall (fun fd =>
               exists d rate,
                 fd = PDict (<["extracted_max_rate" := PFloat rate]> d)
                 /\ FixedDepositRates.extracted_max_rate fd = rate
                 /\ 0 < rate /\ min_rate <= rate)
       (FixedDepositRates.get_fds_by_interest_rate fd_file min_rate).
Proof.
  unfold FixedDepositRates.get_fds_by_interest_rate, mbind, result_bind.
  destruct (FixedDepositDataLoader.load_data fd_file PNone) as [all_fds|];
    [|split; constructor].
  destruct (for_each _ all_fds) as [kept|] eqn:Ek; [|split; constructor].
  split; [apply sorted_desc_sorted|].
  apply (Permutation_Forall (Permutation_sym (sorted_desc_perm _ _))).
  apply for_each_Forall2 in Ek. clear -Ek.
  induction Ek as [|fd o l l' Hfd _ IH]; [constructor|].
  destruct o as [fd'|]; [|exact IH].
  change (omap id (Some fd' :: l')) with (fd' :: omap id l').
  constructor; [|exact IH].
  apply with_extracted_rate_spec in Hfd as (d & rate & -> & -> & Hpos & Hmin).
  exists d, rate. repeat split; auto.
  unfold FixedDepositRates.extracted_max_rate, dict_get_default.
  rewrite lookup_insert_eq. reflexivity.
Qed.

(** The deposits of [rates_file] at 6 % or more: C (7.25) before A
    (6.5); B is left out. *)
Example rates_file_by_rate :
  map FixedDepositRates.extracted_max_rate
    (@FixedDepositRates.get_fds_by_interest_rate example_builtins rates_file 6)
  = [725 # 100; 65 # 10].
Proof. vm_compute. reflexivity. Qed.

(** ** Loading fixed deposits of one source *)

Lemma filter_by_source_spec (source_lower : string) (fds : list PyVal) :
  FixedDepositDataLoader.filter_by_source source_lower fds
  = if forallb searchable fds
    then Ok (List.filter (mentions_source source_lower) fds)
    else Raise AttributeError.
Proof.
  induction fds as [|fd fds IH]; [reflexivity|].
  cbn [FixedDepositDataLoader.filter_by_source forallb List.filter].
  unfold mbind, result_bind. rewrite IH. clear IH.
  set (rest_ok := forallb searchable fds).
  set (rest := List.filter (mentions_source source_lower) fds).
  destruct fd as [| | | | | |d]; try reflexivity.
  unfold py_get, searchable, mentions_source.
  destruct (dict_get_default d "bank_name" (PStr "")) as [| | | |b| |]; try reflexivity.
  destruct (dict_get_default d "about" (PStr "")) as [| | | |a| |]; try reflexivity.
  cbn [py_lower andb]. destruct rest_ok; reflexivity.
Qed.

(** Loading with a source: when every record of the file is a dict whose
    bank name and description are strings, the result is the records
    that mention the source, in file order; one record that is not makes
    the load raise [AttributeError], whether or not it would match. *)
Theorem filtered_load_needs_searchable_records
    (fd_file : result (list PyVal)) (all_fds : list PyVal) (source : string) :
  FixedDepositDataLoader.load_data fd_file PNone = Ok all_fds ->
  source <> "" ->
  FixedDepositDataLoader.load_data fd_file (PStr source)
  = if forallb searchable all_fds
    then Ok (List.filter (mentions_source (lower source)) all_fds)
    else Raise AttributeError.
Proof.
  intros Hall Hsource. unfold FixedDepositDataLoader.load_data in *.
  unfold mbind, result_bind in *.
  destruct fd_file as [items|]; [|discriminate].
  destruct (for_each FixedDepositDataLoader.unwrap_source items) as [processed|];
    [|discriminate].
  cbn [truthy] in *. injection Hall as ->.
  apply String.eqb_neq in Hsource. rewrite Hsource. cbn [negb py_lower].
  apply filter_by_source_spec.
Qed.

Lemma filtered_load_witness :
  FixedDepositDataLoader.load_data mixed_file (PStr "Axis")
  = if forallb searchable
         [PDict (<["bank_name" := PStr "Axis Bank"]> ∅);
          PDict (<["bank_name" := PStr "SBI"]> (<["about" := PInt 2024]> ∅))]
    then Ok (List.filter (mentions_source (lower "Axis"))
               [PDict (<["bank_name" := PStr "Axis Bank"]> ∅);
                PDict (<["bank_name" := PStr "SBI"]> (<["about" := PInt 2024]> ∅))])
    else Raise AttributeError.
Proof.
  apply (filtered_load_needs_searchable_records mixed_file _ "Axis").
  - vm_compute. reflexivity.
  - discriminate.
Defined.

(** The load of [mixed_file] for "Axis" fails, although its first
    record matches and the second does not. *)
Example mixed_file_axis :
  FixedDepositDataLoader.load_data mixed_file (PStr "Axis") = Raise AttributeError.
Proof. vm_compute. reflexivity. Qed.

(** ** Records that are not dicts *)

Lemma for_each_app {A B} (f : A -> result B) (l1 l2 : list A) :
  for_each f (l1 ++ l2)%list
  = (a ← for_each f l1; b ← for_each f l2; Ok (a ++ b)%list).
Proof.
  induction l1 as [|x l1 IH]; simpl.
  - destruct (for_each f l2); reflexivity.
  - destruct (f x) as [y|]; simpl; [|reflexivity].
    rewrite IH. destruct (for_each f l1); simpl; [|reflexivity].
    destruct (for_each f l2); reflexivity.
Qed.

Lemma for_each_dicts `{PyBuiltins} (processor : BaseProductProcessor)
    (prefs : Preferences) (records : list PyDict) :
  exists scored,
    for_each (RawRecords.score_record processor prefs) (map PDict records) = Ok scored
    /\ concat scored
       = flat_map
           (fun raw_product =>
              match FinancialProductManager.score_one processor prefs raw_product with
              | Ok scored_product => [scored_product]
              | Raise _ => []
              end)
           records.
Proof.
  induction records as [|d records (scored & Hscored & Hconcat)].
  - exists []. split; reflexivity.
  - cbn [map for_each flat_map RawRecords.score_record].
    rewrite Hscored. unfold mbind, result_bind.
    destruct (FinancialProductManager.score_one processor prefs d) as [sp|];
      eexists; (split; [reflexivity|]); simpl; rewrite Hconcat; reflexivity.
Qed.

(** On a file of dicts the two embeddings of [_process_category]
    agree. *)
Lemma typed_records_agree `{PyBuiltins} (cc fd mf loader : DataLoader)
    (c : ProductCategory) (q : string) (prefs : Preferences) :
  FinancialProductManager.data_loaders cc fd mf c = Some loader ->
  RawRecords._process_category (raw_load loader) c q prefs
  = FinancialProductManager._process_category cc fd mf c q prefs.
Proof.
  intros Hloader.
  unfold RawRecords._process_category, FinancialProductManager._process_category,
    index_by_category, raw_load.
  rewrite Hloader.
  destruct c; simpl in Hloader; try discriminate; simpl;
    (destruct (load_data loader _) as [records|]; simpl; [|reflexivity]);
    match goal with
    | |- context [for_each (RawRecords.score_record ?p ?prefs) (map PDict ?r)] =>
        destruct (for_each_dicts p prefs r) as (scored & -> & Hconcat)
    end;
    simpl; rewrite Hconcat; reflexivity.
Qed.


(** A dict on which processing or scoring raises is skipped: the
    category gives the same result as if the record were not in the
    file, whatever the other items are.  (The exception is one that the
    code raises too: not the [TypeError] by which the typed products of
    the embedding refuse a field of another type.) *)
Theorem failing_record_is_skipped `{PyBuiltins}
    (c : ProductCategory) (processor : BaseProductProcessor)
    (before after : list PyVal) (bad : PyDict) (e : PyExn)
    (q : string) (prefs : Preferences) :
  FinancialProductManager.processors c = Some processor ->
  FinancialProductManager.score_one processor prefs bad = Raise e ->
  e <> TypeError ->
  RawRecords._process_category (fun _ => Ok (before ++ PDict bad :: after)%list) c q prefs
  = RawRecords._process_category (fun _ => Ok (before ++ after)%list) c q prefs.
Proof.
  intros Hproc Hbad _.
  unfold RawRecords._process_category, index_by_category.
  rewrite Hproc. cbn [mbind result_bind].
  destruct (FinancialProductManager.rankers c); [|reflexivity].
  cbn [mbind result_bind]. rewrite !for_each_app.
  cbn [for_each RawRecords.score_record]. rewrite Hbad.
  unfold mbind, result_bind.
  destruct (for_each _ before) as [scored|]; [|reflexivity].
  destruct (for_each _ after) as [scored'|]; [|reflexivity].
  rewrite !concat_app. reflexivity.
Qed.

Lemma failing_record_is_skipped_witness :
  @RawRecords._process_category example_builtins
    (fun _ => Ok ([PDict good_deposit_record; PDict example_card]
                  ++ PDict bad_tenure_record :: [])%list)
    FIXED_DEPOSITS "" ∅
  = @RawRecords._process_category example_builtins
      (fun _ => Ok ([PDict good_deposit_record; PDict example_card] ++ [])%list)
      FIXED_DEPOSITS "" ∅.
Proof.
  apply (@failing_record_is_skipped example_builtins FIXED_DEPOSITS
           (@FixedDepositProcessor.processor example_builtins)
           [PDict good_deposit_record; PDict example_card] [] bad_tenure_record
           ValueError).
  - reflexivity.
  - vm_compute. reflexivity.
  - discriminate.
Defined.


